(** * Patient monitoring: the queue triggers, the models and the broadcast

    A shallow embedding of the monitoring logic of the hospital data
    integrator:

    - [Migration]: the PostgreSQL schema of
      [backend/migrations/versions/001_create_base_tables.py] (tables,
      generated columns) and the trigger functions of
      [002_create_triggers_and_functions.py];
    - [Py]: the Python values, exceptions and dictionaries the other
      modules share;
    - [Models]: the DynamoDB dataclasses of [src/lib/models.py];
    - [Websocket]: the connection manager of [src/utils/websocket.py];
    - [MonitorHandler]: the periodic sweep of
      [src/functions/monitor_patients/handler.py];
    - [Config]: the pydantic configuration of [src/utils/config.py].

    The vocabulary of the properties and the sample data follow the
    modules; the properties come last. *)

From Stdlib Require Import ZArith QArith Qround Ascii.
From stdpp Require Import gmap strings list sorting pretty.

#[local] Open Scope Z_scope.

(** ** The SQL schema and its triggers *)
Module Migration.

(** A [TIMESTAMP] is a number of microseconds since the epoch, which is
    how PostgreSQL stores it. *)
Definition timestamp := Z.

Definition usec_per_hour : positive := 3600000000%positive.

(** [EXTRACT(EPOCH FROM (NOW() - t))/3600]: the elapsed time in hours,
    an exact fraction of the elapsed microseconds. *)
Definition epoch_hours (now t : timestamp) : Q := (now - t) # usec_per_hour.

Definition Qlt_bool (a b : Q) : bool := negb (Qle_bool b a).

(** Assignment of a [numeric] to an [INTEGER] column rounds to the nearest
    integer, ties away from zero. *)
Definition numeric_to_integer (q : Q) : Z :=
  if Qle_bool 0 q then Qfloor (q + (1 # 2)) else - Qfloor (- q + (1 # 2)).

(** *** Table [admissions] *)

(** The columns a statement writes.  The audit columns [created_at] and
    [updated_at] play no part in any trigger and are left out. *)
Record admission_cols := AdmissionCols {
  admission_id : string;
  patient_id : string;
  admission_date : timestamp;
  discharge_date : option timestamp;
  ward : string;
  bed_number : string;
  status : string;
  last_test_date : option timestamp
}.

(** A stored row: the written columns and the two [GENERATED ALWAYS ...
    STORED] columns, computed when the row is written. *)
Record admission_row := AdmissionRow {
  adm_cols :> admission_cols;
  hours_since_test : option Z;
  needs_attention : bool
}.

(** [hours_since_test INTEGER GENERATED ALWAYS AS
      (EXTRACT(EPOCH FROM (NOW() - last_test_date))/3600)]:
    [NULL] when [last_test_date] is [NULL]. *)
Definition gen_hours_since_test (now : timestamp) (c : admission_cols) : option Z :=
  match last_test_date c with
  | Some t => Some (numeric_to_integer (epoch_hours now t))
  | None => None
  end.

(** [needs_attention BOOLEAN GENERATED ALWAYS AS
      (status = 'Active' AND
       (last_test_date IS NULL OR
        EXTRACT(EPOCH FROM (NOW() - last_test_date))/3600 > 48))].
    [status] is [NOT NULL], and the comparison is only [NULL] when
    [last_test_date IS NULL] is true, so the value is never [NULL]. *)
Definition gen_needs_attention (now : timestamp) (c : admission_cols) : bool :=
  bool_decide (status c = "Active") &&
  match last_test_date c with
  | None => true
  | Some t => Qlt_bool (inject_Z 48) (epoch_hours now t)
  end.

Definition store_admission (now : timestamp) (c : admission_cols) : admission_row :=
  {| adm_cols := c;
     hours_since_test := gen_hours_since_test now c;
     needs_attention := gen_needs_attention now c |}.

(** *** Table [lab_tests] *)
Record lab_test_row := LabTestRow {
  test_id : string;
  lt_patient_id : string;
  lt_admission_id : string;
  test_type : string;
  test_date : timestamp;
  result : option string;
  lt_status : string;
  lab_location : string
}.

(** *** Table [monitoring_queue]

    The primary key [(patient_id, admission_id)] is the key of the map that
    holds the table; a row carries the remaining columns. *)
Record queue_row := QueueRow {
  q_hours_since_test : option Z;
  last_checked : timestamp
}.

(** [priority INTEGER GENERATED ALWAYS AS
      (CASE WHEN hours_since_test >= 48 THEN 1
            WHEN hours_since_test >= 36 THEN 2
            ELSE 3 END) STORED].
    The column is a function of [hours_since_test] of the same row alone.
    On a [NULL] the two comparisons are [NULL], no [WHEN] is taken, and the
    [ELSE] branch applies. *)
Definition priority (h : option Z) : Z :=
  match h with
  | Some h => if bool_decide (48 ≤ h) then 1
              else if bool_decide (36 ≤ h) then 2
              else 3
  | None => 3
  end.

Definition q_priority (r : queue_row) : Z := priority (q_hours_since_test r).

Definition queue_key : Type := string * string.

(** *** The database *)
Record db := Db {
  patients : gset string;
  admissions : gmap string admission_row;
  lab_tests : gmap string lab_test_row;
  monitoring_queue : gmap queue_key queue_row
}.

Definition empty_db : db :=
  {| patients := ∅; admissions := ∅; lab_tests := ∅; monitoring_queue := ∅ |}.

Definition with_admissions (a : gmap string admission_row) (d : db) : db :=
  {| patients := patients d; admissions := a;
     lab_tests := lab_tests d; monitoring_queue := monitoring_queue d |}.

Definition with_queue (q : gmap queue_key queue_row) (d : db) : db :=
  {| patients := patients d; admissions := admissions d;
     lab_tests := lab_tests d; monitoring_queue := q |}.

Definition with_lab_tests (l : gmap string lab_test_row) (d : db) : db :=
  {| patients := patients d; admissions := admissions d;
     lab_tests := l; monitoring_queue := monitoring_queue d |}.

(** *** Trigger function [update_monitoring_queue]

    [INSERT ... ON CONFLICT (patient_id, admission_id) DO UPDATE SET
    hours_since_test = NEW.hours_since_test] when [NEW.needs_attention],
    [DELETE] of the row of that key otherwise.  A fresh row takes the
    server default [now()] for [last_checked]; on a conflict only
    [hours_since_test] changes. *)
Definition update_monitoring_queue (now : timestamp) (NEW : admission_row)
    (q : gmap queue_key queue_row) : gmap queue_key queue_row :=
  let key := (patient_id NEW, admission_id NEW) in
  if needs_attention NEW then
    match q !! key with
    | Some old =>
        <[key := {| q_hours_since_test := hours_since_test NEW;
                    last_checked := last_checked old |}]> q
    | None =>
        <[key := {| q_hours_since_test := hours_since_test NEW;
                    last_checked := now |}]> q
    end
  else delete key q.

(** Writing a row of [admissions] (by [INSERT] or [UPDATE]): the generated
    columns are computed, the row is stored, and the row trigger
    [trg_monitoring_queue] runs on it. *)
Definition write_admission (now : timestamp) (c : admission_cols) (d : db) : db :=
  let NEW := store_admission now c in
  with_queue (update_monitoring_queue now NEW (monitoring_queue d))
    (with_admissions (<[admission_id c := NEW]> (admissions d)) d).

(** *** Trigger function [update_admission_last_test]

    [UPDATE admissions SET last_test_date = NEW.test_date
     WHERE admission_id = NEW.admission_id
       AND (last_test_date IS NULL OR NEW.test_date > last_test_date)].
    The update of the row fires [trg_monitoring_queue] in turn. *)
Definition set_last_test_date (t : timestamp) (c : admission_cols) : admission_cols :=
  {| admission_id := admission_id c; patient_id := patient_id c;
     admission_date := admission_date c; discharge_date := discharge_date c;
     ward := ward c; bed_number := bed_number c; status := status c;
     last_test_date := Some t |}.

Definition advances (t : timestamp) (cur : option timestamp) : bool :=
  match cur with
  | None => true
  | Some t0 => bool_decide (t0 < t)
  end.

Definition update_admission_last_test (now : timestamp) (NEW : lab_test_row)
    (d : db) : db :=
  match (admissions d !! lt_admission_id NEW : option admission_row) with
  | Some row =>
      if advances (test_date NEW) (last_test_date row)
      then write_admission now (set_last_test_date (test_date NEW) row) d
      else d
  | None => d
  end.

(** *** Statements

    A statement that violates a constraint raises an error and changes
    nothing: it yields [None].  The foreign keys are those of the schema:
    [admissions.patient_id], [lab_tests.patient_id],
    [lab_tests.admission_id], [monitoring_queue.patient_id] and
    [monitoring_queue.admission_id], all [ON DELETE CASCADE]. *)

Definition insert_patient (pid : string) (d : db) : option db :=
  if bool_decide (pid ∈ patients d) then None
  else Some {| patients := {[pid]} ∪ patients d; admissions := admissions d;
               lab_tests := lab_tests d; monitoring_queue := monitoring_queue d |}.

(** [INSERT INTO admissions]: the primary key must be fresh and the patient
    must exist. *)
Definition insert_admission (now : timestamp) (c : admission_cols) (d : db)
    : option db :=
  match (admissions d !! admission_id c : option admission_row) with
  | Some _ => None
  | None =>
      if bool_decide (patient_id c ∈ patients d)
      then Some (write_admission now c d)
      else None
  end.

(** [UPDATE admissions SET ... WHERE admission_id = ...], the key staying
    as it is: no row, no change and no trigger; otherwise the new patient
    must exist. *)
Definition update_admission (now : timestamp) (c : admission_cols) (d : db)
    : option db :=
  match (admissions d !! admission_id c : option admission_row) with
  | None => Some d
  | Some _ =>
      if bool_decide (patient_id c ∈ patients d)
      then Some (write_admission now c d)
      else None
  end.

Definition lab_test_fk_ok (t : lab_test_row) (d : db) : bool :=
  bool_decide (lt_patient_id t ∈ patients d) &&
  bool_decide (is_Some (admissions d !! lt_admission_id t)).

(** [INSERT INTO lab_tests], then the row trigger [trg_update_last_test]. *)
Definition insert_lab_test (now : timestamp) (t : lab_test_row) (d : db)
    : option db :=
  match lab_tests d !! test_id t with
  | Some _ => None
  | None =>
      if lab_test_fk_ok t d
      then Some (update_admission_last_test now t
                   (with_lab_tests (<[test_id t := t]> (lab_tests d)) d))
      else None
  end.

(** [UPDATE lab_tests SET ... WHERE test_id = ...]: the same trigger runs
    ([AFTER INSERT OR UPDATE]). *)
Definition update_lab_test (now : timestamp) (t : lab_test_row) (d : db)
    : option db :=
  match lab_tests d !! test_id t with
  | None => Some d
  | Some _ =>
      if lab_test_fk_ok t d
      then Some (update_admission_last_test now t
                   (with_lab_tests (<[test_id t := t]> (lab_tests d)) d))
      else None
  end.

(** [DELETE FROM admissions WHERE admission_id = aid], with its cascades to
    [lab_tests] and [monitoring_queue]. *)
Definition delete_admission (aid : string) (d : db) : db :=
  {| patients := patients d;
     admissions := delete aid (admissions d);
     lab_tests := filter (λ kv, lt_admission_id kv.2 ≠ aid) (lab_tests d);
     monitoring_queue := filter (λ kv, kv.1.2 ≠ aid) (monitoring_queue d) |}.

(** [DELETE FROM patients WHERE patient_id = pid]: the admissions of the
    patient go, with the tests and queue rows that refer to one of them or
    to the patient. *)
Definition delete_patient (pid : string) (d : db) : db :=
  let kept := filter (λ kv : string * admission_row, patient_id kv.2 ≠ pid)
                (admissions d) in
  {| patients := patients d ∖ {[pid]};
     admissions := kept;
     lab_tests :=
       filter (λ kv, lt_patient_id kv.2 ≠ pid ∧ is_Some (kept !! lt_admission_id kv.2))
         (lab_tests d);
     monitoring_queue :=
       filter (λ kv, kv.1.1 ≠ pid ∧ is_Some (kept !! kv.1.2))
         (monitoring_queue d) |}.

(** *** Function [process_monitoring_batch]

    The CTE [batch] selects the rows with [priority = 1], most overdue
    first, at most [p_batch_size] of them, skipping the rows another open
    transaction has locked ([FOR UPDATE SKIP LOCKED]); the [UPDATE] then
    stamps [last_checked = NOW()] on each and returns
    [(patient_id, hours_since_test)].  [locked] is the set of rows other
    transactions hold; the caller's transaction holds the rows it selected
    until it ends.  The result rows are given in the order of the CTE. *)

(** [ORDER BY hours_since_test DESC] (a [NULL] sorts first). *)
Definition desc_leb (a b : option Z) : bool :=
  match a, b with
  | None, _ => true
  | Some _, None => false
  | Some x, Some y => bool_decide (y ≤ x)
  end.

Definition hours_desc (x y : queue_key * queue_row) : Prop :=
  desc_leb (q_hours_since_test x.2) (q_hours_since_test y.2) = true.

#[export] Instance hours_desc_dec x y : Decision (hours_desc x y).
Proof. unfold hours_desc. apply _. Defined.

Definition stamp (now : timestamp) (r : queue_row) : queue_row :=
  {| q_hours_since_test := q_hours_since_test r; last_checked := now |}.

(** The rows of the CTE, which the calling transaction now holds locked,
    and the table after the [UPDATE]. *)
Record batch_result := BatchResult {
  batch_rows : list (queue_key * queue_row);
  queue_after : gmap queue_key queue_row
}.

(** [RETURNING b.patient_id, b.hours_since_test]. *)
Definition returned (r : batch_result) : list (string * option Z) :=
  (λ kv, (kv.1.1, q_hours_since_test kv.2)) <$> batch_rows r.

Definition claimed (r : batch_result) : list queue_key := fst <$> batch_rows r.

Definition batch (locked : gset queue_key) (p_batch_size : nat)
    (q : gmap queue_key queue_row) : list (queue_key * queue_row) :=
  take p_batch_size
    (merge_sort hours_desc
       (filter (λ kv, q_priority kv.2 = 1 ∧ kv.1 ∉ locked) (map_to_list q))).

(** A negative [LIMIT] is an error. *)
Definition process_monitoring_batch (locked : gset queue_key) (p_batch_size : Z)
    (now : timestamp) (q : gmap queue_key queue_row) : option batch_result :=
  if bool_decide (p_batch_size < 0) then None
  else
    let b := batch locked (Z.to_nat p_batch_size) q in
    Some {| batch_rows := b;
            queue_after := foldr (λ kv, alter (stamp now) kv.1) q b |}.

(** *** Scripts

    Each statement runs at its own time, in its own transaction; a failed
    statement is rolled back and the script goes on. *)
Inductive statement :=
  | InsertPatient (pid : string)
  | DeletePatient (pid : string)
  | InsertAdmission (c : admission_cols)
  | UpdateAdmission (c : admission_cols)
  | DeleteAdmission (aid : string)
  | InsertLabTest (t : lab_test_row)
  | UpdateLabTest (t : lab_test_row)
  | ProcessMonitoringBatch (p_batch_size : Z).

Definition exec (now : timestamp) (s : statement) (d : db) : option db :=
  match s with
  | InsertPatient pid => insert_patient pid d
  | DeletePatient pid => Some (delete_patient pid d)
  | InsertAdmission c => insert_admission now c d
  | UpdateAdmission c => update_admission now c d
  | DeleteAdmission aid => Some (delete_admission aid d)
  | InsertLabTest t => insert_lab_test now t d
  | UpdateLabTest t => update_lab_test now t d
  | ProcessMonitoringBatch p =>
      r ← process_monitoring_batch ∅ p now (monitoring_queue d);
      Some (with_queue (queue_after r) d)
  end.

Definition exec_or_rollback (d : db) (s : timestamp * statement) : db :=
  default d (exec s.1 s.2 d).

Definition run (script : list (timestamp * statement)) (d : db) : db :=
  foldl exec_or_rollback d script.

End Migration.

(** ** Python values, exceptions and dictionaries *)
Module Py.

Inductive exn :=
  | TypeError
  | ValueError
  | KeyError (key : string)
  | AttributeError
  | GoneException
  | ValidationError (field : string)
  | OtherException (what : string).

Inductive result (A : Type) :=
  | Ok (a : A)
  | Raise (e : exn).
Arguments Ok {A} a.
Arguments Raise {A} e.

#[export] Instance result_ret : MRet result := λ A a, Ok a.
#[export] Instance result_bind : MBind result := λ A B f m,
  match m with
  | Ok a => f a
  | Raise e => Raise e
  end.
#[export] Instance result_fmap : FMap result := λ A B f m,
  match m with
  | Ok a => Ok (f a)
  | Raise e => Raise e
  end.

(** The values an attribute or a dictionary entry holds here. *)
Inductive pyval :=
  | PyNone
  | PyStr (s : string)
  | PyInt (n : Z).

#[export] Instance pyval_eq_dec : EqDecision pyval.
Proof. solve_decision. Defined.

(** [bool(v)]: [None], the empty string and zero are false. *)
Definition truthy (v : pyval) : bool :=
  match v with
  | PyNone => false
  | PyStr s => negb (bool_decide (s = ""))
  | PyInt n => negb (bool_decide (n = 0))
  end.

(** [str(v)], as an f-string formats a value. *)
Definition py_str (v : pyval) : string :=
  match v with
  | PyNone => "None"
  | PyStr s => s
  | PyInt n => pretty n
  end.

(** A [dict] keeps its keys in insertion order, each key once. *)
Definition dict := list (string * pyval).

Fixpoint dict_get (d : dict) (k : string) : option pyval :=
  match d with
  | [] => None
  | (k', v) :: d => if bool_decide (k' = k) then Some v else dict_get d k
  end.

(** [d[k] = v]: an existing key keeps its place. *)
Fixpoint dict_set (k : string) (v : pyval) (d : dict) : dict :=
  match d with
  | [] => [(k, v)]
  | (k', v') :: d =>
      if bool_decide (k' = k) then (k, v) :: d else (k', v') :: dict_set k v d
  end.

(** [{**d1, **d2}]. *)
Definition dict_merge (d1 d2 : dict) : dict :=
  foldl (λ d kv, dict_set kv.1 kv.2 d) d1 d2.

(** [k.startswith(p)]. *)
Fixpoint startswith (p k : string) : bool :=
  match p, k with
  | EmptyString, _ => true
  | String a p, String b k => bool_decide (a = b) && startswith p k
  | String _ _, EmptyString => false
  end.

(** [s.replace(c, r)] for a one-character [c]. *)
Fixpoint replace_char (c : Ascii.ascii) (r : string) (s : string) : string :=
  match s with
  | EmptyString => EmptyString
  | String a s =>
      if bool_decide (a = c) then r +:+ replace_char c r s
      else String a (replace_char c r s)
  end.

End Py.

(** ** The DynamoDB models of [src/lib/models.py] *)
Module Models.
Import Py.

(** A class derived from [DynamoDBModel]: its two key properties, the
    [__dict__] of an instance and the [__init__] the [@dataclass] decorator
    generates. *)
Record DynamoDBModel (T : Type) := {
  pk : T → string;
  sk : T → string;
  instance_dict : T → dict;
  init : dict → result T
}.
Arguments pk {T}. Arguments sk {T}.
Arguments instance_dict {T}. Arguments init {T}.

(** [to_item]:
    [{'PK': self.pk, 'SK': self.sk,
      **{k: v for k, v in self.__dict__.items() if not k.startswith('_')}}]. *)
Definition to_item {T} (cls : DynamoDBModel T) (self : T) : dict :=
  dict_merge [("PK", PyStr (pk cls self)); ("SK", PyStr (sk cls self))]
    (filter (λ kv, startswith "_" kv.1 = false) (instance_dict cls self)).

(** [from_item]:
    [data = {k: v for k, v in item.items() if k not in ['PK', 'SK']}],
    then the class is called with [data] as its keyword arguments. *)
Definition from_item {T} (cls : DynamoDBModel T) (item : dict) : result T :=
  init cls (filter (λ kv, kv.1 ∉ ["PK"; "SK"]) item).

(** *** Keyword binding of a generated [__init__]

    A keyword that names no field is a [TypeError]; so is a field without
    default that no keyword gives. *)
Definition check_keywords (fields : list string) (kwargs : dict) : result unit :=
  if bool_decide (Forall (λ kv, kv.1 ∈ fields) kwargs) then Ok () else Raise TypeError.

Definition required (kwargs : dict) (name : string) : result pyval :=
  match dict_get kwargs name with
  | Some v => Ok v
  | None => Raise TypeError
  end.

Definition optional (kwargs : dict) (name : string) (dflt : pyval) : result pyval :=
  Ok (default dflt (dict_get kwargs name)).

(** The annotations ([str], [Optional[int]]) are not enforced by Python: a
    field holds whatever value it was given. *)
Record Patient := {
  p_patient_id : pyval;
  p_first_name : pyval;
  p_last_name : pyval;
  p_date_of_birth : pyval;
  p_gender : pyval;
  p_updated_at : pyval
}.

Record Admission := {
  a_patient_id : pyval;
  a_admission_id : pyval;
  a_admission_date : pyval;
  a_ward : pyval;
  a_bed_number : pyval;
  a_status : pyval;
  a_last_test_date : pyval;
  a_hours_since_test : pyval;
  a_updated_at : pyval
}.

Record LabTest := {
  t_test_id : pyval;
  t_patient_id : pyval;
  t_admission_id : pyval;
  t_test_type : pyval;
  t_test_date : pyval;
  t_result : pyval;
  t_status : pyval;
  t_lab_location : pyval;
  t_updated_at : pyval
}.

Section classes.
(** [datetime.now().isoformat()] at the time the module was imported: the
    default of every [updated_at]. *)
Variable import_time : string.

Definition Patient_init (kwargs : dict) : result Patient :=
  _ ← check_keywords ["patient_id"; "first_name"; "last_name";
                      "date_of_birth"; "gender"; "updated_at"] kwargs;
  patient_id ← required kwargs "patient_id";
  first_name ← required kwargs "first_name";
  last_name ← required kwargs "last_name";
  date_of_birth ← required kwargs "date_of_birth";
  gender ← required kwargs "gender";
  updated_at ← optional kwargs "updated_at" (PyStr import_time);
  Ok {| p_patient_id := patient_id; p_first_name := first_name;
        p_last_name := last_name; p_date_of_birth := date_of_birth;
        p_gender := gender; p_updated_at := updated_at |}.

Definition Patient_cls : DynamoDBModel Patient := {|
  pk self := "PATIENT#" +:+ py_str (p_patient_id self);
  sk self := "METADATA";
  instance_dict self :=
    [("patient_id", p_patient_id self); ("first_name", p_first_name self);
     ("last_name", p_last_name self); ("date_of_birth", p_date_of_birth self);
     ("gender", p_gender self); ("updated_at", p_updated_at self)];
  init := Patient_init
|}.

Definition Admission_init (kwargs : dict) : result Admission :=
  _ ← check_keywords ["patient_id"; "admission_id"; "admission_date"; "ward";
                      "bed_number"; "status"; "last_test_date";
                      "hours_since_test"; "updated_at"] kwargs;
  patient_id ← required kwargs "patient_id";
  admission_id ← required kwargs "admission_id";
  admission_date ← required kwargs "admission_date";
  ward ← required kwargs "ward";
  bed_number ← required kwargs "bed_number";
  status ← required kwargs "status";
  last_test_date ← optional kwargs "last_test_date" PyNone;
  hours_since_test ← optional kwargs "hours_since_test" PyNone;
  updated_at ← optional kwargs "updated_at" (PyStr import_time);
  Ok {| a_patient_id := patient_id; a_admission_id := admission_id;
        a_admission_date := admission_date; a_ward := ward;
        a_bed_number := bed_number; a_status := status;
        a_last_test_date := last_test_date;
        a_hours_since_test := hours_since_test;
        a_updated_at := updated_at |}.

Definition Admission_cls : DynamoDBModel Admission := {|
  pk self := "PATIENT#" +:+ py_str (a_patient_id self);
  sk self := "ADMISSION#" +:+ py_str (a_admission_id self);
  instance_dict self :=
    [("patient_id", a_patient_id self); ("admission_id", a_admission_id self);
     ("admission_date", a_admission_date self); ("ward", a_ward self);
     ("bed_number", a_bed_number self); ("status", a_status self);
     ("last_test_date", a_last_test_date self);
     ("hours_since_test", a_hours_since_test self);
     ("updated_at", a_updated_at self)];
  init := Admission_init
|}.

Definition LabTest_init (kwargs : dict) : result LabTest :=
  _ ← check_keywords ["test_id"; "patient_id"; "admission_id"; "test_type";
                      "test_date"; "result"; "status"; "lab_location";
                      "updated_at"] kwargs;
  test_id ← required kwargs "test_id";
  patient_id ← required kwargs "patient_id";
  admission_id ← required kwargs "admission_id";
  test_type ← required kwargs "test_type";
  test_date ← required kwargs "test_date";
  result ← required kwargs "result";
  status ← required kwargs "status";
  lab_location ← required kwargs "lab_location";
  updated_at ← optional kwargs "updated_at" (PyStr import_time);
  Ok {| t_test_id := test_id; t_patient_id := patient_id;
        t_admission_id := admission_id; t_test_type := test_type;
        t_test_date := test_date; t_result := result; t_status := status;
        t_lab_location := lab_location; t_updated_at := updated_at |}.

Definition LabTest_cls : DynamoDBModel LabTest := {|
  pk self := "ADMISSION#" +:+ py_str (t_admission_id self);
  sk self := "TEST#" +:+ py_str (t_test_date self) +:+ "#" +:+ py_str (t_test_id self);
  instance_dict self :=
    [("test_id", t_test_id self); ("patient_id", t_patient_id self);
     ("admission_id", t_admission_id self); ("test_type", t_test_type self);
     ("test_date", t_test_date self); ("result", t_result self);
     ("status", t_status self); ("lab_location", t_lab_location self);
     ("updated_at", t_updated_at self)];
  init := LabTest_init
|}.
End classes.

(** *** [Admission.needs_attention] and [calculate_hours_since] *)

(** A [datetime]: the microseconds of its wall-clock reading, and its UTC
    offset when it is aware. *)
Record datetime := {
  dt_usec : Z;
  dt_utcoffset : option Z
}.

(** [timedelta.total_seconds() / 3600].  The float this computes and the
    exact fraction compare alike with [48]: the elapsed time is a whole
    number of microseconds, [48] hours is one too, and both divisions are
    correctly rounded. *)
Definition hours_of_usec (delta : Z) : Q := delta # 3600000000.

Inductive hours :=
  | Finite (h : Q)
  | Infinity.

Section clock.
(** [datetime.fromisoformat], [None] for a string it rejects. *)
Variable fromisoformat : string → option datetime.
(** The reading of [datetime.now()], a naive [datetime]. *)
Variable now : Z.

Definition datetime_fromisoformat (v : pyval) : result datetime :=
  match v with
  | PyStr s =>
      match fromisoformat s with
      | Some d => Ok d
      | None => Raise ValueError
      end
  | _ => Raise TypeError
  end.

(** [datetime.now() - d]: a naive and an aware [datetime] do not
    subtract. *)
Definition since (d : datetime) : result Z :=
  match dt_utcoffset d with
  | None => Ok (now - dt_usec d)
  | Some _ => Raise TypeError
  end.

Definition needs_attention (self : Admission) : result bool :=
  if bool_decide (a_status self ≠ PyStr "Active") then Ok false
  else if negb (truthy (a_last_test_date self)) then Ok true
  else
    last_test ← datetime_fromisoformat (a_last_test_date self);
    delta ← since last_test;
    Ok (Qle_bool (inject_Z 48) (hours_of_usec delta)).

Definition calculate_hours_since (date_str : pyval) : result hours :=
  if negb (truthy date_str) then Ok Infinity
  else
    match date_str with
    | PyStr s =>
        date ← datetime_fromisoformat (PyStr (replace_char "Z"%char "+00:00" s));
        delta ← since date;
        Ok (Finite (hours_of_usec delta))
    | _ => Raise AttributeError
    end.

(** [validate_iso_date]: only the [ValueError] of the parser is caught; a
    value without [replace] (one that is not a string) raises
    [AttributeError]. *)
Definition validate_iso_date (date_str : pyval) : result bool :=
  match date_str with
  | PyStr s =>
      match datetime_fromisoformat (PyStr (replace_char "Z" "+00:00" s)) with
      | Ok _ => Ok true
      | Raise ValueError => Ok false
      | Raise e => Raise e
      end
  | _ => Raise AttributeError
  end.
End clock.

End Models.

(** ** The connection manager of [src/utils/websocket.py] *)
Module Websocket.
Import Py.

(** What a call of [api_client.post_to_connection] does. *)
Inductive post_outcome :=
  | Delivered
  | Gone                 (* raises [GoneException] *)
  | Failed (e : exn).      (* raises any other exception *)

(** The services behind the manager: the API gateway and the failures of
    the connections table. *)
Record gateway := {
  post_to_connection : string → string → post_outcome;
  scan_error : option exn;
  delete_item_error : string → option exn
}.

(** The state the manager acts on: the [connectionId]s of the items of the
    connections table, in the order a scan returns them, and the calls of
    [post_to_connection] made so far (connection and payload). *)
Record world := {
  connections_table : list string;
  attempted : list (string * string)
}.

Record stats := {
  total : nat;
  sent : nat;
  failed : nat;
  excluded : nat
}.

Definition scan (g : gateway) (w : world) : result (list string) :=
  match scan_error g with
  | Some e => Raise e
  | None => Ok (connections_table w)
  end.

(** [remove_connection]: a failure of [delete_item] is logged and raised
    again. *)
Definition remove_connection (g : gateway) (connection_id : string) (w : world)
    : result unit * world :=
  match delete_item_error g connection_id with
  | Some e => (Raise e, w)
  | None =>
      (Ok (), {| connections_table :=
                   filter (λ c, c ≠ connection_id) (connections_table w);
                 attempted := attempted w |})
  end.

Section messages.
(** [WebSocketMessage] and its [to_json]. *)
Variable WebSocketMessage : Type.
Variable to_json : WebSocketMessage → string.

(** [send_message]: [True] after the post; on [GoneException] the
    connection is removed and the result is [False], and an exception of
    [remove_connection] leaves the handler, which no other [except]
    clause of the same [try] covers; on any other exception [False]. *)
Definition send_message (g : gateway) (connection_id : string)
    (message : WebSocketMessage) (w : world) : result bool * world :=
  let data := to_json message in
  let w1 := {| connections_table := connections_table w;
               attempted := attempted w ++ [(connection_id, data)] |} in
  match post_to_connection g connection_id data with
  | Delivered => (Ok true, w1)
  | Gone =>
      match remove_connection g connection_id w1 with
      | (Ok _, w2) => (Ok false, w2)
      | (Raise e, w2) => (Raise e, w2)
      end
  | Failed _ => (Ok false, w1)
  end.

(** [exclude_connections and connection_id in exclude_connections]. *)
Definition is_excluded (exclude_connections : option (list string))
    (connection_id : string) : bool :=
  match exclude_connections with
  | None | Some [] => false
  | Some l => bool_decide (connection_id ∈ l)
  end.

Definition count (success : bool) (st : stats) : stats :=
  if success
  then {| total := total st; sent := S (sent st);
          failed := failed st; excluded := excluded st |}
  else {| total := total st; sent := sent st;
          failed := S (failed st); excluded := excluded st |}.

(** The [for conn in connections] loop. *)
Fixpoint broadcast_loop (g : gateway) (message : WebSocketMessage)
    (exclude_connections : option (list string)) (connections : list string)
    (st : stats) (w : world) : result stats * world :=
  match connections with
  | [] => (Ok st, w)
  | connection_id :: rest =>
      if is_excluded exclude_connections connection_id
      then broadcast_loop g message exclude_connections rest st w
      else
        match send_message g connection_id message w with
        | (Ok success, w') =>
            broadcast_loop g message exclude_connections rest (count success st) w'
        | (Raise e, w') => (Raise e, w')
        end
  end.

(** [broadcast_message]: whatever is raised inside the [try] is logged
    and raised again. *)
Definition broadcast_message (g : gateway) (message : WebSocketMessage)
    (exclude_connections : option (list string)) (w : world)
    : result stats * world :=
  let st := {| total := 0; sent := 0; failed := 0;
               excluded := length (default [] exclude_connections) |} in
  match scan g w with
  | Raise e => (Raise e, w)
  | Ok connections =>
      broadcast_loop g message exclude_connections connections
        {| total := length connections; sent := sent st;
           failed := failed st; excluded := excluded st |} w
  end.
End messages.

End Websocket.

(** ** The periodic sweep of [src/functions/monitor_patients/handler.py] *)
Module MonitorHandler.
Import Py Models Websocket.

(** The record [get_patients_needing_attention] builds of an admission. *)
Record patient := {
  patientId : pyval;
  admissionId : pyval;
  pt_ward : pyval;
  bedNumber : pyval;
  lastTestDate : pyval;
  hoursSinceTest : pyval
}.

Definition transform (admission : Admission) : patient :=
  {| patientId := a_patient_id admission;
     admissionId := a_admission_id admission;
     pt_ward := a_ward admission;
     bedNumber := a_bed_number admission;
     lastTestDate := a_last_test_date admission;
     hoursSinceTest := a_hours_since_test admission |}.

(** [get_patients_needing_attention]: [query] is what
    [admissions_table.query_index] answers for the index [MonitoringIndex]
    with [status = 'Active' AND hoursSinceTest >= 48]; an exception is
    logged and raised again. *)
Definition get_patients_needing_attention (query : result (list Admission))
    : result (list patient) :=
  match query with
  | Ok response => Ok (transform <$> response)
  | Raise e => Raise e
  end.

Record alert := {
  alertType : string;
  alert_timestamp : string;
  alert_patient : patient;
  alert_text : string
}.

(** [create_alert_message]; [timestamp] is [datetime.now().isoformat()]. *)
Definition create_alert_message (timestamp : string) (p : patient) : alert :=
  {| alertType := "noTest";
     alert_timestamp := timestamp;
     alert_patient := p;
     alert_text := "Patient " +:+ py_str (patientId p) +:+
                   " has not had tests for " +:+ py_str (hoursSinceTest p) +:+
                   " hours" |}.

Inductive body :=
  | NoPatients (timestamp : string)
  | MonitoringComplete (patientsAlerted : nat) (timestamp : string)
  | ErrorBody (error : exn) (timestamp : string).

Record response := {
  statusCode : Z;
  response_body : body
}.

Section sweep.
(** [json.dumps] of an alert. *)
Variable dumps : alert → string.

(** [WebSocketManager.get_connections]: the empty list when the scan
    fails. *)
Definition get_connections (g : gateway) (w : world) : list string :=
  match scan g w with
  | Ok items => items
  | Raise _ => []
  end.

(** One turn of the loop of [WebSocketManager.broadcast_message]: every
    exception of the post is handled here, the one of [delete_item]
    too. *)
Definition post_alert (g : gateway) (data : string) (w : world)
    (connection_id : string) : world :=
  let w1 := {| connections_table := connections_table w;
               attempted := attempted w ++ [(connection_id, data)] |} in
  match post_to_connection g connection_id data with
  | Delivered => w1
  | Gone => (remove_connection g connection_id w1).2
  | Failed _ => w1
  end.

Definition broadcast_message (g : gateway) (message : alert) (w : world) : world :=
  foldl (post_alert g (dumps message)) w (get_connections g w).

(** [handle]: one alert for each patient the query returns. *)
Definition handle (g : gateway) (query : result (list Admission))
    (timestamp : string) (w : world) : response * world :=
  match get_patients_needing_attention query with
  | Raise e =>
      ({| statusCode := 500; response_body := ErrorBody e timestamp |}, w)
  | Ok [] =>
      ({| statusCode := 200; response_body := NoPatients timestamp |}, w)
  | Ok patients =>
      ({| statusCode := 200;
          response_body := MonitoringComplete (length patients) timestamp |},
       foldl (λ w p, broadcast_message g (create_alert_message timestamp p) w)
         w patients)
  end.
End sweep.

End MonitorHandler.

(** ** The configuration of [src/utils/config.py] *)
Module Config.
Import Py.

(** [Field(default=..., ge=..., le=...)] of an [int] attribute. *)
Record Field := {
  field_default : Z;
  ge : option Z;
  le : option Z
}.

Definition within (f : Field) (v : Z) : bool :=
  match ge f with Some lo => bool_decide (lo ≤ v) | None => true end &&
  match le f with Some hi => bool_decide (v ≤ hi) | None => true end.

(** Validation of one attribute: the default when the key is absent, a
    [ValidationError] when the value breaks a bound. *)
Definition validate_int (name : string) (f : Field) (v : option Z) : result Z :=
  match v with
  | None => Ok (field_default f)
  | Some v => if within f v then Ok v else Raise (ValidationError name)
  end.

Definition validate_required {A} (name : string) (v : option A) : result A :=
  match v with
  | Some a => Ok a
  | None => Raise (ValidationError name)
  end.

(** *** The sections as the YAML file gives them

    A key is absent ([None]) or carries a value of the type of its
    attribute. *)
Record raw_monitoring := {
  raw_test_alert_threshold : option Z;
  raw_warning_threshold : option Z;
  raw_check_interval : option Z;
  raw_batch_size : option Z
}.

Record raw_api := {
  raw_rate_limit : option Z;
  raw_timeout : option Z;
  raw_max_payload_size : option Z
}.

Record raw_websocket := {
  raw_connection_ttl : option Z;
  raw_message_retention : option Z
}.

Record raw_security := {
  raw_cors_max_age : option Z;
  raw_api_key_rotation : option Z
}.

Record raw_index := {
  raw_index_name : option string;
  raw_hash_key : option string;
  raw_range_key : option string
}.

Record raw_table := {
  raw_table_name : option string;
  raw_indexes : option (list raw_index)
}.

Record raw_environment := {
  raw_STAGE : option string;
  raw_AWS_REGION : option string;
  raw_LOG_LEVEL : option string;
  raw_DYNAMODB_ENDPOINT : option string;
  raw_DYNAMODB_PREFIX : option string;
  raw_CORS_ORIGIN : option string;
  raw_POWERTOOLS_SERVICE_NAME : option string;
  raw_POWERTOOLS_TRACE_DISABLED : option bool;
  raw_API_PORT : option Z;
  raw_SERVERLESS_PORT : option Z
}.

(** The document: the environments by name (with ['default'] among them
    when the file has it) and the five sections. *)
Record config_data := {
  environments : list (string * raw_environment);
  raw_tables : option (list (string * raw_table));
  monitoring_section : option raw_monitoring;
  api_section : option raw_api;
  websocket_section : option raw_websocket;
  security_section : option raw_security
}.

(** *** The validated models *)
Record TableIndex := {
  index_name : string;
  hash_key : string;
  range_key : option string
}.

Record TableConfig := {
  table_name : string;
  indexes : list TableIndex
}.

Record MonitoringConfig := {
  test_alert_threshold : Z;
  warning_threshold : Z;
  check_interval : Z;
  batch_size : Z
}.

Record ApiConfig := {
  rate_limit : Z;
  timeout : Z;
  max_payload_size : Z
}.

Record WebSocketConfig := {
  connection_ttl : Z;
  message_retention : Z
}.

Record SecurityConfig := {
  cors_max_age : Z;
  api_key_rotation : Z
}.

Record EnvironmentConfig := {
  STAGE : string;
  AWS_REGION : string;
  LOG_LEVEL : string;
  DYNAMODB_ENDPOINT : option string;
  DYNAMODB_PREFIX : string;
  CORS_ORIGIN : string;
  POWERTOOLS_SERVICE_NAME : string;
  POWERTOOLS_TRACE_DISABLED : bool;
  API_PORT : option Z;
  SERVERLESS_PORT : option Z
}.

Record AppConfig := {
  tables : list (string * TableConfig);
  monitoring : MonitoringConfig;
  api : ApiConfig;
  websocket : WebSocketConfig;
  security : SecurityConfig;
  environment : EnvironmentConfig
}.

(** [MonitoringConfig]: each attribute has its own bounds, and the class
    declares no validator that relates two attributes. *)
Definition MonitoringConfig_validate (r : raw_monitoring) : result MonitoringConfig :=
  a ← validate_int "test_alert_threshold"
        {| field_default := 48; ge := Some 1; le := None |} (raw_test_alert_threshold r);
  w ← validate_int "warning_threshold"
        {| field_default := 36; ge := Some 1; le := None |} (raw_warning_threshold r);
  c ← validate_int "check_interval"
        {| field_default := 60; ge := Some 10; le := None |} (raw_check_interval r);
  b ← validate_int "batch_size"
        {| field_default := 100; ge := Some 1; le := Some 1000 |} (raw_batch_size r);
  Ok {| test_alert_threshold := a; warning_threshold := w;
        check_interval := c; batch_size := b |}.

Definition ApiConfig_validate (r : raw_api) : result ApiConfig :=
  l ← validate_int "rate_limit"
        {| field_default := 1000; ge := Some 1; le := None |} (raw_rate_limit r);
  t ← validate_int "timeout"
        {| field_default := 30; ge := Some 1; le := Some 900 |} (raw_timeout r);
  m ← validate_int "max_payload_size"
        {| field_default := 6; ge := Some 1; le := Some 10 |} (raw_max_payload_size r);
  Ok {| rate_limit := l; timeout := t; max_payload_size := m |}.

Definition WebSocketConfig_validate (r : raw_websocket) : result WebSocketConfig :=
  t ← validate_int "connection_ttl"
        {| field_default := 7200; ge := Some 60; le := None |} (raw_connection_ttl r);
  m ← validate_int "message_retention"
        {| field_default := 24; ge := Some 1; le := None |} (raw_message_retention r);
  Ok {| connection_ttl := t; message_retention := m |}.

Definition SecurityConfig_validate (r : raw_security) : result SecurityConfig :=
  c ← validate_int "cors_max_age"
        {| field_default := 7200; ge := Some 0; le := None |} (raw_cors_max_age r);
  k ← validate_int "api_key_rotation"
        {| field_default := 90; ge := Some 1; le := None |} (raw_api_key_rotation r);
  Ok {| cors_max_age := c; api_key_rotation := k |}.

Definition TableIndex_validate (r : raw_index) : result TableIndex :=
  n ← validate_required "name" (raw_index_name r);
  h ← validate_required "hash_key" (raw_hash_key r);
  Ok {| index_name := n; hash_key := h; range_key := raw_range_key r |}.

Fixpoint validate_all {A B} (f : A → result B) (l : list A) : result (list B) :=
  match l with
  | [] => Ok []
  | a :: l => b ← f a; bs ← validate_all f l; Ok (b :: bs)
  end.

Definition TableConfig_validate (r : raw_table) : result TableConfig :=
  n ← validate_required "name" (raw_table_name r);
  ix ← validate_all TableIndex_validate (default [] (raw_indexes r));
  Ok {| table_name := n; indexes := ix |}.

Definition EnvironmentConfig_validate (r : raw_environment) : result EnvironmentConfig :=
  stage ← validate_required "STAGE" (raw_STAGE r);
  region ← validate_required "AWS_REGION" (raw_AWS_REGION r);
  prefix ← validate_required "DYNAMODB_PREFIX" (raw_DYNAMODB_PREFIX r);
  origin ← validate_required "CORS_ORIGIN" (raw_CORS_ORIGIN r);
  Ok {| STAGE := stage; AWS_REGION := region;
        LOG_LEVEL := default "INFO" (raw_LOG_LEVEL r);
        DYNAMODB_ENDPOINT := raw_DYNAMODB_ENDPOINT r;
        DYNAMODB_PREFIX := prefix; CORS_ORIGIN := origin;
        POWERTOOLS_SERVICE_NAME :=
          default "hospital-data-integrator" (raw_POWERTOOLS_SERVICE_NAME r);
        POWERTOOLS_TRACE_DISABLED := default true (raw_POWERTOOLS_TRACE_DISABLED r);
        API_PORT := raw_API_PORT r; SERVERLESS_PORT := raw_SERVERLESS_PORT r |}.

Definition section {A} (name : string) (v : option A) : result A :=
  match v with
  | Some a => Ok a
  | None => Raise (KeyError name)
  end.

Definition or_else {A} (x y : option A) : option A :=
  match x with Some _ => x | None => y end.

(** [{**config_data['default'], **env_config}]: the keys of the
    environment win. *)
Definition merge_environment (dflt env : raw_environment) : raw_environment :=
  {| raw_STAGE := or_else (raw_STAGE env) (raw_STAGE dflt);
     raw_AWS_REGION := or_else (raw_AWS_REGION env) (raw_AWS_REGION dflt);
     raw_LOG_LEVEL := or_else (raw_LOG_LEVEL env) (raw_LOG_LEVEL dflt);
     raw_DYNAMODB_ENDPOINT :=
       or_else (raw_DYNAMODB_ENDPOINT env) (raw_DYNAMODB_ENDPOINT dflt);
     raw_DYNAMODB_PREFIX := or_else (raw_DYNAMODB_PREFIX env) (raw_DYNAMODB_PREFIX dflt);
     raw_CORS_ORIGIN := or_else (raw_CORS_ORIGIN env) (raw_CORS_ORIGIN dflt);
     raw_POWERTOOLS_SERVICE_NAME :=
       or_else (raw_POWERTOOLS_SERVICE_NAME env) (raw_POWERTOOLS_SERVICE_NAME dflt);
     raw_POWERTOOLS_TRACE_DISABLED :=
       or_else (raw_POWERTOOLS_TRACE_DISABLED env) (raw_POWERTOOLS_TRACE_DISABLED dflt);
     raw_API_PORT := or_else (raw_API_PORT env) (raw_API_PORT dflt);
     raw_SERVERLESS_PORT := or_else (raw_SERVERLESS_PORT env) (raw_SERVERLESS_PORT dflt) |}.

Fixpoint lookup_environment (l : list (string * raw_environment)) (k : string)
    : option raw_environment :=
  match l with
  | [] => None
  | (k', e) :: l => if bool_decide (k' = k) then Some e else lookup_environment l k
  end.

(** [load_config].  [getenv_STAGE] is [os.getenv('STAGE')]; [file] is the
    parsed document, or the exception of [open] or [yaml.safe_load].
    [config_data.get(stage, config_data['development'])] evaluates its
    default first, so a document without ['development'] is a [KeyError].
    The sections are read in the order of the dictionary literal, and
    [AppConfig] validates its attributes in the order of their
    declaration.  Every exception is logged and raised again. *)
Definition load_config (getenv_STAGE : option string) (file : result config_data)
    : result AppConfig :=
  let stage := default "development" getenv_STAGE in
  config_data ← file;
  development ← section "development"
                  (lookup_environment (environments config_data) "development");
  let env_config :=
    default development (lookup_environment (environments config_data) stage) in
  let env_config :=
    match lookup_environment (environments config_data) "default" with
    | Some dflt => merge_environment dflt env_config
    | None => env_config
    end in
  t ← section "tables" (raw_tables config_data);
  m ← section "monitoring" (monitoring_section config_data);
  a ← section "api" (api_section config_data);
  w ← section "websocket" (websocket_section config_data);
  s ← section "security" (security_section config_data);
  t ← validate_all (λ kv, c ← TableConfig_validate kv.2; Ok (kv.1, c)) t;
  m ← MonitoringConfig_validate m;
  a ← ApiConfig_validate a;
  w ← WebSocketConfig_validate w;
  s ← SecurityConfig_validate s;
  e ← EnvironmentConfig_validate env_config;
  Ok {| tables := t; monitoring := m; api := a; websocket := w;
        security := s; environment := e |}.

(** *** The accessors

    [get_config] keeps the configuration it has loaded in the attribute
    [_config] of the function: [cache] is that attribute, [None] as long
    as it is not set. *)
Definition get_config (getenv_STAGE : option string) (file : result config_data)
    (cache : option AppConfig) : result AppConfig * option AppConfig :=
  match cache with
  | Some config => (Ok config, cache)
  | None =>
      match load_config getenv_STAGE file with
      | Ok config => (Ok config, Some config)
      | Raise e => (Raise e, None)
      end
  end.

Fixpoint lookup_table (l : list (string * TableConfig)) (k : string)
    : option TableConfig :=
  match l with
  | [] => None
  | (k', t) :: l => if bool_decide (k' = k) then Some t else lookup_table l k
  end.

(** [get_table_name]: a [ValueError] for a table the configuration does
    not name. *)
Definition get_table_name (getenv_STAGE : option string)
    (file : result config_data) (table : string) (cache : option AppConfig)
    : result string * option AppConfig :=
  match get_config getenv_STAGE file cache with
  | (Ok config, cache) =>
      match lookup_table (tables config) table with
      | None => (Raise ValueError, cache)
      | Some t => (Ok (table_name t), cache)
      end
  | (Raise e, cache) => (Raise e, cache)
  end.

Definition get_dynamodb_endpoint (getenv_STAGE : option string)
    (file : result config_data) (cache : option AppConfig)
    : result (option string) * option AppConfig :=
  match get_config getenv_STAGE file cache with
  | (Ok config, cache) => (Ok (DYNAMODB_ENDPOINT (environment config)), cache)
  | (Raise e, cache) => (Raise e, cache)
  end.

(** [get_config().environment.STAGE in ['development', 'test']]. *)
Definition is_local_environment (getenv_STAGE : option string)
    (file : result config_data) (cache : option AppConfig)
    : result bool * option AppConfig :=
  match get_config getenv_STAGE file cache with
  | (Ok config, cache) =>
      (Ok (bool_decide (STAGE (environment config) ∈ ["development"; "test"])),
       cache)
  | (Raise e, cache) => (Raise e, cache)
  end.

End Config.

(** ** The client of [src/lib/dynamodb.py] *)
Module DynamoDB.
Import Py Models.

(** What a method of the client raises: a [ClientError] of the service
    with its code, the [ModelNotFoundError] of the models, or another
    exception. *)
Inductive failure :=
  | ClientError (code : string)
  | ModelNotFoundError (message : string)
  | Exception (e : exn).

Inductive outcome (A : Type) :=
  | Returned (a : A)
  | Raised (f : failure).
Arguments Returned {A} a.
Arguments Raised {A} f.

(** The service behind the table: what the [n]-th call of
    [table.put_item] raises, what [table.get_item] raises for a key, and
    what the [n]-th [with self.table.batch_writer()] block raises. *)
Record service := {
  put_item_fault : nat → option failure;
  get_item_fault : string → string → option failure;
  batch_writer_fault : nat → option failure
}.

(** The state a client acts on: the items of the table under their keys
    [(PK, SK)], the number of calls of [table.put_item] made so far, the
    [with] blocks run so far, each with the items handed to its writer and
    what the block raised, and the delays [time.sleep] was called with, in
    seconds. *)
Record world := {
  stored : gmap (string * string) dict;
  put_item_calls : nat;
  batch_blocks : list (list dict * option failure);
  slept : list Q
}.

Definition max_retries : nat := 3.
Definition base_delay : Q := 1 # 10.

(** [self.base_delay * (2 ** retries)]; the product of the float [0.1]
    with a power of two is the float of the fraction given here. *)
Definition delay (retries : nat) : Q :=
  base_delay * inject_Z (2 ^ Z.of_nat retries).

Definition sleep (seconds : Q) (w : world) : world :=
  {| stored := stored w; put_item_calls := put_item_calls w;
     batch_blocks := batch_blocks w; slept := slept w ++ [seconds] |}.

(** [e.response['Error']['Code'] == 'ProvisionedThroughputExceededException']
    for a [ClientError]; no other exception is caught. *)
Definition throttled (f : failure) : bool :=
  match f with
  | ClientError code =>
      bool_decide (code = "ProvisionedThroughputExceededException")
  | _ => false
  end.

(** The [while True] loop of [put_item] and of [batch_write]: [call] is
    the body of the [try].  A throttled call is made again after a sleep
    until [retries] has reached [max_retries]; [_handle_error] logs and
    raises what it is given.  [fuel] bounds the turns of the loop. *)
Fixpoint retry_loop (fuel : nat) (call : world → option failure * world)
    (retries : nat) (w : world) : option (outcome unit * world) :=
  match fuel with
  | O => None
  | S fuel =>
      match call w with
      | (None, w1) => Some (Returned (), w1)
      | (Some f, w1) =>
          if throttled f then
            if bool_decide (max_retries ≤ retries)%nat then Some (Raised f, w1)
            else
              let retries := S retries in
              retry_loop fuel call retries (sleep (delay retries) w1)
          else Some (Raised f, w1)
      end
  end.

(** The key of an item of the table. *)
Definition key_of (item : dict) : option (string * string) :=
  match dict_get item "PK", dict_get item "SK" with
  | Some (PyStr pk), Some (PyStr sk) => Some (pk, sk)
  | _, _ => None
  end.

(** [self.table.put_item(Item=item)]: the item replaces the one stored
    under its key; the service refuses an item without its key. *)
Definition table_put_item (s : service) (item : dict) (w : world)
    : option failure * world :=
  let calls := S (put_item_calls w) in
  let w1 := {| stored := stored w; put_item_calls := calls;
               batch_blocks := batch_blocks w; slept := slept w |} in
  match put_item_fault s (put_item_calls w) with
  | Some f => (Some f, w1)
  | None =>
      match key_of item with
      | Some k =>
          (None, {| stored := <[k := item]> (stored w); put_item_calls := calls;
                    batch_blocks := batch_blocks w; slept := slept w |})
      | None => (Some (ClientError "ValidationException"), w1)
      end
  end.

(** [put_item]: the loop starts with [retries = 0]. *)
Definition put_item {T} (s : service) (cls : DynamoDBModel T) (item : T)
    (w : world) : option (outcome unit * world) :=
  retry_loop (S max_retries) (table_put_item s (to_item cls item)) 0 w.

(** [get_item]: a [ClientError] is logged and raised again; the
    [ModelNotFoundError] and the exceptions of [from_item] are not caught. *)
Definition get_item {T} (s : service) (model_class : DynamoDBModel T)
    (pk sk : string) (w : world) : outcome T :=
  match get_item_fault s pk sk with
  | Some f => Raised f
  | None =>
      match stored w !! (pk, sk) with
      | None => Raised (ModelNotFoundError ("Item not found: " +:+ pk +:+ "/" +:+ sk))
      | Some item =>
          match from_item model_class item with
          | Ok x => Returned x
          | Raise e => Raised (Exception e)
          end
      end
  end.

(** [range(0, stop, step)] for a positive [step]. *)
Definition range_step (stop step : nat) : list nat :=
  (λ k, k * step)%nat <$> seq 0 ((stop + step - 1) / step).

(** One [with self.table.batch_writer() as batch] block over a chunk. *)
Definition batch_writer_block (s : service) (chunk : list dict) (w : world)
    : option failure * world :=
  let f := batch_writer_fault s (length (batch_blocks w)) in
  (f, {| stored := stored w; put_item_calls := put_item_calls w;
         batch_blocks := batch_blocks w ++ [(chunk, f)]; slept := slept w |}).

(** The [for i in range(0, len(items), chunk_size)] loop, over the chunks
    [items[i:i + chunk_size]]: each chunk has its own [retries]. *)
Fixpoint batch_write_chunks (s : service) (chunks : list (list dict)) (w : world)
    : option (outcome unit * world) :=
  match chunks with
  | [] => Some (Returned (), w)
  | chunk :: rest =>
      match retry_loop (S max_retries) (batch_writer_block s chunk) 0 w with
      | Some (Returned _, w1) => batch_write_chunks s rest w1
      | r => r
      end
  end.

Definition batch_write {T} (s : service) (cls : DynamoDBModel T) (items : list T)
    (w : world) : option (outcome unit * world) :=
  let chunk_size := 25%nat in
  batch_write_chunks s
    ((λ i, to_item cls <$> take chunk_size (drop i items))
     <$> range_step (length items) chunk_size) w.

End DynamoDB.

(** ** The query of [src/functions/api/get_patients.py] *)
Module GetPatients.
Import Py Models DynamoDB.

(** The dictionary [get_patient_details] returns. *)
Record patient_details := {
  d_patientId : pyval;
  d_firstName : pyval;
  d_lastName : pyval;
  d_dateOfBirth : pyval;
  d_gender : pyval
}.

(** An entry of the result: the details of the patient and the columns of
    the admission. *)
Record entry := {
  details : patient_details;
  admissionId : pyval;
  admissionDate : pyval;
  entry_ward : pyval;
  bedNumber : pyval;
  lastTestDate : pyval;
  hoursSinceTest : pyval;
  entry_status : pyval
}.

(** The key of the sort, [x['hoursSinceTest'] or float('inf')]: a falsy
    value, [None] and [0] among them, becomes infinity. *)
Inductive sort_key :=
  | Inf
  | Num (n : Z)
  | Str (s : string).

Definition hours_key (v : pyval) : sort_key :=
  if truthy v then
    match v with
    | PyInt n => Num n
    | PyStr s => Str s
    | PyNone => Inf
    end
  else Inf.

(** [a < b] on two keys: numbers compare with each other and with
    infinity, strings with strings (by code points, which is the order of
    their bytes), and a string does not compare with a number. *)
Definition key_lt (a b : sort_key) : result bool :=
  match a, b with
  | Inf, (Inf | Num _) => Ok false
  | Num _, Inf => Ok true
  | Num x, Num y => Ok (bool_decide (x < y))
  | Str x, Str y =>
      Ok match String.compare x y with Lt => true | _ => false end
  | Str _, (Inf | Num _) | (Inf | Num _), Str _ => Raise TypeError
  end.

(** [results.sort(key=..., reverse=True)]: the sort is stable, so the
    entries come out in the one order that is descending by key with
    entries of equal keys in their first order; and a list of two or more
    entries with a string key and a number key among them raises
    [TypeError], two such keys being compared by any sort.  The insertion
    below, from the right, gives that order and that exception. *)
Fixpoint insert_desc (x : entry) (l : list entry) : result (list entry) :=
  match l with
  | [] => Ok [x]
  | y :: l' =>
      lt ← key_lt (hours_key (hoursSinceTest x)) (hours_key (hoursSinceTest y));
      if lt : bool then l'' ← insert_desc x l'; Ok (y :: l'')
      else Ok (x :: l)
  end.

Fixpoint sort_desc (l : list entry) : result (list entry) :=
  match l with
  | [] => Ok []
  | x :: l => l' ← sort_desc l; insert_desc x l'
  end.

Section query.
(** [datetime.now().isoformat()] at the import of the models. *)
Variable import_time : string.
(** [str.lower]. *)
Variable lower : string → string.
(** The service and the state of the patients table. *)
Variable s : service.
Variable patients_table : world.

(** [get_patient_details]: [None] on every exception; an instance of the
    dataclass is never falsy, so the test [if not patient] never holds. *)
Definition get_patient_details (patient_id : pyval) : option patient_details :=
  match get_item s (Patient_cls import_time)
          ("PATIENT#" +:+ py_str patient_id) "METADATA" patients_table with
  | Returned patient =>
      Some {| d_patientId := p_patient_id patient;
              d_firstName := p_first_name patient;
              d_lastName := p_last_name patient;
              d_dateOfBirth := p_date_of_birth patient;
              d_gender := p_gender patient |}
  | Raised _ => None
  end.

(** [[a for a in admissions if a.ward.lower() == ward.lower()]]: a ward
    that is not a string has no [lower]. *)
Fixpoint filter_ward (ward : string) (admissions : list Admission)
    : result (list Admission) :=
  match admissions with
  | [] => Ok []
  | a :: admissions =>
      match a_ward a with
      | PyStr w =>
          rest ← filter_ward ward admissions;
          Ok (if bool_decide (lower w = lower ward) then a :: rest else rest)
      | _ => Raise AttributeError
      end
  end.

Definition entry_of (admission : Admission) (patient_details : patient_details)
    : entry :=
  {| details := patient_details;
     admissionId := a_admission_id admission;
     admissionDate := a_admission_date admission;
     entry_ward := a_ward admission;
     bedNumber := a_bed_number admission;
     lastTestDate := a_last_test_date admission;
     hoursSinceTest := a_hours_since_test admission;
     entry_status := a_status admission |}.

(** The loop over the admissions: an admission whose patient has no
    details is left out.  The dictionary of details has five keys and is
    never falsy. *)
Definition collect (admissions : list Admission) : list entry :=
  omap (λ admission,
          entry_of admission <$> get_patient_details (a_patient_id admission))
    admissions.

(** [get_patients_without_tests]: [query] is what
    [admissions_table.query_index] answers for the index and the hours
    asked for; every exception is logged and raised again. *)
Definition get_patients_without_tests (query : outcome (list Admission))
    (ward : option string) : outcome (list entry) :=
  match query with
  | Raised f => Raised f
  | Returned admissions =>
      let filtered :=
        match ward with
        | Some w => if truthy (PyStr w) then filter_ward w admissions
                    else Ok admissions
        | None => Ok admissions
        end in
      match filtered ≫= λ admissions, sort_desc (collect admissions) with
      | Ok results => Returned results
      | Raise e => Raised (Exception e)
      end
  end.
End query.

End GetPatients.

(** * Vocabulary of the properties *)

(** ** The tables *)
Section queue_vocabulary.
Import Migration.

(** Every stored admission sits under its own key, carries generated
    columns computed from its own columns, and has a queue row exactly
    when its [needs_attention] column is true. *)
Definition consistent (d : db) : Prop :=
  ∀ aid (row : admission_row), admissions d !! aid = Some row →
    admission_id row = aid ∧
    (∃ now, row = store_admission now row) ∧
    (is_Some (monitoring_queue d !! (patient_id row, aid))
     ↔ needs_attention row = true).

(** A run of [INSERT INTO lab_tests] statements, each at its own time,
    all of which succeed. *)
Fixpoint insert_lab_tests (tests : list (timestamp * lab_test_row)) (d : db)
    : option db :=
  match tests with
  | [] => Some d
  | (now, t) :: tests => d' ← insert_lab_test now t d; insert_lab_tests tests d'
  end.

Definition test_dates (tests : list (timestamp * lab_test_row)) : list timestamp :=
  (λ nt, test_date nt.2) <$> tests.

Definition later (cur : option timestamp) (t : timestamp) : option timestamp :=
  match cur with
  | None => Some t
  | Some t0 => Some (Z.max t0 t)
  end.

Definition last_test_date_of (aid : string) (d : db) : option (option timestamp) :=
  match (admissions d !! aid : option admission_row) with
  | Some row => Some (last_test_date row)
  | None => None
  end.

(** A row the CTE may select. *)
Definition eligible (locked : gset queue_key) (q : gmap queue_key queue_row)
    (kv : queue_key * queue_row) : Prop :=
  q !! kv.1 = Some kv.2 ∧ q_priority kv.2 = 1 ∧ kv.1 ∉ locked.

Definition candidates (locked : gset queue_key) (q : gmap queue_key queue_row)
    : list (queue_key * queue_row) :=
  merge_sort hours_desc
    (filter (λ kv, q_priority kv.2 = 1 ∧ kv.1 ∉ locked) (map_to_list q)).
End queue_vocabulary.

(** ** The sweep *)
Section sweep_vocabulary.
Import Py Models Websocket MonitorHandler.

Variable dumps : alert → string.

(** The posts of one broadcast: the alert, to every connection of the
    scan. *)
Definition posts_of (g : gateway) (w : world) (message : alert)
    : list (string * string) :=
  (λ c, (c, dumps message)) <$> get_connections g w.

(** The alerts of one run of [handle]: one for each patient of the query
    and each connection. *)
Definition alerts_of (g : gateway) (w : world) (timestamp : string)
    (admissions : list Admission) : list (string * string) :=
  mjoin ((λ a, posts_of g w (create_alert_message timestamp (transform a)))
         <$> admissions).
End sweep_vocabulary.

(** ** The broadcast *)
Section broadcast_vocabulary.
Import Py Websocket.

Variable WebSocketMessage : Type.
Variable to_json : WebSocketMessage → string.

Definition delivered (g : gateway) (message : WebSocketMessage) (c : string) : bool :=
  match post_to_connection g c (to_json message) with
  | Delivered => true
  | _ => false
  end.

(** The connections of a scan the loop does not skip. *)
Definition targets (exclude_connections : option (list string))
    (connections : list string) : list string :=
  filter (λ c, is_excluded exclude_connections c = false) connections.
End broadcast_vocabulary.

(** ** The configuration *)
Section config_vocabulary.
Import Py Config.

(** The same document with the two thresholds of the monitoring section
    set to [a] (alert) and [w] (warning). *)
Definition with_thresholds (a w : Z) (data : config_data) : config_data :=
  {| environments := environments data;
     raw_tables := raw_tables data;
     monitoring_section :=
       (λ m, {| raw_test_alert_threshold := Some a;
                raw_warning_threshold := Some w;
                raw_check_interval := raw_check_interval m;
                raw_batch_size := raw_batch_size m |}) <$> monitoring_section data;
     api_section := api_section data;
     websocket_section := websocket_section data;
     security_section := security_section data |}.

Definition set_thresholds (a w : Z) (cfg : AppConfig) : AppConfig :=
  {| tables := tables cfg;
     monitoring :=
       {| test_alert_threshold := a; warning_threshold := w;
          check_interval := check_interval (monitoring cfg);
          batch_size := batch_size (monitoring cfg) |};
     api := api cfg; websocket := websocket cfg; security := security cfg;
     environment := environment cfg |}.
End config_vocabulary.

(** ** The foreign keys and the rows of the queue *)
Section integrity_vocabulary.
Import Migration.

(** The foreign keys of the schema hold: an admission has its patient, a
    test its patient and its admission, a row of the queue its patient and
    its admission; and an admission is stored under its own key. *)
Definition referential (d : db) : Prop :=
  (∀ aid (row : admission_row), admissions d !! aid = Some row →
     admission_id row = aid ∧ patient_id row ∈ patients d) ∧
  (∀ tid t, lab_tests d !! tid = Some t →
     lt_patient_id t ∈ patients d ∧
     is_Some (admissions d !! lt_admission_id t)) ∧
  (∀ k r, monitoring_queue d !! k = Some r →
     k.1 ∈ patients d ∧ is_Some (admissions d !! k.2)).

(** No row of the queue carries a number of hours below 48. *)
Definition overdue_rows (q : gmap queue_key queue_row) : Prop :=
  ∀ k r, q !! k = Some r →
    match q_hours_since_test r with
    | None => True
    | Some h => 48 ≤ h
    end.
End integrity_vocabulary.

Section models_vocabulary.
Import Py Models.

(** [hours >= 48] for a number of hours that may be [float('inf')]. *)
Definition at_least_48 (h : hours) : bool :=
  match h with
  | Infinity => true
  | Finite q => Qle_bool (inject_Z 48) q
  end.
End models_vocabulary.

Section pruning_vocabulary.
Import Py Websocket.

(** The post of [data] to [c] raises [GoneException]. *)
Definition is_gone (g : gateway) (data c : string) : bool :=
  match post_to_connection g c data with
  | Gone => true
  | _ => false
  end.

(** The posts of [data] to the connections [cs], in their order. *)
Definition posts (data : string) (cs : list string) : list (string * string) :=
  (λ c, (c, data)) <$> cs.
End pruning_vocabulary.

Section client_vocabulary.
Import Py Models DynamoDB.

(** The chunks of the [with] blocks that raised nothing. *)
Definition completed (blocks : list (list dict * option failure))
    : list (list dict) :=
  omap (λ b, match b.2 with None => Some b.1 | Some _ => None end) blocks.
End client_vocabulary.

Section frame_vocabulary.
Import Migration.

(** The statement names the admission [aid], or deletes the patient
    [pid]. *)
Definition touches (pid aid : string) (s : statement) : Prop :=
  match s with
  | InsertPatient _ => False
  | DeletePatient p => p = pid
  | InsertAdmission c | UpdateAdmission c => admission_id c = aid
  | DeleteAdmission a => a = aid
  | InsertLabTest t | UpdateLabTest t => lt_admission_id t = aid
  | ProcessMonitoringBatch _ => False
  end.
End frame_vocabulary.

Section query_vocabulary.
Import Py Models DynamoDB GetPatients.

(** The order [get_patients_without_tests] leaves two neighbours in: the
    key of the first is not below the key of the second. *)
Definition not_below (x y : entry) : Prop :=
  key_lt (hours_key (hoursSinceTest x)) (hours_key (hoursSinceTest y)) = Ok false.

(** The admission passes the filter of the ward asked for; no ward, or an
    empty one, asks for none. *)
Definition in_ward (lower : string → string) (ward : option string)
    (a : Admission) : Prop :=
  match ward with
  | Some w =>
      truthy (PyStr w) = true →
      ∃ w', a_ward a = PyStr w' ∧ lower w' = lower w
  | None => True
  end.
End query_vocabulary.

(** * Sample data *)
Section sample_tables.
Import Migration.

Definition hour : Z := 3600000000.

(** An active admission of patient [P123], last tested at time [0]. *)
Definition tested_at_0 : admission_cols :=
  {| admission_id := "A456"; patient_id := "P123"; admission_date := 0;
     discharge_date := None; ward := "Cardiology"; bed_number := "C101";
     status := "Active"; last_test_date := Some 0 |}.

(** The same admission before any test. *)
Definition never_tested : admission_cols :=
  {| admission_id := "A456"; patient_id := "P123"; admission_date := 0;
     discharge_date := None; ward := "Cardiology"; bed_number := "C101";
     status := "Active"; last_test_date := None |}.

Definition discharged : admission_cols :=
  {| admission_id := "A456"; patient_id := "P123"; admission_date := 0;
     discharge_date := Some (47 * hour); ward := "Cardiology";
     bed_number := "C101"; status := "Discharged"; last_test_date := None |}.

Definition arrival_script : list (timestamp * statement) :=
  [(0, InsertPatient "P123"); (50 * hour, InsertAdmission never_tested)].

Definition arrived : db := run arrival_script empty_db.

Definition lab_test (id : string) (date : timestamp) : lab_test_row :=
  {| test_id := id; lt_patient_id := "P123"; lt_admission_id := "A456";
     test_type := "Blood Test"; test_date := date; result := Some "Normal";
     lt_status := "Completed"; lab_location := "Main Lab" |}.

(** Three tests that arrive out of order. *)
Definition out_of_order : list (timestamp * lab_test_row) :=
  [(51 * hour, lab_test "T1" (30 * hour));
   (52 * hour, lab_test "T2" (10 * hour));
   (53 * hour, lab_test "T3" (20 * hour))].

(** Scenario E: five rows of priority 1 and one row of a never tested
    admission. *)
Definition five_overdue : gmap queue_key queue_row :=
  list_to_map
    [(("P1", "A1"), {| q_hours_since_test := Some 50; last_checked := 0 |});
     (("P2", "A2"), {| q_hours_since_test := Some 90; last_checked := 0 |});
     (("P3", "A3"), {| q_hours_since_test := Some 70; last_checked := 0 |});
     (("P4", "A4"), {| q_hours_since_test := Some 60; last_checked := 0 |});
     (("P5", "A5"), {| q_hours_since_test := Some 80; last_checked := 0 |});
     (("P6", "A6"), {| q_hours_since_test := None; last_checked := 0 |})].

Definition first_claim : batch_result :=
  {| batch_rows :=
       [(("P2", "A2"), {| q_hours_since_test := Some 90; last_checked := 0 |});
        (("P5", "A5"), {| q_hours_since_test := Some 80; last_checked := 0 |})];
     queue_after :=
       alter (stamp 100) ("P2", "A2") (alter (stamp 100) ("P5", "A5") five_overdue) |}.

(** While the first call still holds its two rows, the second call gets
    the next two. *)
Definition second_claim : batch_result :=
  {| batch_rows :=
       [(("P3", "A3"), {| q_hours_since_test := Some 70; last_checked := 0 |});
        (("P4", "A4"), {| q_hours_since_test := Some 60; last_checked := 0 |})];
     queue_after :=
       alter (stamp 101) ("P3", "A3")
         (alter (stamp 101) ("P4", "A4") (queue_after first_claim)) |}.
End sample_tables.

Section sample_models.
Import Py Models.

(** A parser that knows one date: the epoch, as a naive [datetime]. *)
Definition epoch_only (s : string) : option datetime :=
  if bool_decide (s = "1970-01-01T00:00:00")
  then Some {| dt_usec := 0; dt_utcoffset := None |}
  else None.

(** The admission [tested_at_0] as an instance of the dataclass. *)
Definition py_tested_at_0 : Admission :=
  {| a_patient_id := PyStr "P123"; a_admission_id := PyStr "A456";
     a_admission_date := PyStr "1970-01-01T00:00:00";
     a_ward := PyStr "Cardiology"; a_bed_number := PyStr "C101";
     a_status := PyStr "Active";
     a_last_test_date := PyStr "1970-01-01T00:00:00";
     a_hours_since_test := PyInt 48; a_updated_at := PyStr "" |}.
End sample_models.

Section sample_connections.
Import Py Websocket MonitorHandler.

(** A gateway on which every post is delivered and nothing fails. *)
Definition reliable : gateway :=
  {| post_to_connection := λ _ _, Delivered;
     scan_error := None;
     delete_item_error := λ _, None |}.

Definition one_observer : world :=
  {| connections_table := ["conn1"]; attempted := [] |}.

(** The alert is sent as its text. *)
Definition as_text (a : alert) : string := alert_text a.

(** The message is sent as it is. *)
Definition verbatim (message : string) : string := message.

Definition three_observers : world :=
  {| connections_table := ["conn1"; "conn2"; "conn3"]; attempted := [] |}.

(** The post to [conn2] fails with an error of the API. *)
Definition flaky : gateway :=
  {| post_to_connection := λ c _,
       if bool_decide (c = "conn2") then Failed (OtherException "API Error")
       else Delivered;
     scan_error := None;
     delete_item_error := λ _, None |}.

(** [conn1] is gone, and its item cannot be deleted. *)
Definition gone_and_stuck : gateway :=
  {| post_to_connection := λ c _,
       if bool_decide (c = "conn1") then Gone else Delivered;
     scan_error := None;
     delete_item_error := λ c,
       if bool_decide (c = "conn1") then Some (OtherException "DB Error")
       else None |}.
End sample_connections.

Section sample_configuration.
Import Py Config.

(** A document with the environments and sections of the test suite; the
    thresholds are given by the caller. *)
Definition document (alert warning : Z) : config_data :=
  {| environments :=
       [("default",
         {| raw_STAGE := None; raw_AWS_REGION := None;
            raw_LOG_LEVEL := Some "INFO"; raw_DYNAMODB_ENDPOINT := None;
            raw_DYNAMODB_PREFIX := None; raw_CORS_ORIGIN := None;
            raw_POWERTOOLS_SERVICE_NAME := Some "test-service";
            raw_POWERTOOLS_TRACE_DISABLED := Some true;
            raw_API_PORT := None; raw_SERVERLESS_PORT := None |});
        ("development",
         {| raw_STAGE := Some "dev"; raw_AWS_REGION := Some "eu-west-1";
            raw_LOG_LEVEL := None;
            raw_DYNAMODB_ENDPOINT := Some "http://localhost:8000";
            raw_DYNAMODB_PREFIX := Some "dev-prefix";
            raw_CORS_ORIGIN := Some "http://localhost:3000";
            raw_POWERTOOLS_SERVICE_NAME := None;
            raw_POWERTOOLS_TRACE_DISABLED := None;
            raw_API_PORT := Some 4000; raw_SERVERLESS_PORT := Some 3000 |});
        ("production",
         {| raw_STAGE := Some "prod"; raw_AWS_REGION := Some "eu-west-1";
            raw_LOG_LEVEL := Some "WARNING"; raw_DYNAMODB_ENDPOINT := None;
            raw_DYNAMODB_PREFIX := Some "prod-prefix";
            raw_CORS_ORIGIN := Some "https://example.com";
            raw_POWERTOOLS_SERVICE_NAME := None;
            raw_POWERTOOLS_TRACE_DISABLED := None;
            raw_API_PORT := None; raw_SERVERLESS_PORT := None |})];
     raw_tables :=
       Some [("patients",
              {| raw_table_name := Some "${DYNAMODB_PREFIX}-patients";
                 raw_indexes := Some [] |});
             ("admissions",
              {| raw_table_name := Some "${DYNAMODB_PREFIX}-admissions";
                 raw_indexes :=
                   Some [{| raw_index_name := Some "MonitoringIndex";
                            raw_hash_key := Some "status";
                            raw_range_key := Some "hoursSinceTest" |}] |})];
     monitoring_section :=
       Some {| raw_test_alert_threshold := Some alert;
               raw_warning_threshold := Some warning;
               raw_check_interval := Some 60; raw_batch_size := Some 100 |};
     api_section :=
       Some {| raw_rate_limit := Some 1000; raw_timeout := Some 30;
               raw_max_payload_size := Some 6 |};
     websocket_section :=
       Some {| raw_connection_ttl := Some 7200; raw_message_retention := Some 24 |};
     security_section :=
       Some {| raw_cors_max_age := Some 7200; raw_api_key_rotation := Some 90 |} |}.
(** What [document 48 36] loads to in the stage [production]. *)
Definition production : AppConfig :=
  {| tables :=
       [("patients",
         {| table_name := "${DYNAMODB_PREFIX}-patients"; indexes := [] |});
        ("admissions",
         {| table_name := "${DYNAMODB_PREFIX}-admissions";
            indexes := [{| index_name := "MonitoringIndex"; hash_key := "status";
                           range_key := Some "hoursSinceTest" |}] |})];
     monitoring := {| test_alert_threshold := 48; warning_threshold := 36;
                      check_interval := 60; batch_size := 100 |};
     api := {| rate_limit := 1000; timeout := 30; max_payload_size := 6 |};
     websocket := {| connection_ttl := 7200; message_retention := 24 |};
     security := {| cors_max_age := 7200; api_key_rotation := 90 |};
     environment :=
       {| STAGE := "prod"; AWS_REGION := "eu-west-1"; LOG_LEVEL := "WARNING";
          DYNAMODB_ENDPOINT := None; DYNAMODB_PREFIX := "prod-prefix";
          CORS_ORIGIN := "https://example.com";
          POWERTOOLS_SERVICE_NAME := "test-service";
          POWERTOOLS_TRACE_DISABLED := true;
          API_PORT := None; SERVERLESS_PORT := None |} |}.
End sample_configuration.

Section sample_tables_two.
Import Migration.

(** A second admission of the same patient, last tested at time [0]. *)
Definition second_stay : admission_cols :=
  {| admission_id := "A789"; patient_id := "P123"; admission_date := 0;
     discharge_date := None; ward := "Oncology"; bed_number := "O202";
     status := "Active"; last_test_date := Some 0 |}.

Definition two_stays_script : list (timestamp * statement) :=
  arrival_script ++ [(50 * hour, InsertAdmission second_stay)].
End sample_tables_two.

Section sample_items.
Import Py Models.

(** The time at which the module of the models was imported. *)
Definition loaded_at : string := "2023-12-31T23:59:59".

(** The item of a patient as [to_item] writes it. *)
Definition patient_item : dict :=
  [("PK", PyStr "PATIENT#P123"); ("SK", PyStr "METADATA");
   ("patient_id", PyStr "P123"); ("first_name", PyStr "John");
   ("last_name", PyStr "Doe"); ("date_of_birth", PyStr "1980-01-01");
   ("gender", PyStr "M"); ("updated_at", PyStr "2024-01-01T00:00:00")].

(** The same item with an attribute no model declares. *)
Definition patient_item_with_ttl : dict :=
  patient_item ++ [("ttl", PyInt 86400)].
End sample_items.

Section sample_gateways.
Import Py Models Websocket MonitorHandler.

(** [conn1] is gone, and its item can be deleted. *)
Definition gone_conn1 : gateway :=
  {| post_to_connection := λ c _,
       if bool_decide (c = "conn1") then Gone else Delivered;
     scan_error := None;
     delete_item_error := λ _, None |}.

(** The connections table cannot be scanned. *)
Definition no_scan : gateway :=
  {| post_to_connection := λ _ _, Delivered;
     scan_error := Some (OtherException "DB Error");
     delete_item_error := λ _, None |}.

(** The alert of the sweep for the admission [py_tested_at_0]. *)
Definition overdue_alert : alert :=
  create_alert_message "1970-01-03T00:00:00" (transform py_tested_at_0).
End sample_gateways.

Section sample_client.
Import Py Models DynamoDB.

(** A service that raises nothing. *)
Definition dependable : service :=
  {| put_item_fault := λ _, None;
     get_item_fault := λ _ _, None;
     batch_writer_fault := λ _, None |}.

(** The first two calls of [put_item] are throttled. *)
Definition throttled_twice : service :=
  {| put_item_fault := λ n,
       if bool_decide (n < 2)%nat
       then Some (ClientError "ProvisionedThroughputExceededException")
       else None;
     get_item_fault := λ _ _, None;
     batch_writer_fault := λ _, None |}.

Definition empty_table : DynamoDB.world :=
  {| stored := ∅; put_item_calls := 0; batch_blocks := []; slept := [] |}.

Definition john : Patient :=
  {| p_patient_id := PyStr "P123"; p_first_name := PyStr "John";
     p_last_name := PyStr "Doe"; p_date_of_birth := PyStr "1980-01-01";
     p_gender := PyStr "M"; p_updated_at := PyStr "2024-01-01T00:00:00" |}.
End sample_client.

Section sample_frozen.
Import Migration.

(** The admission arrives 10 hours after its last test. *)
Definition tested_arrival : list (timestamp * statement) :=
  [(0, InsertPatient "P123"); (10 * hour, InsertAdmission tested_at_0)].

(** Statements about another patient, 100 and 200 hours later. *)
Definition other_business : list (timestamp * statement) :=
  [(100 * hour, InsertPatient "P999");
   (200 * hour, ProcessMonitoringBatch 10);
   (200 * hour, DeletePatient "P999")].
End sample_frozen.

Section sample_query.
Import Py Models DynamoDB GetPatients.

(** The patients table holds [john]. *)
Definition one_patient : DynamoDB.world :=
  {| stored := {[ ("PATIENT#P123", "METADATA")
                  := to_item (Patient_cls loaded_at) john ]};
     put_item_calls := 1; batch_blocks := []; slept := [] |}.

(** A second admission of [P123], never tested. *)
Definition py_never_tested : Admission :=
  {| a_patient_id := PyStr "P123"; a_admission_id := PyStr "A789";
     a_admission_date := PyStr "1970-01-01T00:00:00";
     a_ward := PyStr "Oncology"; a_bed_number := PyStr "O202";
     a_status := PyStr "Active"; a_last_test_date := PyNone;
     a_hours_since_test := PyNone; a_updated_at := PyStr loaded_at |}.

(** An admission of a patient the patients table does not hold. *)
Definition py_unknown_patient : Admission :=
  {| a_patient_id := PyStr "P404"; a_admission_id := PyStr "A404";
     a_admission_date := PyStr "1970-01-01T00:00:00";
     a_ward := PyStr "Oncology"; a_bed_number := PyStr "O203";
     a_status := PyStr "Active"; a_last_test_date := PyNone;
     a_hours_since_test := PyInt 90; a_updated_at := PyStr loaded_at |}.

Definition john_details : patient_details :=
  {| d_patientId := PyStr "P123"; d_firstName := PyStr "John";
     d_lastName := PyStr "Doe"; d_dateOfBirth := PyStr "1980-01-01";
     d_gender := PyStr "M" |}.
End sample_query.

(** * Properties *)

(** ** The monitoring queue follows [needs_attention] *)
Section queue_invariant.
Import Migration.

(** The trigger leaves a row under the key of [NEW] exactly when [NEW]
    needs attention, and touches no other key. *)
Lemma update_monitoring_queue_key now (NEW : admission_row) q :
  is_Some (update_monitoring_queue now NEW q !! (patient_id NEW, admission_id NEW))
  ↔ needs_attention NEW = true.
Proof.
  unfold update_monitoring_queue.
  destruct (needs_attention NEW).
  - destruct (q !! _); rewrite lookup_insert_eq; split; eauto.
  - rewrite lookup_delete_eq. split; [intros [? ?]|]; done.
Qed.

Lemma update_monitoring_queue_other now (NEW : admission_row) q k :
  k ≠ (patient_id NEW, admission_id NEW) →
  update_monitoring_queue now NEW q !! k = q !! k.
Proof.
  intros Hk. unfold update_monitoring_queue.
  destruct (needs_attention NEW).
  - destruct (q !! (_, _)); by rewrite lookup_insert_ne.
  - by rewrite lookup_delete_ne.
Qed.

Lemma empty_db_consistent : consistent empty_db.
Proof. intros aid row. simpl. by rewrite lookup_empty. Qed.

Lemma write_admission_consistent now c d :
  consistent d → consistent (write_admission now c d).
Proof.
  intros Hd aid row. unfold write_admission. simpl.
  destruct (decide (admission_id c = aid)) as [<-|Hne].
  - rewrite lookup_insert_eq. intros [= <-]. simpl.
    split; [done|]. split; [by exists now|].
    apply (update_monitoring_queue_key now (store_admission now c)).
  - rewrite lookup_insert_ne by done. intros Hrow.
    destruct (Hd _ _ Hrow) as (Hid & Hgen & Hq).
    split; [done|]. split; [done|].
    rewrite update_monitoring_queue_other; [done|].
    simpl. intros [= _ ?]. congruence.
Qed.

Lemma with_lab_tests_consistent l d :
  consistent d → consistent (with_lab_tests l d).
Proof. intros Hd aid row. apply Hd. Qed.

Lemma update_admission_last_test_consistent now t d :
  consistent d → consistent (update_admission_last_test now t d).
Proof.
  intros Hd. unfold update_admission_last_test.
  destruct (admissions d !! lt_admission_id t) as [row|]; [|done].
  destruct (advances _ _); [|done].
  by apply write_admission_consistent.
Qed.

Lemma delete_admission_consistent aid0 d :
  consistent d → consistent (delete_admission aid0 d).
Proof.
  intros Hd aid row. unfold delete_admission. simpl.
  destruct (decide (aid0 = aid)) as [->|Hne].
  { by rewrite lookup_delete_eq. }
  rewrite lookup_delete_ne by done. intros Hrow.
  destruct (Hd _ _ Hrow) as (Hid & Hgen & Hq).
  split; [done|]. split; [done|]. rewrite <- Hq.
  split; intros [r Hr].
  - apply map_lookup_filter_Some in Hr as [Hr _]. eauto.
  - exists r. apply map_lookup_filter_Some. split; [done|]. simpl. congruence.
Qed.

Lemma delete_patient_consistent pid d :
  consistent d → consistent (delete_patient pid d).
Proof.
  intros Hd aid row. unfold delete_patient. simpl. intros Hrow.
  pose proof Hrow as Hkept.
  apply map_lookup_filter_Some in Hrow as [Hrow Hpid]. simpl in Hpid.
  destruct (Hd _ _ Hrow) as (Hid & Hgen & Hq).
  split; [done|]. split; [done|]. rewrite <- Hq.
  split; intros [r Hr].
  - apply map_lookup_filter_Some in Hr as [Hr _]. eauto.
  - exists r. apply map_lookup_filter_Some. split; [done|]. simpl.
    split; [done|]. by rewrite Hkept.
Qed.

(** Stamping [last_checked] neither adds nor removes a row. *)
Lemma stamped_is_Some (now : timestamp) (b : list (queue_key * queue_row))
    (q : gmap queue_key queue_row) (k : queue_key) :
  is_Some (foldr (λ kv, alter (stamp now) kv.1) q b !! k) ↔ is_Some (q !! k).
Proof.
  induction b as [|kv b IH]; simpl; [done|].
  rewrite lookup_alter. case_decide; subst.
  - rewrite <- IH. by rewrite fmap_is_Some.
  - done.
Qed.

Create HintDb queue discriminated.
#[local] Hint Resolve write_admission_consistent with_lab_tests_consistent
  update_admission_last_test_consistent delete_admission_consistent
  delete_patient_consistent : queue.

Lemma exec_consistent now s d d' :
  consistent d → exec now s d = Some d' → consistent d'.
Proof.
  intros Hd. destruct s; simpl.
  - unfold insert_patient. case_bool_decide; [done|]. intros [= <-].
    intros aid row. apply Hd.
  - intros [= <-]. auto with queue.
  - unfold insert_admission.
    destruct (admissions d !! admission_id c); [done|].
    case_bool_decide; [|done]. intros [= <-]. auto with queue.
  - unfold update_admission.
    destruct (admissions d !! admission_id c); [|by intros [= <-]].
    case_bool_decide; [|done]. intros [= <-]. auto with queue.
  - intros [= <-]. auto with queue.
  - unfold insert_lab_test.
    destruct (lab_tests d !! test_id t); [done|].
    destruct (lab_test_fk_ok _ _); [|done]. intros [= <-]. auto with queue.
  - unfold update_lab_test.
    destruct (lab_tests d !! test_id t); [|by intros [= <-]].
    destruct (lab_test_fk_ok _ _); [|done]. intros [= <-]. auto with queue.
  - destruct (process_monitoring_batch _ _ _ _) as [r|] eqn:Hr; [|done].
    simpl. intros [= <-].
    unfold process_monitoring_batch in Hr.
    case_bool_decide; [done|]. injection Hr as <-.
    intros aid row Hrow. simpl in *.
    destruct (Hd _ _ Hrow) as (Hid & Hgen & Hq).
    split; [done|]. split; [done|]. by rewrite stamped_is_Some.
Qed.

Lemma run_consistent script d :
  consistent d → consistent (run script d).
Proof.
  revert d. induction script as [|[now s] script IH]; intros d Hd; [done|].
  simpl. apply IH. unfold exec_or_rollback. simpl.
  destruct (exec now s d) as [d'|] eqn:He; simpl; [|done].
  by eapply exec_consistent.
Qed.

Lemma needs_attention_active now (c : admission_cols) :
  gen_needs_attention now c = true → status c = "Active".
Proof.
  unfold gen_needs_attention. intros H.
  apply andb_prop in H as [H _]. by apply bool_decide_eq_true in H.
Qed.

End queue_invariant.

Section queue_invariant_witness.
Import Migration.

(** Scenario A: an active admission without any test, written 50 hours
    after admission, is in the queue. *)
Example scenario_A :
  monitoring_queue (run arrival_script empty_db) !! ("P123", "A456")
  = Some {| q_hours_since_test := None; last_checked := 50 * hour |}.
Proof. vm_compute. reflexivity. Qed.

(** Scenario B: an admission last tested 49 hours ago is in the queue with
    priority 1; a test dated now takes it out. *)
Example scenario_B :
  let overdue := run [(0, InsertPatient "P123");
                      (49 * hour, InsertAdmission tested_at_0)] empty_db in
  monitoring_queue overdue !! ("P123", "A456")
  = Some {| q_hours_since_test := Some 49; last_checked := 49 * hour |} ∧
  priority (Some 49) = 1 ∧
  monitoring_queue
    (run [(49 * hour, InsertLabTest (lab_test "T1" (49 * hour)))] overdue)
  !! ("P123", "A456") = None.
Proof. repeat split; vm_compute; reflexivity. Qed.

End queue_invariant_witness.

(** ** The attention flag and the priority *)
Section attention.
Import Migration.

Lemma Qlt_bool_iff a b : Qlt_bool a b = true ↔ (a < b)%Q.
Proof.
  unfold Qlt_bool. rewrite negb_true_iff.
  split.
  - intros H. apply Qnot_le_lt. intros Hle.
    apply Qle_bool_iff in Hle. congruence.
  - intros H. destruct (Qle_bool b a) eqn:E; [|done].
    apply Qle_bool_iff in E. exfalso. by apply (Qlt_not_le a b).
Qed.

Lemma epoch_hours_gt now t (n : Z) :
  (inject_Z n < epoch_hours now t)%Q ↔ n * hour < now - t.
Proof.
  unfold epoch_hours, Qlt, inject_Z, usec_per_hour, hour. simpl. lia.
Qed.

(** The generated column: active, and never tested or tested strictly
    more than 48 hours before the row was written. *)
Lemma gen_needs_attention_spec now (c : admission_cols) :
  gen_needs_attention now c = true ↔
  status c = "Active" ∧
  match last_test_date c with
  | None => True
  | Some t => 48 * hour < now - t
  end.
Proof.
  unfold gen_needs_attention. rewrite andb_true_iff, bool_decide_eq_true.
  destruct (last_test_date c) as [t|].
  - by rewrite Qlt_bool_iff, epoch_hours_gt.
  - tauto.
Qed.

(** The three tiers of the [CASE], on a non-null [hours_since_test]. *)
Lemma priority_tiers (h : Z) :
  (48 ≤ h → priority (Some h) = 1) ∧
  (36 ≤ h < 48 → priority (Some h) = 2) ∧
  (h < 36 → priority (Some h) = 3).
Proof.
  unfold priority.
  repeat split; intros; repeat case_bool_decide; lia.
Qed.

(** Rounding does not take a value above [n] below [n]. *)
Lemma numeric_to_integer_ge (q : Q) (n : Z) :
  0 ≤ n → (inject_Z n < q)%Q → n ≤ numeric_to_integer q.
Proof.
  intros Hn Hq. unfold numeric_to_integer.
  assert (0 <= q)%Q as H0.
  { apply Qlt_le_weak. eapply Qle_lt_trans; [|exact Hq].
    unfold Qle, inject_Z. simpl. lia. }
  apply Qle_bool_iff in H0. rewrite H0.
  rewrite <- (Qfloor_Z n) at 1. apply Qfloor_resp_le.
  apply Qlt_le_weak. eapply Qlt_le_trans; [exact Hq|].
  rewrite <- (Qplus_0_r q) at 1. apply Qplus_le_r. discriminate.
Qed.

(** A row the trigger puts in the queue has priority 1, unless the
    admission was never tested: then it has priority 3.  Priority 2 does
    not occur in the queue. *)
Lemma queued_priority now (c : admission_cols) :
  gen_needs_attention now c = true →
  priority (gen_hours_since_test now c)
  = match last_test_date c with Some _ => 1 | None => 3 end.
Proof.
  intros H. apply gen_needs_attention_spec in H as [_ H].
  unfold gen_hours_since_test. destruct (last_test_date c) as [t|]; [|done].
  unfold priority. rewrite bool_decide_eq_true_2; [done|].
  apply numeric_to_integer_ge; [lia|]. by apply epoch_hours_gt.
Qed.
End attention.

Section python_attention.
Import Py Models.

Lemma hours_of_usec_ge (delta n : Z) :
  Qle_bool (inject_Z n) (hours_of_usec delta) = bool_decide (n * hour ≤ delta).
Proof.
  destruct (Qle_bool _ _) eqn:E; symmetry.
  - apply bool_decide_eq_true. apply Qle_bool_iff in E.
    unfold hours_of_usec, Qle, inject_Z, hour in *. simpl in E. lia.
  - apply bool_decide_eq_false. intros H.
    assert (Qle_bool (inject_Z n) (hours_of_usec delta) = true); [|congruence].
    apply Qle_bool_iff.
    unfold hours_of_usec, Qle, inject_Z, hour in *. simpl. lia.
Qed.

Variable fromisoformat : string → option datetime.
Variable now : Z.

(** The property of the dataclass: an admission that is not active never
    needs attention; an active one with a naive last test date does from
    48 hours on, the bound included. *)
Lemma needs_attention_inactive (self : Admission) :
  a_status self ≠ PyStr "Active" →
  needs_attention fromisoformat now self = Ok false.
Proof. intros H. unfold needs_attention. by rewrite bool_decide_eq_true_2. Qed.

Lemma needs_attention_never_tested (self : Admission) :
  a_status self = PyStr "Active" → a_last_test_date self = PyNone →
  needs_attention fromisoformat now self = Ok true.
Proof.
  intros Hs Hd. unfold needs_attention.
  rewrite bool_decide_eq_false_2 by (rewrite Hs; naive_solver).
  by rewrite Hd.
Qed.

Lemma needs_attention_tested (self : Admission) s t :
  a_status self = PyStr "Active" → a_last_test_date self = PyStr s → s ≠ "" →
  fromisoformat s = Some {| dt_usec := t; dt_utcoffset := None |} →
  needs_attention fromisoformat now self = Ok (bool_decide (48 * hour ≤ now - t)).
Proof.
  intros Hs Hd Hne Hp. unfold needs_attention.
  rewrite bool_decide_eq_false_2 by (rewrite Hs; naive_solver).
  rewrite Hd. simpl. rewrite bool_decide_eq_false_2 by done. simpl.
  rewrite Hp. simpl. by rewrite hours_of_usec_ge.
Qed.
End python_attention.

(** ** The two attention flags at exactly 48 hours *)
Section threshold.
Import Migration Py Models.

(** C2: an active admission tested exactly 48 hours ago.  The generated
    column of the [admissions] table, which compares with [> 48], says
    that it does not need attention; the property of the dataclass, which
    compares with [>= 48], says that it does; one microsecond later both
    agree. *)
Theorem needs_attention_at_48_hours :
  gen_needs_attention (48 * hour) tested_at_0 = false ∧
  needs_attention epoch_only (48 * hour) py_tested_at_0 = Ok true ∧
  gen_needs_attention (48 * hour + 1) tested_at_0 = true.
Proof. repeat split; vm_compute; reflexivity. Qed.

(** C3: an active admission that was never tested enters the queue with a
    [NULL] [hours_since_test], for which the [CASE] of [priority] takes
    its [ELSE] branch, tier 3, while [calculate_hours_since] answers
    infinity for a missing date. *)
Theorem never_tested_priority :
  q_priority <$> monitoring_queue (run arrival_script empty_db) !! ("P123", "A456")
  = Some 3 ∧
  priority None = 3 ∧
  calculate_hours_since epoch_only (50 * hour) PyNone = Ok Infinity.
Proof. repeat split; vm_compute; reflexivity. Qed.
End threshold.

(** ** [last_test_date] only moves forward *)
Section last_test.
Import Migration.

Lemma update_admission_last_test_date now t d aid (row : admission_row) :
  admissions d !! aid = Some row → admission_id row = aid →
  lt_admission_id t = aid →
  ∃ row' : admission_row,
    admissions (update_admission_last_test now t d) !! aid = Some row' ∧
    admission_id row' = aid ∧
    last_test_date row' = later (last_test_date row) (test_date t).
Proof.
  intros Hrow Hid Ht. unfold update_admission_last_test.
  rewrite Ht, Hrow.
  destruct (advances _ _) eqn:Hadv.
  - eexists. unfold write_admission. simpl. rewrite Hid.
    rewrite lookup_insert_eq. split; [done|]. split; [done|]. simpl.
    unfold advances, later in *.
    destruct (last_test_date row) as [t0|]; [|done].
    apply bool_decide_eq_true in Hadv. f_equal. lia.
  - exists row. split; [done|]. split; [done|].
    unfold advances, later in *.
    destruct (last_test_date row) as [t0|]; [|done].
    apply bool_decide_eq_false in Hadv. f_equal. lia.
Qed.

Lemma insert_lab_tests_last tests : ∀ d d' aid (row : admission_row),
  admissions d !! aid = Some row → admission_id row = aid →
  Forall (λ nt, lt_admission_id nt.2 = aid) tests →
  insert_lab_tests tests d = Some d' →
  ∃ row' : admission_row,
    admissions d' !! aid = Some row' ∧
    last_test_date row' = foldl later (last_test_date row) (test_dates tests).
Proof.
  induction tests as [|[now t] tests IH]; intros d d' aid row Hrow Hid Hall Hins.
  - injection Hins as <-. by exists row.
  - simpl in Hins. apply Forall_cons in Hall as [Ht Hall]. simpl in Ht.
    destruct (insert_lab_test now t d) as [d1|] eqn:H1; [|done]. simpl in Hins.
    unfold insert_lab_test in H1.
    destruct (lab_tests d !! test_id t); [done|].
    destruct (lab_test_fk_ok t d); [|done]. injection H1 as <-.
    destruct (update_admission_last_test_date now t
                (with_lab_tests (<[test_id t:=t]> (lab_tests d)) d) aid row
                Hrow Hid Ht) as (row1 & Hrow1 & Hid1 & Hlast1).
    destruct (IH _ _ _ _ Hrow1 Hid1 Hall Hins) as (row' & Hrow' & Hlast').
    exists row'. split; [done|]. simpl. by rewrite <- Hlast1.
Qed.

Lemma foldl_later_bounds dates : ∀ cur,
  ∃ m, foldl later cur dates = (if dates is [] then cur else Some m) ∧
       Forall (λ x, x ≤ m) dates ∧
       (∀ c, cur = Some c → c ≤ m) ∧
       (dates ≠ [] → m ∈ dates ∨ cur = Some m).
Proof.
  induction dates as [|t dates IH]; intros cur.
  - exists (default 0 cur). repeat split; [done| |done].
    intros c ->. simpl. lia.
  - destruct (IH (later cur t)) as (m & Hm & Hle & Hcur & Hin). simpl.
    destruct dates as [|t' dates'].
    + simpl. destruct cur as [c|]; simpl.
      * exists (Z.max c t). repeat split.
        -- repeat constructor. lia.
        -- intros ? [= <-]. lia.
        -- intros _. destruct (Z.max_spec c t) as [[_ ->]|[_ ->]];
             [left; set_solver | by right].
      * exists t. repeat split; [repeat constructor; lia|done|].
        intros _. left. set_solver.
    + exists m. split; [done|].
      assert (t ≤ m ∧ ∀ c, cur = Some c → c ≤ m) as [Htm Hcm].
      { destruct cur as [c|]; simpl in Hcur.
        - specialize (Hcur _ eq_refl). split; [lia|]. intros ? [= <-]. lia.
        - specialize (Hcur _ eq_refl). split; [lia|done]. }
      split; [by constructor|]. split; [done|].
      intros _. destruct (Hin ltac:(done)) as [Hmem|Heq]; [left; by constructor|].
      destruct cur as [c|]; simpl in Heq; injection Heq as Hin'.
      * destruct (Z.max_spec c t) as [[_ Hmax]|[_ Hmax]].
        -- left. rewrite Hmax in Hin'. subst. set_solver.
        -- right. congruence.
      * left. subst. set_solver.
Qed.

(** C4: after the tests of an admission are inserted, in whatever order
    they arrive, [last_test_date] is the greatest [test_date] among them,
    for an admission that had no [last_test_date] before (or none later
    than all of these tests); and tests that are not later than the
    current [last_test_date] leave it as it is. *)
Theorem last_test_date_is_latest tests d d' aid (row : admission_row) :
  admissions d !! aid = Some row → admission_id row = aid →
  Forall (λ nt, lt_admission_id nt.2 = aid) tests →
  insert_lab_tests tests d = Some d' →
  ∃ row' : admission_row,
    admissions d' !! aid = Some row' ∧
    (tests ≠ [] →
     (∀ c, last_test_date row = Some c → Exists (λ x, c ≤ x) (test_dates tests)) →
     ∃ m, last_test_date row' = Some m ∧ m ∈ test_dates tests ∧
          Forall (λ x, x ≤ m) (test_dates tests)) ∧
    (∀ cur, last_test_date row = Some cur →
     Forall (λ x, x ≤ cur) (test_dates tests) →
     last_test_date row' = Some cur).
Proof.
  intros Hrow Hid Hall Hins.
  destruct (insert_lab_tests_last tests d d' aid row Hrow Hid Hall Hins)
    as (row' & Hrow' & Hlast).
  exists row'. split; [done|].
  destruct (foldl_later_bounds (test_dates tests) (last_test_date row))
    as (m & Hm & Hle & Hcur & Hin).
  split.
  - intros Hne Hinit. exists m.
    assert (test_dates tests ≠ []) as Hne' by (by destruct tests).
    rewrite Hlast, Hm. destruct (test_dates tests) eqn:E; [done|].
    split; [done|]. split; [|done].
    destruct (Hin Hne') as [?|Hc]; [done|].
    apply Hinit, Exists_exists in Hc as (x & Hx & Hmx).
    rewrite Forall_forall in Hle. pose proof (Hle _ Hx).
    by replace m with x by lia.
  - intros cur Hc Hall'. rewrite Hlast, Hm.
    destruct (test_dates tests) as [|t0 ts] eqn:E; [done|].
    f_equal. specialize (Hcur _ Hc).
    destruct (Hin ltac:(done)) as [Hmem|Hc']; [|congruence].
    rewrite Forall_forall in Hall'. specialize (Hall' _ Hmem). lia.
Qed.
End last_test.

Section last_test_witness.
Import Migration.

Example out_of_order_last_test_date :
  last_test_date_of "A456" <$> insert_lab_tests out_of_order arrived
  = Some (Some (Some (30 * hour))).
Proof. vm_compute. reflexivity. Qed.

Lemma last_test_date_is_latest_witness :
  let d' := default arrived (insert_lab_tests out_of_order arrived) in
  let row := store_admission (50 * hour) never_tested in
  ∃ row' : admission_row,
    admissions d' !! "A456" = Some row' ∧
    (out_of_order ≠ [] →
     (∀ c, last_test_date row = Some c →
           Exists (λ x, c ≤ x) (test_dates out_of_order)) →
     ∃ m, last_test_date row' = Some m ∧ m ∈ test_dates out_of_order ∧
          Forall (λ x, x ≤ m) (test_dates out_of_order)) ∧
    (∀ cur, last_test_date row = Some cur →
     Forall (λ x, x ≤ cur) (test_dates out_of_order) →
     last_test_date row' = Some cur).
Proof.
  intros d' row.
  apply (last_test_date_is_latest out_of_order arrived d' "A456" row).
  - vm_compute. reflexivity.
  - reflexivity.
  - repeat constructor.
  - vm_compute. reflexivity.
Defined.
End last_test_witness.

(** ** The batch of [process_monitoring_batch] *)
Section batch_facts.
Import Migration.

#[local] Instance hours_desc_total : Total hours_desc.
Proof.
  intros [k1 [[h1|] c1]] [k2 [[h2|] c2]]; unfold hours_desc; simpl; auto.
  destruct (decide (h2 ≤ h1)).
  - left. by apply bool_decide_eq_true.
  - right. apply bool_decide_eq_true. lia.
Qed.

#[local] Instance hours_desc_trans : Transitive hours_desc.
Proof.
  intros [k1 [[h1|] c1]] [k2 [[h2|] c2]] [k3 [[h3|] c3]];
    unfold hours_desc; simpl; try done.
  rewrite !bool_decide_eq_true. lia.
Qed.

Lemma elem_of_candidates locked q kv :
  kv ∈ candidates locked q ↔ eligible locked q kv.
Proof.
  unfold candidates, eligible. rewrite merge_sort_Permutation.
  rewrite list_elem_of_filter. destruct kv as [k v]. simpl.
  rewrite elem_of_map_to_list. tauto.
Qed.

Lemma candidates_NoDup locked q : NoDup (candidates locked q).*1.
Proof.
  unfold candidates. rewrite merge_sort_Permutation.
  eapply sublist_NoDup; [apply (NoDup_fst_map_to_list q)|].
  apply fmap_sublist, sublist_filter.
Qed.

Lemma batch_spec locked n q :
  (length (batch locked n q) ≤ n)%nat ∧
  Forall (eligible locked q) (batch locked n q) ∧
  StronglySorted hours_desc (batch locked n q) ∧
  NoDup (batch locked n q).*1 ∧
  (∀ kv, eligible locked q kv → kv.1 ∉ (batch locked n q).*1 →
     length (batch locked n q) = n ∧
     Forall (λ kv', hours_desc kv' kv) (batch locked n q)).
Proof.
  change (batch locked n q) with (take n (candidates locked q)).
  pose proof (StronglySorted_merge_sort hours_desc
    (filter (λ kv, q_priority kv.2 = 1 ∧ kv.1 ∉ locked) (map_to_list q))) as Hs.
  change (StronglySorted hours_desc (candidates locked q)) in Hs.
  rewrite <- (take_drop n (candidates locked q)) in Hs.
  repeat split.
  - rewrite length_take. lia.
  - apply Forall_forall. intros kv Hkv. apply elem_of_candidates.
    eapply elem_of_sublist; [done|apply sublist_take].
  - by eapply StronglySorted_app_1_l.
  - eapply sublist_NoDup; [apply (candidates_NoDup locked q)|].
    apply fmap_sublist, sublist_take.
  - apply elem_of_candidates in H.
    rewrite <- (take_drop n (candidates locked q)) in H.
    apply elem_of_app in H as [H|H].
    { exfalso. apply H0. apply list_elem_of_fmap. by exists kv. }
    rewrite length_take. apply list_elem_of_lookup in H as [i Hi].
    apply lookup_lt_Some in Hi. rewrite length_drop in Hi. lia.
  - apply elem_of_candidates in H.
    rewrite <- (take_drop n (candidates locked q)) in H.
    apply elem_of_app in H as [H|H].
    { exfalso. apply H0. apply list_elem_of_fmap. by exists kv. }
    apply Forall_forall. intros kv' Hkv'.
    by eapply StronglySorted_app_1_elem_of.
Qed.

Lemma stamped_lookup (now : timestamp) (b : list (queue_key * queue_row))
    (q : gmap queue_key queue_row) (k : queue_key) :
  foldr (λ kv, alter (stamp now) kv.1) q b !! k
  = if decide (k ∈ b.*1) then stamp now <$> q !! k else q !! k.
Proof.
  induction b as [|[k0 v0] b IH].
  - simpl. destruct (decide (k ∈ [])) as [H|]; [by apply elem_of_nil in H|done].
  - rewrite fmap_cons. cbn [foldr fst].
    destruct (decide (k0 = k)) as [->|Hne].
    + rewrite lookup_alter_eq, IH.
      destruct (decide (k ∈ k :: b.*1)) as [_|Hn]; [|exfalso; apply Hn; by left].
      destruct (decide (k ∈ b.*1)); [|done]. by destruct (q !! k).
    + rewrite lookup_alter_ne by done. rewrite IH.
      destruct (decide (k ∈ b.*1)) as [Hin|Hin],
        (decide (k ∈ k0 :: b.*1)) as [Hin'|Hin']; try done.
      * exfalso. apply Hin'. by right.
      * apply elem_of_cons in Hin' as [->|?]; done.
Qed.

End batch_facts.

Section batch_scenario.
Import Migration.

Example first_claim_ok :
  process_monitoring_batch ∅ 2 100 five_overdue = Some first_claim.
Proof. vm_compute. reflexivity. Qed.


End batch_scenario.

(** ** Running the queue trigger twice; running the sweep twice *)
Section idempotence.
Import Migration.

Lemma update_monitoring_queue_idempotent now1 now2 (NEW : admission_row) q :
  update_monitoring_queue now2 NEW (update_monitoring_queue now1 NEW q)
  = update_monitoring_queue now1 NEW q.
Proof.
  unfold update_monitoring_queue.
  destruct (needs_attention NEW).
  - destruct (q !! (patient_id NEW, admission_id NEW)) as [old|];
      rewrite lookup_insert_eq; simpl; by rewrite insert_insert_eq.
  - by rewrite delete_delete_eq.
Qed.

(** The same write of the same columns at the same time, twice. *)
Lemma write_admission_idempotent now c d :
  write_admission now c (write_admission now c d) = write_admission now c d.
Proof.
  unfold write_admission, with_queue, with_admissions. simpl.
  by rewrite update_monitoring_queue_idempotent, insert_insert_eq.
Qed.
End idempotence.

Section sweep_facts.
Import Py Models Websocket MonitorHandler.

Variable dumps : alert → string.

Lemma post_alert_attempted g data w c :
  attempted (post_alert g data w c) = attempted w ++ [(c, data)].
Proof.
  unfold post_alert.
  destruct (post_to_connection g c data); simpl; [done| |done].
  unfold remove_connection. simpl.
  by destruct (delete_item_error g c).
Qed.

Lemma post_alerts_attempted g data cs : ∀ w,
  attempted (foldl (post_alert g data) w cs)
  = attempted w ++ ((λ c, (c, data)) <$> cs).
Proof.
  induction cs as [|c cs IH]; intros w; simpl.
  - by rewrite app_nil_r.
  - rewrite IH, post_alert_attempted. by rewrite <- app_assoc.
Qed.

Lemma broadcast_message_attempted g message w :
  attempted (MonitorHandler.broadcast_message dumps g message w)
  = attempted w ++ posts_of dumps g w message.
Proof. apply post_alerts_attempted. Qed.

(** Without a [GoneException] the table of connections stays as it is. *)
Lemma post_alert_table g data w c :
  post_to_connection g c data ≠ Gone →
  connections_table (post_alert g data w c) = connections_table w.
Proof. intros H. unfold post_alert. by destruct (post_to_connection g c data). Qed.

Lemma broadcast_message_table g message w :
  (∀ c data, post_to_connection g c data ≠ Gone) →
  connections_table (MonitorHandler.broadcast_message dumps g message w)
  = connections_table w.
Proof.
  intros Hg. unfold MonitorHandler.broadcast_message.
  generalize (get_connections g w). intros cs. revert w.
  induction cs as [|c cs IH]; intros w; simpl; [done|].
  rewrite IH. by apply post_alert_table.
Qed.

Lemma get_connections_table g w w' :
  connections_table w' = connections_table w →
  get_connections g w' = get_connections g w.
Proof. unfold get_connections, scan. by intros ->. Qed.

Lemma handle_loop_attempted g timestamp patients : ∀ w w0,
  (∀ c data, post_to_connection g c data ≠ Gone) →
  connections_table w = connections_table w0 →
  let w' := foldl (λ w p, MonitorHandler.broadcast_message dumps g
                            (create_alert_message timestamp p) w) w patients in
  connections_table w' = connections_table w0 ∧
  attempted w' = attempted w ++
    mjoin ((λ p, posts_of dumps g w0 (create_alert_message timestamp p)) <$> patients).
Proof.
  induction patients as [|p ps IH]; intros w w0 Hg Hw; simpl.
  - by rewrite app_nil_r.
  - destruct (IH (MonitorHandler.broadcast_message dumps g
                    (create_alert_message timestamp p) w) w0 Hg) as [Ht Ha].
    { by rewrite broadcast_message_table. }
    split; [done|]. rewrite Ha, broadcast_message_attempted.
    rewrite <- app_assoc. do 2 f_equal.
    unfold posts_of. by rewrite (get_connections_table g w0 w).
Qed.

Lemma handle_attempted g admissions timestamp w :
  (∀ c data, post_to_connection g c data ≠ Gone) →
  let w' := (handle dumps g (Ok admissions) timestamp w).2 in
  connections_table w' = connections_table w ∧
  attempted w' = attempted w ++ alerts_of dumps g w timestamp admissions.
Proof.
  intros Hg. unfold handle, alerts_of, get_patients_needing_attention.
  destruct admissions as [|a admissions].
  { simpl. by rewrite app_nil_r. }
  rewrite !fmap_cons. cbn [snd].
  destruct (handle_loop_attempted g timestamp
              (transform a :: (transform <$> admissions)) w w Hg eq_refl)
    as [Ht Ha].
  split; [done|]. rewrite Ha. f_equal. rewrite fmap_cons. cbn [mjoin list_join]. f_equal. 
  rewrite <- list_fmap_compose.
  done.
Qed.
End sweep_facts.

Section reconcile_twice.
Import Migration Py Models Websocket MonitorHandler.

End reconcile_twice.

Section reconcile_twice_witness.
Import Migration Py Models Websocket MonitorHandler.


End reconcile_twice_witness.

(** ** The broadcast of [WebSocketConnection] *)
Section broadcast_facts.
Import Py Websocket.

Variable WebSocketMessage : Type.
Variable to_json : WebSocketMessage → string.

Lemma send_message_ok g c message w success w' :
  send_message WebSocketMessage to_json g c message w = (Ok success, w') →
  success = delivered WebSocketMessage to_json g message c.
Proof.
  unfold send_message, delivered.
  destruct (post_to_connection g c (to_json message)).
  - by intros [= <- _].
  - destruct (remove_connection _ _ _) as [[?|?] ?]; [by intros [= <- _]|done].
  - by intros [= <- _].
Qed.

Lemma broadcast_loop_stats g message excl connections : ∀ st w st' w',
  broadcast_loop WebSocketMessage to_json g message excl connections st w
  = (Ok st', w') →
  total st' = total st ∧ excluded st' = excluded st ∧
  sent st' = (sent st +
    length (filter (λ c, delivered WebSocketMessage to_json g message c = true) (targets excl connections)))%nat ∧
  failed st' = (failed st +
    length (filter (λ c, delivered WebSocketMessage to_json g message c = false) (targets excl connections)))%nat.
Proof.
  induction connections as [|c cs IH]; intros st w st' w'; simpl.
  - intros [= <- _]. unfold targets. simpl. repeat split; lia.
  - unfold targets. rewrite filter_cons.
    destruct (is_excluded excl c) eqn:Hex.
    + rewrite decide_False by done. apply IH.
    + rewrite decide_True by done.
      destruct (send_message _ _ _ _ _ _) as [[success|e] w1] eqn:Hsend; [|done].
      apply send_message_ok in Hsend. intros Hloop.
      destruct (IH _ _ _ _ Hloop) as (Ht & He & Hs & Hf).
      rewrite Ht, He, Hs, Hf. rewrite !filter_cons. fold (targets excl cs).
      destruct success; rewrite <- Hsend; simpl; repeat split; lia.
Qed.

(** C10: when the scan succeeds and the call returns its statistics,
    [total] is the number of connections scanned, every scanned
    connection that is not excluded is counted once, in [sent] when the
    post was delivered and in [failed] otherwise, so that
    [sent + failed = total] without an exclusion list; and [excluded] is
    the length of the list the caller gave. *)
Theorem broadcast_message_stats g message exclude_connections w st w' :
  broadcast_message WebSocketMessage to_json g message exclude_connections w
  = (Ok st, w') →
  total st = length (connections_table w) ∧
  sent st = length (filter (λ c, delivered WebSocketMessage to_json g message c = true)
                      (targets exclude_connections (connections_table w))) ∧
  failed st = length (filter (λ c, delivered WebSocketMessage to_json g message c = false)
                        (targets exclude_connections (connections_table w))) ∧
  (sent st + failed st)%nat
  = length (targets exclude_connections (connections_table w)) ∧
  (default [] exclude_connections = [] → (sent st + failed st)%nat = total st) ∧
  excluded st = length (default [] exclude_connections).
Proof.
  unfold broadcast_message, scan.
  destruct (scan_error g); [done|]. intros Hloop.
  apply broadcast_loop_stats in Hloop as (Ht & He & Hs & Hf). simpl in *.
  assert (∀ l : list string,
    (length (filter (λ c, delivered WebSocketMessage to_json g message c = true) l) +
     length (filter (λ c, delivered WebSocketMessage to_json g message c = false) l))%nat = length l) as Hsplit.
  { induction l as [|c l IH]; [done|]. rewrite !filter_cons.
    destruct (delivered WebSocketMessage to_json g message c); simpl; lia. }
  rewrite Ht, He, Hs, Hf, Hsplit.
  repeat split; try done.
  intros Hnone. f_equal. unfold targets.
  assert (∀ c, is_excluded exclude_connections c = false) as Hno.
  { intros c. destruct exclude_connections as [[|??]|]; simpl in *; done. }
  clear - Hno. induction (connections_table w) as [|c l IH]; [done|].
  rewrite filter_cons, decide_True by done. by f_equal.
Qed.

(** When [delete_item] does not fail, the broadcast returns its
    statistics and has tried every connection that is not excluded,
    whatever the posts did. *)
Lemma broadcast_loop_attempts g message excl connections : ∀ st w,
  (∀ c, delete_item_error g c = None) →
  ∃ st' w',
    broadcast_loop WebSocketMessage to_json g message excl connections st w
    = (Ok st', w') ∧
    attempted w' = attempted w ++
      ((λ c, (c, to_json message)) <$> targets excl connections).
Proof.
  induction connections as [|c cs IH]; intros st w Hdel; simpl.
  - exists st, w. by rewrite app_nil_r.
  - unfold targets. rewrite filter_cons. fold (targets excl cs).
    destruct (is_excluded excl c) eqn:Hex.
    + rewrite decide_False by done. by apply IH.
    + rewrite decide_True by done.
      assert (∃ success w1,
        send_message WebSocketMessage to_json g c message w = (Ok success, w1) ∧
        attempted w1 = attempted w ++ [(c, to_json message)])
        as (success & w1 & Hsend & Hatt).
      { unfold send_message, remove_connection. rewrite Hdel.
        destruct (post_to_connection g c (to_json message)); simpl; eauto. }
      rewrite Hsend.
      destruct (IH (count success st) w1 Hdel) as (st' & w' & Hloop & Hatt').
      exists st', w'. split; [done|].
      rewrite Hatt', Hatt, fmap_cons. by rewrite <- app_assoc.
Qed.

Lemma broadcast_message_attempts g message exclude_connections w :
  scan_error g = None → (∀ c, delete_item_error g c = None) →
  ∃ st w',
    broadcast_message WebSocketMessage to_json g message exclude_connections w
    = (Ok st, w') ∧
    attempted w' = attempted w ++
      ((λ c, (c, to_json message))
       <$> targets exclude_connections (connections_table w)).
Proof.
  intros Hscan Hdel. unfold broadcast_message, scan. rewrite Hscan.
  by apply broadcast_loop_attempts.
Qed.
End broadcast_facts.

Section broadcast_examples.
Import Py Websocket.

(** C7: a failed post is counted and the broadcast goes on; but when the
    connection is gone and its removal fails, the exception of the
    removal leaves [send_message] and [broadcast_message]: the caller
    gets the exception, no statistics, and [conn2] and [conn3] are never
    tried. *)
Theorem broadcast_message_raises_when_removal_fails :
  broadcast_message string verbatim flaky "alert" None three_observers
  = (Ok {| total := 3; sent := 2; failed := 1; excluded := 0 |},
     {| connections_table := ["conn1"; "conn2"; "conn3"];
        attempted := [("conn1", "alert"); ("conn2", "alert"); ("conn3", "alert")] |}) ∧
  broadcast_message string verbatim gone_and_stuck "alert" None three_observers
  = (Raise (OtherException "DB Error"),
     {| connections_table := ["conn1"; "conn2"; "conn3"];
        attempted := [("conn1", "alert")] |}).
Proof. split; vm_compute; reflexivity. Qed.

(** With [conn1] excluded, and with a name in the list that no connection
    has: [excluded] is 2 though one connection was skipped. *)
Lemma broadcast_message_stats_witness :
  let st := {| total := 3; sent := 1; failed := 1; excluded := 2 |} in
  let w' := {| connections_table := ["conn1"; "conn2"; "conn3"];
               attempted := [("conn2", "alert"); ("conn3", "alert")] |} in
  let exclude_connections := Some ["conn1"; "ghost"] in
  total st = length (connections_table three_observers) ∧
  sent st = length (filter (λ c, delivered string verbatim flaky "alert" c = true)
                      (targets exclude_connections (connections_table three_observers))) ∧
  failed st = length (filter (λ c, delivered string verbatim flaky "alert" c = false)
                        (targets exclude_connections (connections_table three_observers))) ∧
  (sent st + failed st)%nat
  = length (targets exclude_connections (connections_table three_observers)) ∧
  (default [] exclude_connections = [] → (sent st + failed st)%nat = total st) ∧
  excluded st = length (default [] exclude_connections).
Proof.
  intros st w' exclude_connections.
  apply (broadcast_message_stats string verbatim flaky "alert"
           exclude_connections three_observers st w').
  vm_compute. reflexivity.
Defined.
End broadcast_examples.

(** ** Items of the DynamoDB tables *)
Section round_trip.
Import Py Models.

Variable import_time : string.

(** [to_item] puts the two derived keys first. *)
Lemma to_item_keys :
  (∀ x : Patient,
     dict_get (to_item (Patient_cls import_time) x) "PK"
     = Some (PyStr ("PATIENT#" +:+ py_str (p_patient_id x))) ∧
     dict_get (to_item (Patient_cls import_time) x) "SK" = Some (PyStr "METADATA")) ∧
  (∀ x : Admission,
     dict_get (to_item (Admission_cls import_time) x) "PK"
     = Some (PyStr ("PATIENT#" +:+ py_str (a_patient_id x))) ∧
     dict_get (to_item (Admission_cls import_time) x) "SK"
     = Some (PyStr ("ADMISSION#" +:+ py_str (a_admission_id x)))) ∧
  (∀ x : LabTest,
     dict_get (to_item (LabTest_cls import_time) x) "PK"
     = Some (PyStr ("ADMISSION#" +:+ py_str (t_admission_id x))) ∧
     dict_get (to_item (LabTest_cls import_time) x) "SK"
     = Some (PyStr ("TEST#" +:+ py_str (t_test_date x) +:+ "#" +:+
                    py_str (t_test_id x)))).
Proof. repeat split. Qed.

(** C9: for the three models, whose attributes neither start with an
    underscore nor are called [PK] or [SK], [from_item] of [to_item] of
    an instance builds an instance equal to it. *)
Theorem from_item_to_item :
  (∀ x : Patient,
     from_item (Patient_cls import_time) (to_item (Patient_cls import_time) x)
     = Ok x) ∧
  (∀ x : Admission,
     from_item (Admission_cls import_time) (to_item (Admission_cls import_time) x)
     = Ok x) ∧
  (∀ x : LabTest,
     from_item (LabTest_cls import_time) (to_item (LabTest_cls import_time) x)
     = Ok x).
Proof. repeat split; intros []; reflexivity. Qed.
End round_trip.

(** ** Loading the configuration *)
Section config_facts.
Import Py Config.

Lemma MonitoringConfig_validate_thresholds (m : raw_monitoring) (c : MonitoringConfig) a w :
  MonitoringConfig_validate m = Ok c →
  MonitoringConfig_validate
    {| raw_test_alert_threshold := Some a; raw_warning_threshold := Some w;
       raw_check_interval := raw_check_interval m;
       raw_batch_size := raw_batch_size m |}
  = if bool_decide (1 ≤ a)
    then if bool_decide (1 ≤ w)
         then Ok {| test_alert_threshold := a; warning_threshold := w;
                    check_interval := check_interval c;
                    batch_size := batch_size c |}
         else Raise (ValidationError "warning_threshold")
    else Raise (ValidationError "test_alert_threshold").
Proof.
  unfold MonitoringConfig_validate. 
  destruct (validate_int "test_alert_threshold" _ (raw_test_alert_threshold m)); [|done].
  destruct (validate_int "warning_threshold" _ (raw_warning_threshold m)); [|done].
  simpl.
  destruct (validate_int "check_interval" _ _); [|by repeat case_bool_decide].
  destruct (validate_int "batch_size" _ _); [|by repeat case_bool_decide].
  simpl. intros [= <-]. simpl. unfold within. simpl.
  rewrite !andb_true_r. by repeat case_bool_decide.
Qed.

(** A call that the hypotheses show to have returned: its exception case is
    closed, its result is named. *)
Ltac succeeded call := destruct call; [|done]; simpl in *.

(** C8, as the code has it: loading checks each threshold against its own
    bound, 1, and never one threshold against the other.  A document that
    loads still loads when its two thresholds are replaced by any values
    from 1 on, in whatever order, a warning threshold at or above the
    alert threshold included; it is refused, with a validation error at
    load time, exactly when one of them is below 1. *)
Theorem load_config_checks_bounds_not_order getenv_STAGE data cfg a w :
  load_config getenv_STAGE (Ok data) = Ok cfg →
  load_config getenv_STAGE (Ok (with_thresholds a w data))
  = if bool_decide (1 ≤ a)
    then if bool_decide (1 ≤ w)
         then Ok (set_thresholds a w cfg)
         else Raise (ValidationError "warning_threshold")
    else Raise (ValidationError "test_alert_threshold").
Proof.
  intros Hload. unfold load_config in *. simpl in *.
  succeeded (section "development" (lookup_environment (environments data) "development")).
  succeeded (section "tables" (raw_tables data)).
  destruct (monitoring_section data) as [m|]; [|done]. simpl in *.
  succeeded (section "api" (api_section data)).
  succeeded (section "websocket" (websocket_section data)).
  succeeded (section "security" (security_section data)).
  match type of Hload with context [validate_all ?f ?l] => succeeded (validate_all f l) end.
  destruct (MonitoringConfig_validate m) as [mc|] eqn:Hm; [|done]. simpl in *.
  rewrite (MonitoringConfig_validate_thresholds m mc a w Hm).
  match type of Hload with context [ApiConfig_validate ?r] =>
    succeeded (ApiConfig_validate r) end.
  match type of Hload with context [WebSocketConfig_validate ?r] =>
    succeeded (WebSocketConfig_validate r) end.
  match type of Hload with context [SecurityConfig_validate ?r] =>
    succeeded (SecurityConfig_validate r) end.
  match type of Hload with context [EnvironmentConfig_validate ?r] =>
    succeeded (EnvironmentConfig_validate r) end.
  injection Hload as <-. by repeat case_bool_decide.
Qed.
End config_facts.

Section config_examples.
Import Py Config.

(** A warning threshold of 50 hours with an alert threshold of 48: the
    document loads, and the configuration carries both as given. *)
Lemma inverted_thresholds_load :
  monitoring <$> load_config (Some "production") (Ok (document 48 50))
  = Ok {| test_alert_threshold := 48; warning_threshold := 50;
          check_interval := 60; batch_size := 100 |}.
Proof. vm_compute. reflexivity. Qed.

Lemma load_config_checks_bounds_not_order_witness :
  load_config (Some "production") (Ok (document 48 36)) = Ok production ∧
  load_config (Some "production") (Ok (with_thresholds 48 48 (document 48 36)))
  = Ok (set_thresholds 48 48 production).
Proof.
  assert (load_config (Some "production") (Ok (document 48 36)) = Ok production)
    as Hload by (vm_compute; reflexivity).
  split; [exact Hload|].
  exact (load_config_checks_bounds_not_order
           (Some "production") (document 48 36) production 48 48 Hload).
Defined.
End config_examples.

(** * Further properties of the tables *)
Section referential_integrity.
Import Migration.

Lemma update_monitoring_queue_lookup now (NEW : admission_row) q k r :
  update_monitoring_queue now NEW q !! k = Some r →
  q !! k = Some r ∨
  (k = (patient_id NEW, admission_id NEW) ∧ needs_attention NEW = true ∧
   q_hours_since_test r = hours_since_test NEW).
Proof.
  destruct (decide (k = (patient_id NEW, admission_id NEW))) as [->|Hne].
  - unfold update_monitoring_queue. destruct (needs_attention NEW).
    + destruct (q !! (patient_id NEW, admission_id NEW));
        rewrite lookup_insert_eq; intros [= <-]; by right.
    + by rewrite lookup_delete_eq.
  - rewrite update_monitoring_queue_other by done. by left.
Qed.

Lemma write_admission_referential now c d :
  patient_id c ∈ patients d →
  referential d → referential (write_admission now c d).
Proof.
  intros Hp (Ha & Ht & Hq). unfold write_admission.
  split; [|split]; simpl.
  - intros aid row H.
    destruct (decide (admission_id c = aid)) as [<-|Hne].
    + rewrite lookup_insert_eq in H. by injection H as <-.
    + rewrite lookup_insert_ne in H by done. by apply Ha.
  - intros tid t H. apply Ht in H as [? H]. split; [done|].
    rewrite lookup_insert_is_Some.
    destruct (decide (admission_id c = lt_admission_id t)); auto.
  - intros k r H. rewrite lookup_insert_is_Some.
    apply update_monitoring_queue_lookup in H as [H|(-> & _)].
    + apply Hq in H as [? H]. split; [done|].
      destruct (decide (admission_id c = k.2)); auto.
    + split; [done|]. by left.
Qed.

Lemma update_admission_last_test_referential now t d :
  referential d → referential (update_admission_last_test now t d).
Proof.
  intros Hd. unfold update_admission_last_test.
  destruct (admissions d !! lt_admission_id t) as [row|] eqn:Hrow; [|done].
  destruct (advances _ _); [|done].
  apply write_admission_referential; [|done].
  destruct Hd as (Ha & _). by apply Ha in Hrow as [_ ?].
Qed.

Lemma with_lab_tests_referential t d :
  lab_test_fk_ok t d = true →
  referential d →
  referential (with_lab_tests (<[test_id t := t]> (lab_tests d)) d).
Proof.
  intros Hfk (Ha & Ht & Hq). split; [|split]; simpl; [done| |done].
  intros tid t' H.
  destruct (decide (test_id t = tid)) as [<-|Hne].
  - rewrite lookup_insert_eq in H. injection H as <-.
    unfold lab_test_fk_ok in Hfk. apply andb_prop in Hfk as [H1 H2].
    by apply bool_decide_eq_true in H1, H2.
  - rewrite lookup_insert_ne in H by done. by eapply Ht.
Qed.

Lemma delete_admission_referential aid0 d :
  referential d → referential (delete_admission aid0 d).
Proof.
  intros (Ha & Ht & Hq). unfold delete_admission. split; [|split]; simpl.
  - intros aid row H. apply lookup_delete_Some in H as [_ H]. by apply Ha.
  - intros tid t H. apply map_lookup_filter_Some in H as [H Hne]. simpl in Hne.
    apply Ht in H as [? H]. split; [done|]. by rewrite lookup_delete_ne.
  - intros k r H. apply map_lookup_filter_Some in H as [H Hne]. simpl in Hne.
    apply Hq in H as [? H]. split; [done|]. by rewrite lookup_delete_ne.
Qed.

Lemma delete_patient_referential pid d :
  referential d → referential (delete_patient pid d).
Proof.
  intros (Ha & Ht & Hq). unfold delete_patient. split; [|split]; simpl.
  - intros aid row H. apply map_lookup_filter_Some in H as [H Hne].
    simpl in Hne. apply Ha in H as [? ?]. split; [done|].
    apply elem_of_difference. split; [done|]. by intros ?%elem_of_singleton.
  - intros tid t H. apply map_lookup_filter_Some in H as [H [Hne Hk]].
    simpl in *. apply Ht in H as [? _]. split; [|done].
    apply elem_of_difference. split; [done|]. by intros ?%elem_of_singleton.
  - intros k r H. apply map_lookup_filter_Some in H as [H [Hne Hk]].
    simpl in *. apply Hq in H as [? _]. split; [|done].
    apply elem_of_difference. split; [done|]. by intros ?%elem_of_singleton.
Qed.

Lemma stamped_referential (now : timestamp) (b : list (queue_key * queue_row)) d :
  referential d →
  referential (with_queue (foldr (λ kv, alter (stamp now) kv.1)
                             (monitoring_queue d) b) d).
Proof.
  intros (Ha & Ht & Hq). split; [|split]; simpl; [done|done|].
  intros k r H. assert (is_Some (monitoring_queue d !! k)) as [r0 Hr0].
  { apply (stamped_is_Some now b). by exists r. }
  by apply Hq in Hr0.
Qed.

Lemma exec_referential now s d d' :
  referential d → exec now s d = Some d' → referential d'.
Proof.
  intros Hd. destruct s; simpl.
  - unfold insert_patient. case_bool_decide as Hnew; [done|]. intros [= <-].
    destruct Hd as (Ha & Ht & Hq). split; [|split]; simpl.
    + intros aid row H. apply Ha in H as [? ?]. split; [done|].
      apply elem_of_union. by right.
    + intros tid t H. apply Ht in H as [? ?]. split; [|done].
      apply elem_of_union. by right.
    + intros k r H. apply Hq in H as [? ?]. split; [|done].
      apply elem_of_union. by right.
  - intros [= <-]. by apply delete_patient_referential.
  - unfold insert_admission.
    destruct (admissions d !! admission_id c); [done|].
    case_bool_decide; [|done]. intros [= <-].
    by apply write_admission_referential.
  - unfold update_admission.
    destruct (admissions d !! admission_id c); [|by intros [= <-]].
    case_bool_decide; [|done]. intros [= <-].
    by apply write_admission_referential.
  - intros [= <-]. by apply delete_admission_referential.
  - unfold insert_lab_test.
    destruct (lab_tests d !! test_id t); [done|].
    destruct (lab_test_fk_ok _ _) eqn:Hfk; [|done]. intros [= <-].
    by apply update_admission_last_test_referential, with_lab_tests_referential.
  - unfold update_lab_test.
    destruct (lab_tests d !! test_id t); [|by intros [= <-]].
    destruct (lab_test_fk_ok _ _) eqn:Hfk; [|done]. intros [= <-].
    by apply update_admission_last_test_referential, with_lab_tests_referential.
  - destruct (process_monitoring_batch _ _ _ _) as [r|] eqn:Hr; [|done].
    simpl. intros [= <-].
    unfold process_monitoring_batch in Hr.
    case_bool_decide; [done|]. injection Hr as <-. simpl.
    by apply stamped_referential.
Qed.

Lemma run_referential script d :
  referential d → referential (run script d).
Proof.
  revert d. induction script as [|[now s] script IH]; intros d Hd; [done|].
  simpl. apply IH. unfold exec_or_rollback. simpl.
  destruct (exec now s d) as [d'|] eqn:He; simpl; [|done].
  by eapply exec_referential.
Qed.

Lemma empty_db_referential : referential empty_db.
Proof.
  split; [|split]; intros ? ? H; simpl in H; by rewrite lookup_empty in H.
Qed.

(** X1: after any script of statements, every row of the queue refers to a
    patient and to an admission that exist: the inserts of the trigger
    always find the rows their foreign keys name, and the cascades leave
    no row behind. *)
Theorem queue_rows_refer_to_stored_rows script k r :
  monitoring_queue (run script empty_db) !! k = Some r →
  k.1 ∈ patients (run script empty_db) ∧
  ∃ row : admission_row,
    admissions (run script empty_db) !! k.2 = Some row ∧
    admission_id row = k.2 ∧
    patient_id row ∈ patients (run script empty_db).
Proof.
  intros H.
  destruct (run_referential script empty_db empty_db_referential)
    as (Ha & _ & Hq).
  apply Hq in H as [Hp [row Hrow]]. split; [done|].
  exists row. split; [done|]. by apply Ha.
Qed.
End referential_integrity.

Section queue_rows.
Import Migration.

Lemma store_admission_overdue now (c : admission_cols) :
  gen_needs_attention now c = true →
  match gen_hours_since_test now c with
  | None => True
  | Some h => 48 ≤ h
  end.
Proof.
  intros H. apply gen_needs_attention_spec in H as [_ H].
  unfold gen_hours_since_test. destruct (last_test_date c) as [t|]; [|done].
  apply numeric_to_integer_ge; [lia|]. by apply epoch_hours_gt.
Qed.

Lemma write_admission_overdue now c d :
  overdue_rows (monitoring_queue d) →
  overdue_rows (monitoring_queue (write_admission now c d)).
Proof.
  intros Hq k r H. unfold write_admission in H. simpl in H.
  apply update_monitoring_queue_lookup in H as [H|(_ & Hna & Hh)].
  - by eapply Hq.
  - rewrite Hh. by apply store_admission_overdue.
Qed.

Lemma exec_overdue now s d d' :
  overdue_rows (monitoring_queue d) → exec now s d = Some d' →
  overdue_rows (monitoring_queue d').
Proof.
  intros Hd. destruct s; simpl.
  - unfold insert_patient. case_bool_decide; [done|]. by intros [= <-].
  - intros [= <-]. intros k r H. simpl in H.
    apply map_lookup_filter_Some in H as [H _]. by eapply Hd.
  - unfold insert_admission.
    destruct (admissions d !! admission_id c); [done|].
    case_bool_decide; [|done]. intros [= <-].
    by apply write_admission_overdue.
  - unfold update_admission.
    destruct (admissions d !! admission_id c); [|by intros [= <-]].
    case_bool_decide; [|done]. intros [= <-].
    by apply write_admission_overdue.
  - intros [= <-]. intros k r H. simpl in H.
    apply map_lookup_filter_Some in H as [H _]. by eapply Hd.
  - unfold insert_lab_test.
    destruct (lab_tests d !! test_id t); [done|].
    destruct (lab_test_fk_ok _ _); [|done]. intros [= <-].
    unfold update_admission_last_test. simpl.
    destruct (admissions d !! lt_admission_id t); [|done].
    destruct (advances _ _); [|done]. by apply write_admission_overdue.
  - unfold update_lab_test.
    destruct (lab_tests d !! test_id t); [|by intros [= <-]].
    destruct (lab_test_fk_ok _ _); [|done]. intros [= <-].
    unfold update_admission_last_test. simpl.
    destruct (admissions d !! lt_admission_id t); [|done].
    destruct (advances _ _); [|done]. by apply write_admission_overdue.
  - destruct (process_monitoring_batch _ _ _ _) as [r|] eqn:Hr; [|done].
    simpl. intros [= <-].
    unfold process_monitoring_batch in Hr.
    case_bool_decide as Hp; [done|]. injection Hr as <-. simpl.
    intros k r H. rewrite stamped_lookup in H.
    destruct (decide _); [|by eapply Hd].
    destruct (monitoring_queue d !! k) as [r0|] eqn:Hr0; [|done].
    injection H as <-. simpl. by apply (Hd k r0).
Qed.

Lemma run_overdue script d :
  overdue_rows (monitoring_queue d) →
  overdue_rows (monitoring_queue (run script d)).
Proof.
  revert d. induction script as [|[now s] script IH]; intros d Hd; [done|].
  simpl. apply IH. unfold exec_or_rollback. simpl.
  destruct (exec now s d) as [d'|] eqn:He; simpl; [|done].
  by eapply exec_overdue.
Qed.

(** X2: after any script of statements, a row of the queue has priority 1,
    or it has no [hours_since_test] and priority 3; priority 2 does not
    occur in the queue. *)
Theorem queue_priority_is_1_or_3 script k r :
  monitoring_queue (run script empty_db) !! k = Some r →
  (q_priority r = 1 ∧ ∃ h, q_hours_since_test r = Some h ∧ 48 ≤ h) ∨
  (q_priority r = 3 ∧ q_hours_since_test r = None).
Proof.
  intros H.
  assert (overdue_rows (monitoring_queue empty_db)) as H0.
  { intros k0 r0 Hk. simpl in Hk. by rewrite lookup_empty in Hk. }
  pose proof (run_overdue script empty_db H0 k r H) as Hh.
  unfold q_priority, priority.
  destruct (q_hours_since_test r) as [h|]; [|by right].
  left. rewrite bool_decide_eq_true_2 by done. eauto.
Qed.
End queue_rows.

Section test_insertion.
Import Migration.


(** X4: the insert of a test touches the admission it names and no other:
    the rows of the other admissions and their rows in the queue stay as
    they are. *)
Theorem insert_lab_test_frame script now t d' aid pid :
  insert_lab_test now t (run script empty_db) = Some d' →
  aid ≠ lt_admission_id t →
  admissions d' !! aid = admissions (run script empty_db) !! aid ∧
  monitoring_queue d' !! (pid, aid)
  = monitoring_queue (run script empty_db) !! (pid, aid).
Proof.
  pose proof (run_consistent script empty_db empty_db_consistent) as Hc.
  generalize dependent (run script empty_db). intros d Hc.
  unfold insert_lab_test.
  destruct (lab_tests d !! test_id t); [done|].
  destruct (lab_test_fk_ok _ _); [|done]. intros [= <-] Hne.
  unfold update_admission_last_test. simpl.
  destruct (admissions d !! lt_admission_id t) as [row|] eqn:Hrow; [|done].
  destruct (advances _ _); [|done].
  destruct (Hc _ _ Hrow) as (Hid & _).
  unfold write_admission. simpl. rewrite Hid.
  rewrite lookup_insert_ne by done. split; [done|].
  rewrite update_monitoring_queue_other; [done|].
  simpl. intros [= _ ?]. congruence.
Qed.
End test_insertion.

Section table_witnesses.
Import Migration.

Lemma queue_rows_refer_to_stored_rows_witness :
  let d := run arrival_script empty_db in
  monitoring_queue d !! ("P123", "A456")
  = Some {| q_hours_since_test := None; last_checked := 50 * hour |} ∧
  "P123" ∈ patients d ∧
  ∃ row : admission_row,
    admissions d !! "A456" = Some row ∧
    admission_id row = "A456" ∧ patient_id row ∈ patients d.
Proof.
  intros d.
  assert (monitoring_queue d !! ("P123", "A456")
          = Some {| q_hours_since_test := None; last_checked := 50 * hour |})
    as H by (vm_compute; reflexivity).
  split; [exact H|].
  exact (queue_rows_refer_to_stored_rows arrival_script ("P123", "A456") _ H).
Defined.

Lemma queue_priority_is_1_or_3_witness :
  let r := {| q_hours_since_test := Some 50; last_checked := 50 * hour |} in
  monitoring_queue (run two_stays_script empty_db) !! ("P123", "A789") = Some r ∧
  ((q_priority r = 1 ∧ ∃ h, q_hours_since_test r = Some h ∧ 48 ≤ h) ∨
   (q_priority r = 3 ∧ q_hours_since_test r = None)).
Proof.
  intros r.
  assert (monitoring_queue (run two_stays_script empty_db) !! ("P123", "A789")
          = Some r) as H by (vm_compute; reflexivity).
  split; [exact H|].
  exact (queue_priority_is_1_or_3 two_stays_script ("P123", "A789") r H).
Defined.


(** The test of the first stay leaves the second stay in the queue. *)
Lemma insert_lab_test_frame_witness :
  let t := lab_test "T1" (30 * hour) in
  let d := run two_stays_script empty_db in
  let d' := default d (insert_lab_test (51 * hour) t d) in
  monitoring_queue d' !! ("P123", "A456") = None ∧
  admissions d' !! "A789" = admissions d !! "A789" ∧
  monitoring_queue d' !! ("P123", "A789") = monitoring_queue d !! ("P123", "A789").
Proof.
  intros t d d'. split; [vm_compute; reflexivity|].
  apply (insert_lab_test_frame two_stays_script (51 * hour) t d' "A789" "P123").
  - vm_compute. reflexivity.
  - discriminate.
Defined.
End table_witnesses.

(** * Further properties of the models *)
Section dates.
Import Py Models.

Variable fromisoformat : string → option datetime.
Variable now : Z.

(** X5: a non-empty date that [validate_iso_date] accepts never makes
    [calculate_hours_since] raise [ValueError]: the hours are computed when
    the date is naive, and the subtraction raises [TypeError] when it is
    aware (as a date with a [Z] becomes by its replacement). *)
Theorem validated_date_hours s :
  s ≠ "" →
  validate_iso_date fromisoformat (PyStr s) = Ok true →
  ∃ d, fromisoformat (replace_char "Z" "+00:00" s) = Some d ∧
       calculate_hours_since fromisoformat now (PyStr s)
       = match dt_utcoffset d with
         | None => Ok (Finite (hours_of_usec (now - dt_usec d)))
         | Some _ => Raise TypeError
         end.
Proof.
  intros Hs. unfold validate_iso_date, calculate_hours_since. simpl.
  rewrite bool_decide_eq_false_2 by done. simpl.
  destruct (fromisoformat (replace_char "Z" "+00:00" s)) as [d|]; [|done].
  intros _. exists d. split; [done|]. simpl.
  unfold since. by destruct (dt_utcoffset d).
Qed.

(** X6: [calculate_hours_since] raises [ValueError] exactly on a non-empty
    string that [validate_iso_date] answers [False] for. *)
Theorem calculate_hours_since_raises_ValueError s :
  calculate_hours_since fromisoformat now (PyStr s) = Raise ValueError
  ↔ s ≠ "" ∧ validate_iso_date fromisoformat (PyStr s) = Ok false.
Proof.
  unfold validate_iso_date, calculate_hours_since. simpl.
  case_bool_decide as Hs; simpl.
  - split; [done|]. by intros [? _].
  - destruct (fromisoformat (replace_char "Z" "+00:00" s)) as [d|]; simpl.
    + unfold since. destruct (dt_utcoffset d); simpl; split; try done;
        by intros [_ ?].
    + done.
Qed.

(** X7: for an active admission whose [last_test_date] is missing or a
    string without [Z], the property [needs_attention] is the helper
    [calculate_hours_since] compared with 48, a missing date counting as
    infinitely long ago; both raise the same exceptions. *)
Theorem needs_attention_is_hours_at_least_48 (self : Admission) :
  a_status self = PyStr "Active" →
  match a_last_test_date self with
  | PyNone => True
  | PyStr s => replace_char "Z" "+00:00" s = s
  | PyInt _ => False
  end →
  needs_attention fromisoformat now self
  = at_least_48 <$> calculate_hours_since fromisoformat now (a_last_test_date self).
Proof.
  intros Hst Hd. unfold needs_attention, calculate_hours_since.
  rewrite bool_decide_eq_false_2 by (rewrite Hst; naive_solver).
  destruct (a_last_test_date self) as [|s|n]; [done| |done].
  destruct (truthy (PyStr s)); [|done]. simpl. rewrite Hd.
  destruct (fromisoformat s) as [d|]; [|done]. simpl.
  unfold since. by destruct (dt_utcoffset d).
Qed.
End dates.

Section items.
Import Py Models.

Lemma dict_get_elem_of (d : dict) k v : dict_get d k = Some v → (k, v) ∈ d.
Proof.
  induction d as [|[k' v'] d IH]; simpl; [done|].
  case_bool_decide as Hk.
  - intros [= ->]. subst. by left.
  - intros H. right. by apply IH.
Qed.

Lemma filter_keys_dict_set k v (item : dict) :
  k ∈ ["PK"; "SK"] →
  filter (λ kv : string * pyval, kv.1 ∉ ["PK"; "SK"]) (dict_set k v item)
  = filter (λ kv : string * pyval, kv.1 ∉ ["PK"; "SK"]) item.
Proof.
  unfold dict in *. intros Hk. induction item as [|[k' v'] item IH]; cbn [dict_set].
  - rewrite filter_cons, decide_False; [done|]. simpl. by intros H.
  - case_bool_decide as Hk'.
    + subst k'. rewrite !filter_cons.
      rewrite !decide_False; [done| |]; simpl; by intros H.
    + rewrite !filter_cons. cbn [fst]. destruct (decide _); by rewrite IH.
Qed.

Lemma dict_get_filter_keys (item : dict) k :
  k ∉ ["PK"; "SK"] →
  dict_get (filter (λ kv : string * pyval, kv.1 ∉ ["PK"; "SK"]) item) k
  = dict_get item k.
Proof.
  unfold dict in *. intros Hk. induction item as [|[k' v'] item IH]; [done|].
  rewrite filter_cons. cbn [fst dict_get].
  destruct (decide (k' ∉ ["PK"; "SK"])) as [Hin|Hin].
  - cbn [dict_get]. by rewrite IH.
  - rewrite IH. rewrite bool_decide_eq_false_2; [done|]. by intros ->.
Qed.

(** X8: [from_item] does not read the keys an item was stored under: an
    item with another [PK] or [SK] gives the same instance (or the same
    exception), for every model class. *)
Theorem from_item_ignores_stored_keys {T} (cls : DynamoDBModel T) item k v :
  k ∈ ["PK"; "SK"] →
  from_item cls (dict_set k v item) = from_item cls item.
Proof. intros Hk. unfold from_item. by rewrite filter_keys_dict_set. Qed.

Lemma check_keywords_unknown fields (kwargs : dict) k v :
  (k, v) ∈ kwargs → k ∉ fields → check_keywords fields kwargs = Raise TypeError.
Proof.
  intros Hin Hk. unfold check_keywords.
  rewrite bool_decide_eq_false_2; [done|].
  rewrite Forall_forall. intros H. by apply H in Hin.
Qed.

Variable import_time : string.

(** X9: an item with an attribute that is neither a key nor a field of the
    class makes [from_item] raise [TypeError], for the three models. *)
Theorem from_item_unknown_attribute item k v :
  dict_get item k = Some v → k ∉ ["PK"; "SK"] →
  (k ∉ ["patient_id"; "first_name"; "last_name"; "date_of_birth"; "gender";
        "updated_at"] →
   from_item (Patient_cls import_time) item = Raise TypeError) ∧
  (k ∉ ["patient_id"; "admission_id"; "admission_date"; "ward"; "bed_number";
        "status"; "last_test_date"; "hours_since_test"; "updated_at"] →
   from_item (Admission_cls import_time) item = Raise TypeError) ∧
  (k ∉ ["test_id"; "patient_id"; "admission_id"; "test_type"; "test_date";
        "result"; "status"; "lab_location"; "updated_at"] →
   from_item (LabTest_cls import_time) item = Raise TypeError).
Proof.
  intros Hget Hk.
  assert ((k, v) ∈ filter (λ kv : string * pyval, kv.1 ∉ ["PK"; "SK"]) item) as Hin.
  { apply list_elem_of_filter. split; [done|]. by apply dict_get_elem_of. }
  repeat split; intros Hf; unfold from_item; simpl;
    [unfold Patient_init|unfold Admission_init|unfold LabTest_init];
    by rewrite (check_keywords_unknown _ _ k v Hin Hf).
Qed.

(** The keyword binding stops at the first field it does not find. *)
Ltac missing_field Hget Hf :=
  unfold from_item; simpl;
  unfold Patient_init, Admission_init, LabTest_init, check_keywords;
  (case_bool_decide; [|done]); simpl; unfold required, optional;
  rewrite !dict_get_filter_keys by (by apply (bool_decide_unpack _));
  repeat (apply elem_of_cons in Hf as [->|Hf];
          [rewrite Hget; by repeat (destruct (dict_get _ _); simpl; try done)|]);
  by apply elem_of_nil in Hf.

(** X10: an item that lacks a field without default makes [from_item] raise
    [TypeError], for the three models. *)
Theorem from_item_missing_field item f :
  dict_get item f = None →
  (f ∈ ["patient_id"; "first_name"; "last_name"; "date_of_birth"; "gender"] →
   from_item (Patient_cls import_time) item = Raise TypeError) ∧
  (f ∈ ["patient_id"; "admission_id"; "admission_date"; "ward"; "bed_number";
        "status"] →
   from_item (Admission_cls import_time) item = Raise TypeError) ∧
  (f ∈ ["test_id"; "patient_id"; "admission_id"; "test_type"; "test_date";
        "result"; "status"; "lab_location"] →
   from_item (LabTest_cls import_time) item = Raise TypeError).
Proof.
  intros Hget. split; [|split]; intros Hf.
  - missing_field Hget Hf.
  - missing_field Hget Hf.
  - missing_field Hget Hf.
Qed.
Lemma check_keywords_Ok fields (kwargs : dict) k v :
  check_keywords fields kwargs = Ok () → dict_get kwargs k = Some v → k ∈ fields.
Proof.
  unfold check_keywords. case_bool_decide as Hall; [|done]. intros _ Hget.
  rewrite Forall_forall in Hall. by apply dict_get_elem_of, Hall in Hget.
Qed.

Lemma bind_Ok {A B} (m : result A) (f : A → result B) y :
  m ≫= f = Ok y → ∃ x, m = Ok x ∧ f x = Ok y.
Proof. destruct m as [x|]; [|done]. intros. by exists x. Qed.

Lemma required_Ok kwargs name v :
  required kwargs name = Ok v → dict_get kwargs name = Some v.
Proof. unfold required. destruct (dict_get _ _); [|done]. by intros [= ->]. Qed.

Ltac bound Hfrom :=
  repeat (apply bind_Ok in Hfrom as (? & ?%required_Ok & Hfrom));
  repeat (apply bind_Ok in Hfrom as (? & [= <-] & Hfrom));
  injection Hfrom as <-.

Ltac attribute Hfrom Hget :=
  apply bind_Ok in Hfrom as ([] & Hkw & Hfrom);
  pose proof (check_keywords_Ok _ _ _ _ Hkw Hget) as Hin;
  bound Hfrom;
  repeat (apply elem_of_cons in Hin as [->|Hin];
          [simpl; first [congruence | by rewrite Hget]|]);
  by apply elem_of_nil in Hin.

(** What [__init__] was given is what the instance holds. *)
Lemma init_Ok kwargs k v :
  dict_get kwargs k = Some v →
  (∀ x, Patient_init import_time kwargs = Ok x →
        dict_get (instance_dict (Patient_cls import_time) x) k = Some v) ∧
  (∀ x, Admission_init import_time kwargs = Ok x →
        dict_get (instance_dict (Admission_cls import_time) x) k = Some v) ∧
  (∀ x, LabTest_init import_time kwargs = Ok x →
        dict_get (instance_dict (LabTest_cls import_time) x) k = Some v).
Proof.
  intros Hget. split; [|split]; intros x Hfrom.
  - attribute Hfrom Hget.
  - attribute Hfrom Hget.
  - attribute Hfrom Hget.
Qed.

(** [to_item] adds the two keys and keeps the attributes. *)
Lemma to_item_attributes k :
  k ∉ ["PK"; "SK"] →
  (∀ x, dict_get (to_item (Patient_cls import_time) x) k
        = dict_get (instance_dict (Patient_cls import_time) x) k) ∧
  (∀ x, dict_get (to_item (Admission_cls import_time) x) k
        = dict_get (instance_dict (Admission_cls import_time) x) k) ∧
  (∀ x, dict_get (to_item (LabTest_cls import_time) x) k
        = dict_get (instance_dict (LabTest_cls import_time) x) k).
Proof.
  intros Hk.
  assert (∀ pk sk d, dict_get (("PK", pk) :: ("SK", sk) :: d) k = dict_get d k) as Hd.
  { intros. cbn [dict_get]. rewrite !bool_decide_eq_false_2; [done| |];
      intros <-; apply Hk; repeat constructor. }
  split; [|split]; intros x.
  - exact (Hd _ _ _).
  - exact (Hd _ _ _).
  - exact (Hd _ _ _).
Qed.

(** X11: an instance built by [from_item] gives back, by [to_item], every
    attribute of the item other than its keys. *)
Theorem to_item_from_item_attributes item k v :
  dict_get item k = Some v → k ∉ ["PK"; "SK"] →
  (∀ x, from_item (Patient_cls import_time) item = Ok x →
        dict_get (to_item (Patient_cls import_time) x) k = Some v) ∧
  (∀ x, from_item (Admission_cls import_time) item = Ok x →
        dict_get (to_item (Admission_cls import_time) x) k = Some v) ∧
  (∀ x, from_item (LabTest_cls import_time) item = Ok x →
        dict_get (to_item (LabTest_cls import_time) x) k = Some v).
Proof.
  intros Hget Hk. rewrite <-(dict_get_filter_keys _ _ Hk) in Hget.
  destruct (to_item_attributes k Hk) as (Hp & Ha & Ht).
  destruct (init_Ok _ _ _ Hget) as (Hp' & Ha' & Ht').
  split; [|split]; intros x Hfrom.
  - rewrite Hp. by apply Hp'.
  - rewrite Ha. by apply Ha'.
  - rewrite Ht. by apply Ht'.
Qed.
End items.

Section model_witnesses.
Import Py Models.

Lemma validated_date_hours_witness :
  validate_iso_date epoch_only (PyStr "1970-01-01T00:00:00") = Ok true ∧
  ∃ d, epoch_only (replace_char "Z" "+00:00" "1970-01-01T00:00:00") = Some d ∧
       calculate_hours_since epoch_only (48 * 3600000000)
         (PyStr "1970-01-01T00:00:00")
       = match dt_utcoffset d with
         | None => Ok (Finite (hours_of_usec (48 * 3600000000 - dt_usec d)))
         | Some _ => Raise TypeError
         end.
Proof.
  assert (validate_iso_date epoch_only (PyStr "1970-01-01T00:00:00") = Ok true)
    as H by (vm_compute; reflexivity).
  split; [exact H|].
  apply (validated_date_hours epoch_only (48 * 3600000000)
           "1970-01-01T00:00:00"); [discriminate|exact H].
Defined.

Lemma needs_attention_is_hours_at_least_48_witness :
  needs_attention epoch_only (48 * 3600000000) py_tested_at_0 = Ok true ∧
  needs_attention epoch_only (48 * 3600000000) py_tested_at_0
  = at_least_48 <$> calculate_hours_since epoch_only (48 * 3600000000)
                      (a_last_test_date py_tested_at_0).
Proof.
  split; [vm_compute; reflexivity|].
  apply (needs_attention_is_hours_at_least_48 epoch_only (48 * 3600000000)
           py_tested_at_0).
  - reflexivity.
  - vm_compute. reflexivity.
Defined.

Lemma from_item_ignores_stored_keys_witness :
  from_item (Patient_cls loaded_at) (dict_set "PK" (PyStr "PATIENT#P999") patient_item)
  = from_item (Patient_cls loaded_at) patient_item.
Proof.
  apply (from_item_ignores_stored_keys (Patient_cls loaded_at) patient_item "PK").
  vm_compute. constructor.
Defined.

Lemma from_item_unknown_attribute_witness :
  dict_get patient_item_with_ttl "ttl" = Some (PyInt 86400) ∧
  from_item (Patient_cls loaded_at) patient_item_with_ttl = Raise TypeError.
Proof.
  assert (dict_get patient_item_with_ttl "ttl" = Some (PyInt 86400)) as H
    by (vm_compute; reflexivity).
  split; [exact H|].
  apply (from_item_unknown_attribute loaded_at patient_item_with_ttl "ttl" _ H).
  - by apply (bool_decide_unpack _).
  - by apply (bool_decide_unpack _).
Defined.

Lemma from_item_missing_field_witness :
  dict_get patient_item "admission_id" = None ∧
  from_item (Admission_cls loaded_at) patient_item = Raise TypeError.
Proof.
  assert (dict_get patient_item "admission_id" = None) as H
    by (vm_compute; reflexivity).
  split; [exact H|].
  apply (from_item_missing_field loaded_at patient_item "admission_id" H).
  by apply (bool_decide_unpack _).
Defined.

Lemma to_item_from_item_attributes_witness :
  let x := {| p_patient_id := PyStr "P123"; p_first_name := PyStr "John";
              p_last_name := PyStr "Doe"; p_date_of_birth := PyStr "1980-01-01";
              p_gender := PyStr "M";
              p_updated_at := PyStr "2024-01-01T00:00:00" |} in
  from_item (Patient_cls loaded_at) patient_item = Ok x ∧
  dict_get (to_item (Patient_cls loaded_at) x) "first_name" = Some (PyStr "John").
Proof.
  intros x.
  assert (from_item (Patient_cls loaded_at) patient_item = Ok x) as H
    by (vm_compute; reflexivity).
  split; [exact H|].
  apply (to_item_from_item_attributes loaded_at patient_item "first_name"); [| |exact H].
  - vm_compute. reflexivity.
  - by apply (bool_decide_unpack _).
Defined.
End model_witnesses.

(** * Further properties of the broadcasts *)
Section broadcast_pruning.
Import Py Websocket.

Variable WebSocketMessage : Type.
Variable to_json : WebSocketMessage → string.

Lemma filter_all {A} (P : A → Prop) `{!∀ x, Decision (P x)} (l : list A) :
  (∀ x, x ∈ l → P x) → filter P l = l.
Proof.
  induction l as [|x l IH]; intros Hl; [done|].
  rewrite filter_cons, decide_True, IH; [done| |].
  - intros y Hy. apply Hl. by right.
  - apply Hl. by left.
Qed.

Lemma filter_ext_elem_of {A} (P Q : A → Prop) `{!∀ x, Decision (P x)}
    `{!∀ x, Decision (Q x)} (l : list A) :
  (∀ x, x ∈ l → P x ↔ Q x) → filter P l = filter Q l.
Proof.
  induction l as [|x l IH]; intros Hl; [done|].
  rewrite !filter_cons, IH by (intros y Hy; apply Hl; by right).
  pose proof (Hl x (list_elem_of_here _ _)) as Hx.
  destruct (decide (P x)), (decide (Q x)); tauto.
Qed.

(** What one [send_message] does to the world, by the outcome of its post
    and of the removal. *)
Lemma send_message_cases g c message w :
  let data := to_json message in
  let w1 := {| connections_table := connections_table w;
               attempted := attempted w ++ [(c, data)] |} in
  (is_gone g data c = false ∧
   ∃ success, send_message WebSocketMessage to_json g c message w = (Ok success, w1)) ∨
  (is_gone g data c = true ∧ delete_item_error g c = None ∧
   send_message WebSocketMessage to_json g c message w
   = (Ok false, {| connections_table := filter (λ x, x ≠ c) (connections_table w);
                   attempted := attempted w ++ [(c, data)] |})) ∨
  (is_gone g data c = true ∧ ∃ e, delete_item_error g c = Some e ∧
   send_message WebSocketMessage to_json g c message w = (Raise e, w1)).
Proof.
  intros data w1. unfold send_message, is_gone, remove_connection.
  fold data. fold w1.
  destruct (post_to_connection g c data); simpl.
  - left. eauto.
  - right. destruct (delete_item_error g c) as [e|]; [right|left]; eauto.
  - left. eauto.
Qed.

Lemma targets_cons excl c cs :
  targets excl (c :: cs)
  = if is_excluded excl c then targets excl cs else c :: targets excl cs.
Proof.
  unfold targets. rewrite filter_cons.
  destruct (is_excluded excl c); [by rewrite decide_False|by rewrite decide_True].
Qed.

Lemma broadcast_loop_prunes g message excl cs : ∀ st w st' w',
  broadcast_loop WebSocketMessage to_json g message excl cs st w = (Ok st', w') →
  connections_table w'
  = filter (λ c, c ∉ filter (λ c, is_gone g (to_json message) c = true)
                       (targets excl cs))
      (connections_table w).
Proof.
  induction cs as [|c cs IH]; intros st w st' w'; cbn [Websocket.broadcast_loop].
  - intros [= _ <-]. symmetry. apply filter_all. intros x _. by intros ?%elem_of_nil.
  - rewrite targets_cons. destruct (is_excluded excl c); [apply IH|].
    rewrite filter_cons.
    destruct (send_message_cases g c message w)
      as [(Hg & s & ->)|[(Hg & _ & ->)|(Hg & e & _ & ->)]]; [| |done].
    + rewrite decide_False by (by rewrite Hg). intros H. by apply IH in H.
    + rewrite decide_True by done. intros H. apply IH in H. rewrite H. simpl.
      rewrite list_filter_filter. apply list_filter_iff. intros x.
      rewrite not_elem_of_cons. tauto.
Qed.

(** X12: when [broadcast_message] returns its statistics, the connections
    table has lost exactly the connections that were posted to and found
    gone; an excluded connection stays, gone or not. *)
Theorem broadcast_message_prunes_gone g message exclude_connections w st w' :
  broadcast_message WebSocketMessage to_json g message exclude_connections w = (Ok st, w') →
  connections_table w'
  = filter (λ c, ¬ (is_excluded exclude_connections c = false ∧
                    is_gone g (to_json message) c = true))
      (connections_table w).
Proof.
  unfold Websocket.broadcast_message, scan.
  destruct (scan_error g); [done|]. intros H.
  apply broadcast_loop_prunes in H. rewrite H.
  apply filter_ext_elem_of. intros c Hc.
  unfold targets. rewrite !list_elem_of_filter. tauto.
Qed.

Lemma broadcast_loop_returns g message excl cs : ∀ st w,
  (∃ st' w', broadcast_loop WebSocketMessage to_json g message excl cs st w = (Ok st', w'))
  ↔ ∀ c, c ∈ targets excl cs → is_gone g (to_json message) c = true →
         delete_item_error g c = None.
Proof.
  induction cs as [|c cs IH]; intros st w; cbn [Websocket.broadcast_loop].
  - split; [|by eauto]. intros _ c Hc. unfold targets in Hc. set_solver.
  - rewrite targets_cons. destruct (is_excluded excl c); [apply IH|].
    destruct (send_message_cases g c message w)
      as [(Hg & s & ->)|[(Hg & Hd & ->)|(Hg & e & Hd & ->)]].
    + rewrite IH. split.
      * intros H x [->|Hx]%elem_of_cons; [by rewrite Hg|by apply H].
      * intros H x Hx. apply H. by right.
    + rewrite IH. split.
      * intros H x [->|Hx]%elem_of_cons; [done|by apply H].
      * intros H x Hx. apply H. by right.
    + split; [by intros (? & ? & ?)|]. intros H.
      specialize (H c (list_elem_of_here _ _) Hg). congruence.
Qed.

(** X13: [broadcast_message] returns its statistics exactly when the scan
    succeeds and every connection it posts to and finds gone can be
    removed; otherwise it raises. *)
Theorem broadcast_message_returns_iff g message exclude_connections w :
  (∃ st w', broadcast_message WebSocketMessage to_json g message exclude_connections w = (Ok st, w'))
  ↔ scan_error g = None ∧
    ∀ c, c ∈ targets exclude_connections (connections_table w) →
         is_gone g (to_json message) c = true → delete_item_error g c = None.
Proof.
  unfold Websocket.broadcast_message, scan.
  destruct (scan_error g) as [e|].
  - split; [by intros (? & ? & ?)|by intros [? _]].
  - rewrite broadcast_loop_returns. tauto.
Qed.

Lemma broadcast_loop_raises g message excl cs : ∀ st w e w',
  broadcast_loop WebSocketMessage to_json g message excl cs st w = (Raise e, w') →
  ∃ before c after,
    targets excl cs = before ++ c :: after ∧
    is_gone g (to_json message) c = true ∧
    delete_item_error g c = Some e ∧
    connections_table w'
    = filter (λ c, c ∉ filter (λ c, is_gone g (to_json message) c = true) before)
        (connections_table w) ∧
    attempted w' = attempted w ++ posts (to_json message) (before ++ [c]).
Proof.
  induction cs as [|c cs IH]; intros st w e w'; cbn [Websocket.broadcast_loop]; [done|].
  rewrite targets_cons. destruct (is_excluded excl c); [apply IH|].
  destruct (send_message_cases g c message w)
    as [(Hg & s & ->)|[(Hg & Hd & ->)|(Hg & e' & Hd & ->)]].
  - intros (before & x & after & -> & Hx & Hdx & Ht & Ha)%IH.
    exists (c :: before), x, after. repeat split; try done.
    + rewrite Ht. simpl. rewrite filter_cons, decide_False by (by rewrite Hg).
      done.
    + rewrite Ha. cbn [attempted]. by rewrite <-app_assoc.
  - intros (before & x & after & -> & Hx & Hdx & Ht & Ha)%IH.
    exists (c :: before), x, after. repeat split; try done.
    + rewrite Ht. simpl. rewrite filter_cons, decide_True by done.
      rewrite list_filter_filter. apply list_filter_iff. intros y.
      rewrite not_elem_of_cons. tauto.
    + rewrite Ha. cbn [attempted]. by rewrite <-app_assoc.
  - intros [= <- <-]. exists [], c, (targets excl cs). repeat split; try done.
    simpl. symmetry. apply filter_all. intros y _. by intros ?%elem_of_nil.
Qed.

(** X14: when the scan succeeds and [broadcast_message] raises, it has
    stopped at a connection found gone whose removal failed with the
    exception raised: the connections before it were posted to, the
    connections after it were not, and no statistics are returned. *)
Theorem broadcast_message_stops_at_failed_removal
    g message exclude_connections w e w' :
  scan_error g = None →
  broadcast_message WebSocketMessage to_json g message exclude_connections w = (Raise e, w') →
  ∃ before c after,
    targets exclude_connections (connections_table w) = before ++ c :: after ∧
    is_gone g (to_json message) c = true ∧
    delete_item_error g c = Some e ∧
    attempted w' = attempted w ++ posts (to_json message) (before ++ [c]).
Proof.
  unfold Websocket.broadcast_message, scan. intros ->.
  intros (before & c & after & ? & ? & ? & _ & ?)%broadcast_loop_raises.
  by exists before, c, after.
Qed.
Lemma broadcast_loop_returned_attempts g message excl cs : ∀ st w st' w',
  broadcast_loop WebSocketMessage to_json g message excl cs st w = (Ok st', w') →
  attempted w' = attempted w ++ posts (to_json message) (targets excl cs).
Proof.
  induction cs as [|c cs IH]; intros st w st' w'; cbn [Websocket.broadcast_loop].
  - intros [= _ <-]. by rewrite app_nil_r.
  - rewrite targets_cons. destruct (is_excluded excl c); [apply IH|].
    destruct (send_message_cases g c message w)
      as [(_ & s & ->)|[(_ & _ & ->)|(_ & e & _ & ->)]]; [| |done];
      intros Hloop; apply IH in Hloop; rewrite Hloop; cbn [attempted];
      by rewrite <-app_assoc.
Qed.

(** X15: a connection that [remove_connection] has removed gets no post
    from a later broadcast, whatever that broadcast returns or raises,
    and is not in the table after it. *)
Theorem removed_connection_is_not_posted_to
    g c w w1 g' message exclude_connections r w2 :
  remove_connection g c w = (Ok (), w1) →
  broadcast_message WebSocketMessage to_json g' message exclude_connections w1
  = (r, w2) →
  ∃ cs, attempted w2 = attempted w1 ++ posts (to_json message) cs ∧
        (c ∉ cs) ∧ c ∉ connections_table w2.
Proof.
  unfold remove_connection. destruct (delete_item_error g c); [done|].
  intros [= <-]. unfold Websocket.broadcast_message, scan.
  destruct (scan_error g').
  { intros [= _ <-]. exists []. rewrite app_nil_r. cbn [connections_table].
    split; [done|]. split; [by intros ?%elem_of_nil|].
    rewrite list_elem_of_filter. tauto. }
  cbn [connections_table]. destruct r as [st|e]; intros Hloop.
  - exists (targets exclude_connections (filter (λ x, x ≠ c) (connections_table w))).
    split; [by apply broadcast_loop_returned_attempts in Hloop|].
    apply broadcast_loop_prunes in Hloop. rewrite Hloop. cbn [connections_table].
    unfold targets. rewrite !list_elem_of_filter. tauto.
  - apply broadcast_loop_raises in Hloop
      as (before & x & after & Htargets & _ & _ & Htable & Hposts).
    exists (before ++ [x]). split; [done|]. rewrite Htable. cbn [connections_table].
    rewrite !list_elem_of_filter. split; [|tauto].
    intros Hin. assert (c ∈ before ++ x :: after) as Hc.
    { rewrite elem_of_app, elem_of_cons. 
      apply elem_of_app in Hin as [?|Hx]; [tauto|].
      apply list_elem_of_singleton in Hx. tauto. }
    rewrite <-Htargets in Hc. unfold targets in Hc.
    rewrite !list_elem_of_filter in Hc. tauto.
Qed.
End broadcast_pruning.

(** * Further properties of the sweep *)
Section sweep_pruning.
Import Py Models Websocket MonitorHandler.

Variable dumps : alert → string.

Lemma post_alert_prunes g data w c :
  connections_table (post_alert g data w c)
  = if is_gone g data c && bool_decide (delete_item_error g c = None)
    then filter (λ x, x ≠ c) (connections_table w)
    else connections_table w.
Proof.
  unfold post_alert, is_gone, remove_connection.
  destruct (post_to_connection g c data); simpl; try done.
  by destruct (delete_item_error g c).
Qed.

Lemma post_alerts_prune g data cs : ∀ w,
  connections_table (foldl (post_alert g data) w cs)
  = filter (λ c, c ∉ filter (λ c, is_gone g data c = true ∧
                                  delete_item_error g c = None) cs)
      (connections_table w).
Proof.
  induction cs as [|c cs IH]; intros w; simpl.
  - symmetry. apply filter_all. intros x _. by intros ?%elem_of_nil.
  - rewrite IH, post_alert_prunes, filter_cons.
    destruct (is_gone g data c) eqn:Hg; cbn [andb];
      [case_bool_decide as Hd|].
    + rewrite decide_True by done. rewrite list_filter_filter.
      apply list_filter_iff. intros x. rewrite not_elem_of_cons. tauto.
    + rewrite decide_False by tauto. done.
    + rewrite decide_False; [done|]. by intros [? _].
Qed.


(** X17: when the scan of the connections fails, the sweep posts nothing
    and still answers 200 with [patientsAlerted] the number of patients the
    query returned. *)
Theorem handle_swallows_scan_failure g e admissions timestamp w :
  scan_error g = Some e → admissions ≠ [] →
  handle dumps g (Ok admissions) timestamp w
  = ({| statusCode := 200;
        response_body := MonitoringComplete (length admissions) timestamp |}, w).
Proof.
  intros Hscan Hne. unfold handle, get_patients_needing_attention.
  destruct admissions as [|a admissions]; [done|].
  rewrite fmap_cons. rewrite <-fmap_cons. rewrite length_fmap. f_equal.
  generalize (transform <$> a :: admissions). intros patients.
  induction patients as [|p ps IH]; [done|]. simpl.
  unfold MonitorHandler.broadcast_message at 2.
  unfold get_connections, scan. rewrite Hscan. simpl. apply IH.
Qed.

End sweep_pruning.

Section two_broadcasts.
Import Py Models Websocket MonitorHandler.

Variable dumps : alert → string.

Lemma broadcast_loop_is_foldl g message cs : ∀ st w,
  (∀ c, delete_item_error g c = None) →
  (broadcast_loop alert dumps g message None cs st w).2
  = foldl (post_alert g (dumps message)) w cs.
Proof.
  induction cs as [|c cs IH]; intros st w Hdel; [done|].
  cbn [Websocket.broadcast_loop is_excluded foldl].
  unfold send_message, post_alert, remove_connection. rewrite Hdel.
  destruct (post_to_connection g c (dumps message)); simpl; by rewrite IH.
Qed.

End two_broadcasts.

Section broadcast_witnesses.
Import Py Models Websocket MonitorHandler.

Lemma broadcast_message_prunes_gone_witness :
  let st := {| total := 3; sent := 2; failed := 1; excluded := 0 |} in
  let w' := {| connections_table := ["conn2"; "conn3"];
               attempted := [("conn1", "hello"); ("conn2", "hello");
                             ("conn3", "hello")] |} in
  Websocket.broadcast_message string verbatim gone_conn1 "hello" None
    three_observers = (Ok st, w') ∧
  connections_table w'
  = filter (λ c, ¬ (is_excluded None c = false ∧
                    is_gone gone_conn1 (verbatim "hello") c = true))
      (connections_table three_observers).
Proof.
  intros st w'.
  assert (Websocket.broadcast_message string verbatim gone_conn1 "hello" None
            three_observers = (Ok st, w')) as H by (vm_compute; reflexivity).
  split; [exact H|].
  exact (broadcast_message_prunes_gone string verbatim gone_conn1 "hello" None
           three_observers st w' H).
Defined.

Lemma broadcast_message_stops_at_failed_removal_witness :
  let e := OtherException "DB Error" in
  let w' := {| connections_table := ["conn1"; "conn2"; "conn3"];
               attempted := [("conn1", "hello")] |} in
  Websocket.broadcast_message string verbatim gone_and_stuck "hello" None
    three_observers = (Raise e, w') ∧
  ∃ before c after,
    targets None (connections_table three_observers) = before ++ c :: after ∧
    is_gone gone_and_stuck (verbatim "hello") c = true ∧
    delete_item_error gone_and_stuck c = Some e ∧
    attempted w'
    = attempted three_observers ++ posts (verbatim "hello") (before ++ [c]).
Proof.
  intros e w'.
  assert (Websocket.broadcast_message string verbatim gone_and_stuck "hello" None
            three_observers = (Raise e, w')) as H by (vm_compute; reflexivity).
  split; [exact H|].
  exact (broadcast_message_stops_at_failed_removal string verbatim gone_and_stuck
           "hello" None three_observers e w' eq_refl H).
Defined.

Lemma removed_connection_is_not_posted_to_witness :
  let w1 := {| connections_table := ["conn1"; "conn3"]; attempted := [] |} in
  let w2 := {| connections_table := ["conn1"; "conn3"];
               attempted := [("conn1", "hello"); ("conn3", "hello")] |} in
  let st := {| total := 2; sent := 2; failed := 0; excluded := 0 |} in
  remove_connection reliable "conn2" three_observers = (Ok (), w1) ∧
  Websocket.broadcast_message string verbatim reliable "hello" None w1
  = (Ok st, w2) ∧
  ∃ cs, attempted w2 = attempted w1 ++ posts (verbatim "hello") cs ∧
        ("conn2" ∉ cs) ∧ "conn2" ∉ connections_table w2.
Proof.
  intros w1 w2 st.
  assert (remove_connection reliable "conn2" three_observers = (Ok (), w1))
    as H1 by (vm_compute; reflexivity).
  assert (Websocket.broadcast_message string verbatim reliable "hello" None w1
          = (Ok st, w2)) as H2 by (vm_compute; reflexivity).
  split; [exact H1|]. split; [exact H2|].
  exact (removed_connection_is_not_posted_to string verbatim reliable "conn2"
           three_observers w1 reliable "hello" None (Ok st) w2 H1 H2).
Defined.


Lemma handle_swallows_scan_failure_witness :
  scan_error no_scan = Some (OtherException "DB Error") ∧
  handle as_text no_scan (Ok [py_tested_at_0]) "1970-01-03T00:00:00" three_observers
  = ({| statusCode := 200;
        response_body := MonitoringComplete 1 "1970-01-03T00:00:00" |},
     three_observers).
Proof.
  split; [reflexivity|].
  apply (handle_swallows_scan_failure as_text no_scan (OtherException "DB Error")
           [py_tested_at_0] "1970-01-03T00:00:00" three_observers).
  - reflexivity.
  - discriminate.
Defined.


End broadcast_witnesses.

(** * Properties of the DynamoDB client *)
Section client_put_item.
Import Py Models DynamoDB.

(** The turn of the loop that ends it, with no further call. *)
Ltac last_call :=
  cbn [put_item_calls batch_blocks slept stored seq fmap list_fmap throttled];
  rewrite ?app_nil_r, ?Nat.add_0_r;
  split; [done|]; split; [lia|]; split; [first [done|lia]|]; split; [done|];
  split; [intros i Hi; lia|].

Lemma retry_loop_put_item s item : ∀ fuel retries w,
  (fuel + retries = S max_retries)%nat → (0 < fuel)%nat →
  ∃ n r w',
    retry_loop fuel (table_put_item s item) retries w = Some (r, w') ∧
    (retries + n ≤ max_retries)%nat ∧
    put_item_calls w' = (put_item_calls w + S n)%nat ∧
    slept w' = slept w ++ (delay <$> seq (S retries) n) ∧
    (∀ i, (i < n)%nat →
       ∃ f, put_item_fault s (put_item_calls w + i) = Some f ∧
            throttled f = true) ∧
    match r with
    | Returned _ =>
        put_item_fault s (put_item_calls w + n) = None ∧
        ∃ k, key_of item = Some k ∧ stored w' = <[k := item]> (stored w)
    | Raised f =>
        stored w' = stored w ∧
        (put_item_fault s (put_item_calls w + n) = Some f ∨
         (put_item_fault s (put_item_calls w + n) = None ∧
          key_of item = None ∧ f = ClientError "ValidationException")) ∧
        (throttled f = true → (retries + n = max_retries)%nat)
    end.
Proof.
  induction fuel as [|fuel IH]; intros retries w Hfuel Hpos; [lia|].
  cbn [retry_loop]. unfold table_put_item at 1.
  destruct (put_item_fault s (put_item_calls w)) as [f|] eqn:Hfault.
  - destruct (throttled f) eqn:Hthr.
    + case_bool_decide as Hmax.
      * exists 0%nat, (Raised f), 
          {| stored := stored w; put_item_calls := S (put_item_calls w);
             batch_blocks := batch_blocks w; slept := slept w |}.
        last_call. split; [done|]. split; [by left|].
        unfold max_retries in *. lia.
      * destruct (IH (S retries)
                    (sleep (delay (S retries))
                       {| stored := stored w; put_item_calls := S (put_item_calls w);
                          batch_blocks := batch_blocks w; slept := slept w |}))
          as (n & r & w' & Hloop & Hn & Hcalls & Hslept & Hthrottled & Hr);
          [lia|unfold max_retries in *; lia|].
        exists (S n), r, w'. cbn [put_item_calls slept stored sleep] in *.
        split; [done|]. split; [lia|]. split; [lia|]. split.
        { rewrite Hslept. cbn [seq fmap list_fmap]. by rewrite <-app_assoc. }
        split.
        { intros [|i] Hi.
          - rewrite Nat.add_0_r. eauto.
          - destruct (Hthrottled i) as (f' & Hf' & Ht'); [lia|].
            exists f'. split; [|done]. rewrite <-Hf'. f_equal. lia. }
        replace (put_item_calls w + S n)%nat with (S (put_item_calls w) + n)%nat
          by lia.
        destruct r; [done|]. destruct Hr as (? & ? & Hlast).
        split; [done|]. split; [done|]. intros Ht. apply Hlast in Ht. lia.
    + exists 0%nat, (Raised f),
        {| stored := stored w; put_item_calls := S (put_item_calls w);
           batch_blocks := batch_blocks w; slept := slept w |}.
      last_call. split; [done|]. split; [by left|]. congruence.
  - destruct (key_of item) as [k|] eqn:Hkey.
    + exists 0%nat, (Returned ()),
        {| stored := <[k := item]> (stored w); put_item_calls := S (put_item_calls w);
           batch_blocks := batch_blocks w; slept := slept w |}.
      last_call. split; [done|]. by exists k.
    + exists 0%nat, (Raised (ClientError "ValidationException")),
        {| stored := stored w; put_item_calls := S (put_item_calls w);
           batch_blocks := batch_blocks w; slept := slept w |}.
      last_call. split; [done|]. split; [by right|]. done.
Qed.

(** X20: [put_item] always comes to an end, after at most four calls of
    the table: it calls again only after a throttled call, sleeps 0.2, 0.4
    and 0.8 seconds before the second, third and fourth call, returns when
    a call succeeds, which stores the item under its key, and otherwise
    raises what the last call raised and stores nothing; a throttling
    error is raised only by the fourth call. *)
Theorem put_item_retries_throttled_calls {T} s (cls : DynamoDBModel T) item w :
  ∃ n r w',
    put_item s cls item w = Some (r, w') ∧
    (n ≤ 3)%nat ∧
    put_item_calls w' = (put_item_calls w + S n)%nat ∧
    slept w' = slept w ++ take n [2 # 10; 4 # 10; 8 # 10] ∧
    (∀ i, (i < n)%nat →
       ∃ f, put_item_fault s (put_item_calls w + i) = Some f ∧
            throttled f = true) ∧
    match r with
    | Returned _ =>
        put_item_fault s (put_item_calls w + n) = None ∧
        ∃ k, key_of (to_item cls item) = Some k ∧
             stored w' = <[k := to_item cls item]> (stored w)
    | Raised f =>
        stored w' = stored w ∧
        (put_item_fault s (put_item_calls w + n) = Some f ∨
         (put_item_fault s (put_item_calls w + n) = None ∧
          key_of (to_item cls item) = None ∧
          f = ClientError "ValidationException")) ∧
        (throttled f = true → n = 3%nat)
    end.
Proof.
  destruct (retry_loop_put_item s (to_item cls item) (S max_retries) 0 w)
    as (n & r & w' & Hloop & Hn & Hcalls & Hslept & Hthrottled & Hr);
    [done|lia|].
  exists n, r, w'. unfold max_retries in *. simpl in Hn.
  split; [done|]. split; [done|]. split; [done|]. split.
  { rewrite Hslept. f_equal.
    destruct n as [|[|[|[|n]]]]; [done..|lia]. }
  split; [done|]. by destruct r.
Qed.
End client_put_item.

Section client_round_trip.
Import Py Models DynamoDB.

Variable import_time : string.

Lemma put_item_Returned {T} s (cls : DynamoDBModel T) item w w' :
  put_item s cls item w = Some (Returned (), w') →
  ∃ k, key_of (to_item cls item) = Some k ∧
       stored w' = <[k := to_item cls item]> (stored w).
Proof.
  intros Hput.
  destruct (retry_loop_put_item s (to_item cls item) (S max_retries) 0 w)
    as (n & r & w'' & Hloop & _ & _ & _ & _ & Hr); [done|lia|].
  unfold put_item in Hput. rewrite Hloop in Hput. injection Hput as -> ->.
  by destruct Hr as [_ ?].
Qed.

Lemma get_item_stored {T} s (cls : DynamoDBModel T) x pk sk w :
  get_item_fault s pk sk = None →
  stored w !! (pk, sk) = Some (to_item cls x) →
  from_item cls (to_item cls x) = Ok x →
  get_item s cls pk sk w = Returned x.
Proof. unfold get_item. by intros -> -> ->. Qed.

(** X21: an instance that [put_item] has written is what [get_item]
    returns for its key, for the three models, and the items under the
    other keys are as they were. *)
Theorem get_item_after_put_item s s' w w' :
  (∀ x : Patient,
     put_item s (Patient_cls import_time) x w = Some (Returned (), w') →
     let pk := pk (Patient_cls import_time) x in
     let sk := sk (Patient_cls import_time) x in
     (get_item_fault s' pk sk = None →
      get_item s' (Patient_cls import_time) pk sk w' = Returned x) ∧
     ∀ k, k ≠ (pk, sk) → stored w' !! k = stored w !! k) ∧
  (∀ x : Admission,
     put_item s (Admission_cls import_time) x w = Some (Returned (), w') →
     let pk := pk (Admission_cls import_time) x in
     let sk := sk (Admission_cls import_time) x in
     (get_item_fault s' pk sk = None →
      get_item s' (Admission_cls import_time) pk sk w' = Returned x) ∧
     ∀ k, k ≠ (pk, sk) → stored w' !! k = stored w !! k) ∧
  (∀ x : LabTest,
     put_item s (LabTest_cls import_time) x w = Some (Returned (), w') →
     let pk := pk (LabTest_cls import_time) x in
     let sk := sk (LabTest_cls import_time) x in
     (get_item_fault s' pk sk = None →
      get_item s' (LabTest_cls import_time) pk sk w' = Returned x) ∧
     ∀ k, k ≠ (pk, sk) → stored w' !! k = stored w !! k).
Proof.
  split; [|split]; intros x Hput pk sk;
    apply put_item_Returned in Hput as (k & Hk & Hstored);
    (assert (k = (pk, sk)) as -> by (destruct x; by injection Hk as <-));
    (split;
       [intros Hget; apply get_item_stored;
          [done|rewrite Hstored; apply lookup_insert_eq|by destruct x]
       |intros k Hne; rewrite Hstored; by apply lookup_insert_ne]).
Qed.
End client_round_trip.

Section client_batch_write.
Import Py Models DynamoDB.

Lemma chunks_from {A B} (f : A → B) (l : list A) : ∀ m j,
  concat ((λ i, f <$> take 25 (drop i l)) <$> ((λ k, k * 25)%nat <$> seq j m))
  = f <$> take (m * 25) (drop (j * 25) l).
Proof.
  induction m as [|m IH]; intros j; [done|].
  cbn [seq fmap list_fmap concat]. rewrite IH.
  replace (S j * 25)%nat with (j * 25 + 25)%nat by lia.
  rewrite <-drop_drop, <-fmap_app, take_take_drop. f_equal.
Qed.

Lemma range_step_25 (n k : nat) :
  let m := ((n + 25 - 1) / 25)%nat in
  (n ≤ m * 25)%nat ∧ ((k < m)%nat → (k * 25 < n)%nat).
Proof.
  intros m. subst m.
  pose proof (Nat.div_mod_eq (n + 25 - 1) 25) as Hdiv.
  pose proof (Nat.mod_upper_bound (n + 25 - 1) 25) as Hmod.
  split; [lia|]. intros Hk. nia.
Qed.

Lemma retry_loop_batch_writer s chunk : ∀ fuel retries w,
  (fuel + retries = S max_retries)%nat → (0 < fuel)%nat →
  ∃ r w' blocks,
    retry_loop fuel (batch_writer_block s chunk) retries w = Some (r, w') ∧
    batch_blocks w' = batch_blocks w ++ blocks ∧
    (length blocks ≤ fuel)%nat ∧
    Forall (λ b, b.1 = chunk) blocks ∧
    match r with
    | Returned _ => completed blocks = [chunk]
    | Raised f => completed blocks = [] ∧ last blocks = Some (chunk, Some f)
    end.
Proof.
  induction fuel as [|fuel IH]; intros retries w Hfuel Hpos; [lia|].
  cbn [retry_loop]. unfold batch_writer_block at 1.
  destruct (batch_writer_fault s (length (batch_blocks w))) as [f|] eqn:Hfault.
  - assert (completed [(chunk, Some f)] = []) as Hnone by done.
    destruct (throttled f) eqn:Hthr; [case_bool_decide as Hmax|].
    + exists (Raised f), 
        {| stored := stored w; put_item_calls := put_item_calls w;
           batch_blocks := batch_blocks w ++ [(chunk, Some f)];
           slept := slept w |}, [(chunk, Some f)].
      repeat split; simpl; try done; try lia. by constructor.
    + destruct (IH (S retries)
                  (sleep (delay (S retries))
                     {| stored := stored w; put_item_calls := put_item_calls w;
                        batch_blocks := batch_blocks w ++ [(chunk, Some f)];
                        slept := slept w |}))
        as (r & w' & blocks & Hloop & Hblocks & Hlen & Hall & Hr);
        [lia|unfold max_retries in *; lia|].
      exists r, w', ((chunk, Some f) :: blocks).
      cbn [batch_blocks sleep] in Hblocks.
      split; [done|]. split; [by rewrite Hblocks, <-app_assoc|].
      split; [simpl; lia|]. split; [by constructor|].
      destruct r; [done|]. destruct Hr as [Hc Hlast].
      split; [done|]. by rewrite last_cons, Hlast.
    + exists (Raised f), 
        {| stored := stored w; put_item_calls := put_item_calls w;
           batch_blocks := batch_blocks w ++ [(chunk, Some f)];
           slept := slept w |}, [(chunk, Some f)].
      repeat split; simpl; try done; try lia. by constructor.
  - exists (Returned ()), 
      {| stored := stored w; put_item_calls := put_item_calls w;
         batch_blocks := batch_blocks w ++ [(chunk, None)];
         slept := slept w |}, [(chunk, None)].
    repeat split; simpl; try done; try lia. by constructor.
Qed.

Lemma batch_write_chunks_blocks s : ∀ chunks w,
  ∃ r w' blocks,
    batch_write_chunks s chunks w = Some (r, w') ∧
    batch_blocks w' = batch_blocks w ++ blocks ∧
    (length blocks ≤ 4 * length chunks)%nat ∧
    Forall (λ b, b.1 ∈ chunks) blocks ∧
    match r with
    | Returned _ => completed blocks = chunks
    | Raised f =>
        (∃ k, (k < length chunks)%nat ∧ completed blocks = take k chunks) ∧
        ∃ chunk, last blocks = Some (chunk, Some f)
    end.
Proof.
  induction chunks as [|chunk chunks IH]; intros w.
  { exists (Returned ()), w, []. by rewrite app_nil_r. }
  cbn [batch_write_chunks].
  destruct (retry_loop_batch_writer s chunk (S max_retries) 0 w)
    as (r & w1 & blocks & -> & Hblocks & Hlen & Hall & Hr); [done|lia|].
  assert (Forall (λ b, b.1 ∈ chunk :: chunks) blocks) as Hin.
  { eapply Forall_impl; [exact Hall|]. intros b ->. by left. }
  destruct r as [[]|f].
  - destruct (IH w1) as (r & w' & blocks' & -> & Hblocks' & Hlen' & Hall' & Hr').
    exists r, w', (blocks ++ blocks').
    split; [done|]. split; [by rewrite Hblocks', Hblocks, <-app_assoc|].
    split; [rewrite length_app; unfold max_retries in *; simpl in *; lia|].
    split.
    { apply Forall_app. split; [done|].
      eapply Forall_impl; [exact Hall'|]. intros b ?. by right. }
    unfold completed in *. rewrite omap_app, Hr.
    destruct r as [[]|f].
    + by rewrite Hr'.
    + destruct Hr' as [(k & Hk & Hc) (c & Hlast)]. split.
      * exists (S k). split; [simpl; lia|]. by rewrite Hc.
      * exists c. rewrite last_app, Hlast. done.
  - exists (Raised f), w1, blocks. destruct Hr as [Hc Hlast].
    split; [done|]. split; [done|].
    split; [unfold max_retries in *; simpl in *; lia|]. split; [done|].
    split; [|by exists chunk]. exists 0%nat. split; [simpl; lia|done].
Qed.

(** X22: [batch_write] always comes to an end.  It hands the items to
    batch writers in chunks of at most 25, in their order, and runs in all
    at most four times as many blocks as there are chunks.  When it returns, every item has been
    handed to a writer whose block raised nothing, each item once in such
    a block; when it raises, it raises what the last block raised, and the
    blocks that raised nothing cover a whole number of chunks at the
    front of the list and not all of it. *)
Theorem batch_write_hands_over_chunks {T} s (cls : DynamoDBModel T) items w :
  ∃ r w' blocks,
    batch_write s cls items w = Some (r, w') ∧
    batch_blocks w' = batch_blocks w ++ blocks ∧
    (length blocks ≤ 4 * ((length items + 24) / 25))%nat ∧
    Forall (λ b, (0 < length b.1 ≤ 25)%nat) blocks ∧
    match r with
    | Returned _ => concat (completed blocks) = to_item cls <$> items
    | Raised f =>
        (∃ k, (k * 25 < length items)%nat ∧
              concat (completed blocks) = to_item cls <$> take (k * 25) items) ∧
        ∃ chunk, last blocks = Some (chunk, Some f)
    end.
Proof.
  unfold batch_write, range_step.
  set (n := length items). set (m := ((n + 25 - 1) / 25)%nat).
  set (chunks := (λ i, to_item cls <$> take 25 (drop i items))
                 <$> ((λ k, k * 25)%nat <$> seq 0 m)).
  assert (length chunks = m) as Hm.
  { unfold chunks. by rewrite !length_fmap, length_seq. }
  assert (∀ k, (k ≤ m)%nat →
            concat (take k chunks) = to_item cls <$> take (k * 25) items) as Hk.
  { intros k Hk. unfold chunks. rewrite <-!fmap_take, take_seq.
    rewrite Nat.min_l by done. by rewrite chunks_from. }
  destruct (batch_write_chunks_blocks s chunks w)
    as (r & w' & blocks & Hrun & Hblocks & Hlen & Hall & Hr).
  exists r, w', blocks. split; [done|]. split; [done|]. split.
  { rewrite Hm in Hlen. subst m. by replace (n + 24)%nat with (n + 25 - 1)%nat by lia. }
  split.
  { eapply Forall_impl; [exact Hall|]. intros b Hb. unfold chunks in Hb.
    apply list_elem_of_fmap in Hb as (i & -> & Hi).
    apply list_elem_of_fmap in Hi as (k & -> & Hi).
    apply elem_of_seq in Hi. 
    destruct (range_step_25 n k) as [_ Hlt]. fold m in Hlt.
    rewrite length_fmap, length_take, length_drop. fold n. lia. }
  destruct r as [[]|f].
  - rewrite Hr. rewrite <-(take_ge chunks m) by lia. rewrite Hk by done.
    destruct (range_step_25 n 0) as [Hle _]. fold m in Hle.
    by rewrite take_ge.
  - destruct Hr as [(k & Hlt & Hc) Hlast]. split; [|done].
    exists k. destruct (range_step_25 n k) as [_ Hn]. fold m in Hn.
    split; [lia|]. rewrite Hc. apply Hk. lia.
Qed.
End client_batch_write.

(** * Further properties of the configuration *)
Section config_loading.
Import Py Config.

Lemma validate_int_Ok name f v z :
  validate_int name f v = Ok z →
  z = field_default f ∨ within f z = true.
Proof.
  unfold validate_int. destruct v as [v|]; [|intros [= <-]; by left].
  destruct (within f v) eqn:Hw; [|done]. intros [= <-]. by right.
Qed.

(** A validated attribute: its default, or a value within its bounds. *)
Ltac validated H :=
  apply validate_int_Ok in H as [->|H];
  [cbn [field_default]; lia
  |unfold within in H; cbn [ge le] in H;
   rewrite ?andb_true_r in H; repeat (apply andb_prop in H as [H ?]);
   repeat match goal with
          | Hb : bool_decide _ = true |- _ => apply bool_decide_eq_true in Hb
          end; lia].

Lemma MonitoringConfig_validate_bounds r m :
  MonitoringConfig_validate r = Ok m →
  1 ≤ test_alert_threshold m ∧ 1 ≤ warning_threshold m ∧
  10 ≤ check_interval m ∧ 1 ≤ batch_size m ≤ 1000.
Proof.
  unfold MonitoringConfig_validate. intros H.
  apply bind_Ok in H as (a & Ha & H). apply bind_Ok in H as (w & Hw & H).
  apply bind_Ok in H as (c & Hc & H). apply bind_Ok in H as (b & Hb & H).
  injection H as <-. cbn.
  split; [validated Ha|]. split; [validated Hw|]. split; [validated Hc|].
  validated Hb.
Qed.

Lemma ApiConfig_validate_bounds r a :
  ApiConfig_validate r = Ok a →
  1 ≤ rate_limit a ∧ 1 ≤ timeout a ≤ 900 ∧ 1 ≤ max_payload_size a ≤ 10.
Proof.
  unfold ApiConfig_validate. intros H.
  apply bind_Ok in H as (l & Hl & H). apply bind_Ok in H as (t & Ht & H).
  apply bind_Ok in H as (m & Hm & H). injection H as <-. cbn.
  split; [validated Hl|]. split; [validated Ht|]. validated Hm.
Qed.

Lemma WebSocketConfig_validate_bounds r w :
  WebSocketConfig_validate r = Ok w →
  60 ≤ connection_ttl w ∧ 1 ≤ message_retention w.
Proof.
  unfold WebSocketConfig_validate. intros H.
  apply bind_Ok in H as (t & Ht & H). apply bind_Ok in H as (m & Hm & H).
  injection H as <-. cbn. split; [validated Ht|validated Hm].
Qed.

Lemma SecurityConfig_validate_bounds r s :
  SecurityConfig_validate r = Ok s →
  0 ≤ cors_max_age s ∧ 1 ≤ api_key_rotation s.
Proof.
  unfold SecurityConfig_validate. intros H.
  apply bind_Ok in H as (c & Hc & H). apply bind_Ok in H as (k & Hk & H).
  injection H as <-. cbn. split; [validated Hc|validated Hk].
Qed.

(** X23: a configuration that [load_config] returns has every numeric
    attribute within the bounds its [Field] declares, whether the document
    gave the attribute or left it to its default. *)
Theorem load_config_within_bounds getenv_STAGE file cfg :
  load_config getenv_STAGE file = Ok cfg →
  (1 ≤ test_alert_threshold (monitoring cfg) ∧
   1 ≤ warning_threshold (monitoring cfg) ∧
   10 ≤ check_interval (monitoring cfg) ∧
   1 ≤ batch_size (monitoring cfg) ≤ 1000) ∧
  (1 ≤ rate_limit (api cfg) ∧ 1 ≤ timeout (api cfg) ≤ 900 ∧
   1 ≤ max_payload_size (api cfg) ≤ 10) ∧
  (60 ≤ connection_ttl (websocket cfg) ∧
   1 ≤ message_retention (websocket cfg)) ∧
  (0 ≤ cors_max_age (security cfg) ∧ 1 ≤ api_key_rotation (security cfg)).
Proof.
  unfold load_config. intros H.
  apply bind_Ok in H as (data & _ & H).
  apply bind_Ok in H as (development & _ & H).
  apply bind_Ok in H as (t & _ & H). apply bind_Ok in H as (m & _ & H).
  apply bind_Ok in H as (a & _ & H). apply bind_Ok in H as (w & _ & H).
  apply bind_Ok in H as (s & _ & H). apply bind_Ok in H as (t' & _ & H).
  apply bind_Ok in H as (m' & Hm & H). apply bind_Ok in H as (a' & Ha & H).
  apply bind_Ok in H as (w' & Hw & H). apply bind_Ok in H as (s' & Hs & H).
  apply bind_Ok in H as (e & _ & H). injection H as <-. cbn.
  split; [by eapply MonitoringConfig_validate_bounds|].
  split; [by eapply ApiConfig_validate_bounds|].
  split; [by eapply WebSocketConfig_validate_bounds|].
  by eapply SecurityConfig_validate_bounds.
Qed.


(** X25: [get_config] loads once.  After a call that has returned a
    configuration, every later call returns that configuration whatever
    the file and [STAGE] have become, and [get_table_name],
    [get_dynamodb_endpoint] and [is_local_environment] answer from it; a
    load that raises is not kept, and the next call loads again. *)
Theorem get_config_loads_once getenv_STAGE file getenv_STAGE' file' table :
  match get_config getenv_STAGE file None with
  | (Ok cfg, cache) =>
      get_config getenv_STAGE' file' cache = (Ok cfg, cache) ∧
      get_table_name getenv_STAGE' file' table cache
      = (match lookup_table (tables cfg) table with
         | Some t => Ok (table_name t)
         | None => Raise ValueError
         end, cache) ∧
      get_dynamodb_endpoint getenv_STAGE' file' cache
      = (Ok (DYNAMODB_ENDPOINT (environment cfg)), cache) ∧
      is_local_environment getenv_STAGE' file' cache
      = (Ok (bool_decide (STAGE (environment cfg) ∈ ["development"; "test"])),
         cache)
  | (Raise e, cache) =>
      get_config getenv_STAGE' file' cache
      = get_config getenv_STAGE' file' None
  end.
Proof.
  unfold get_table_name, get_dynamodb_endpoint, is_local_environment, get_config.
  destruct (load_config getenv_STAGE file) as [cfg|e]; [|done].
  split; [done|]. split; [|done]. by destruct (lookup_table (tables cfg) table).
Qed.
End config_loading.

Section client_witnesses.
Import Py Models DynamoDB.

(** Two throttled calls, then a call that succeeds: three calls, and
    sleeps of 0.2 and 0.4 seconds. *)
Lemma put_item_after_two_throttled_calls :
  put_item throttled_twice (Patient_cls loaded_at) john empty_table
  = Some (Returned (),
          {| stored := {[ ("PATIENT#P123", "METADATA")
                          := to_item (Patient_cls loaded_at) john ]};
             put_item_calls := 3; batch_blocks := [];
             slept := [2 # 10; 4 # 10] |}).
Proof. vm_compute. reflexivity. Qed.

Lemma get_item_after_put_item_witness :
  let w' := {| stored := {[ ("PATIENT#P123", "METADATA")
                            := to_item (Patient_cls loaded_at) john ]};
               put_item_calls := 3; batch_blocks := [];
               slept := [2 # 10; 4 # 10] |} in
  put_item throttled_twice (Patient_cls loaded_at) john empty_table
  = Some (Returned (), w') ∧
  get_item dependable (Patient_cls loaded_at) "PATIENT#P123" "METADATA" w'
  = Returned john.
Proof.
  intros w'.
  assert (put_item throttled_twice (Patient_cls loaded_at) john empty_table
          = Some (Returned (), w')) as H by (vm_compute; reflexivity).
  split; [exact H|].
  apply (proj1 (get_item_after_put_item loaded_at throttled_twice dependable
                  empty_table w') john H).
  reflexivity.
Defined.
End client_witnesses.

Section config_witnesses.
Import Py Config.

Lemma load_config_within_bounds_witness :
  load_config (Some "production") (Ok (document 48 36)) = Ok production ∧
  (1 ≤ test_alert_threshold (monitoring production) ∧
   1 ≤ warning_threshold (monitoring production) ∧
   10 ≤ check_interval (monitoring production) ∧
   1 ≤ batch_size (monitoring production) ≤ 1000) ∧
  (1 ≤ rate_limit (api production) ∧ 1 ≤ timeout (api production) ≤ 900 ∧
   1 ≤ max_payload_size (api production) ≤ 10) ∧
  (60 ≤ connection_ttl (websocket production) ∧
   1 ≤ message_retention (websocket production)) ∧
  (0 ≤ cors_max_age (security production) ∧
   1 ≤ api_key_rotation (security production)).
Proof.
  assert (load_config (Some "production") (Ok (document 48 36)) = Ok production)
    as H by (vm_compute; reflexivity).
  split; [exact H|].
  exact (load_config_within_bounds (Some "production") (Ok (document 48 36))
           production H).
Defined.

End config_witnesses.

(** * The stored columns do not follow the clock *)
Section frozen_columns.
Import Migration.

Lemma map_lookup_filter_keep `{Countable K} {A} (P : K * A → Prop)
    `{!∀ x, Decision (P x)} (m : gmap K A) k :
  (∀ v, m !! k = Some v → P (k, v)) → filter P m !! k = m !! k.
Proof.
  intros HP. destruct (m !! k) as [v|] eqn:Hk.
  - apply map_lookup_filter_Some_2; [done|]. by apply HP.
  - apply map_lookup_filter_None_2. by left.
Qed.

Lemma write_admission_untouched now c d aid pid :
  admission_id c ≠ aid →
  admissions (write_admission now c d) !! aid = admissions d !! aid ∧
  monitoring_queue (write_admission now c d) !! (pid, aid)
  = monitoring_queue d !! (pid, aid).
Proof.
  intros Hne. unfold write_admission. simpl.
  rewrite lookup_insert_ne by done. split; [done|].
  apply update_monitoring_queue_other. simpl. by intros [= _ ?].
Qed.

Lemma update_admission_last_test_untouched now t d aid pid :
  referential d → lt_admission_id t ≠ aid →
  admissions (update_admission_last_test now t d) !! aid = admissions d !! aid ∧
  monitoring_queue (update_admission_last_test now t d) !! (pid, aid)
  = monitoring_queue d !! (pid, aid).
Proof.
  intros (Ha & _) Hne. unfold update_admission_last_test.
  destruct (admissions d !! lt_admission_id t) as [row|] eqn:Hrow; [|done].
  destruct (advances _ _); [|done].
  apply write_admission_untouched. simpl.
  apply Ha in Hrow as [-> _]. done.
Qed.

Lemma exec_untouched now s d d' aid (row : admission_row) :
  referential d → admissions d !! aid = Some row →
  ¬ touches (patient_id row) aid s →
  exec now s d = Some d' →
  admissions d' !! aid = Some row ∧
  q_hours_since_test <$> monitoring_queue d' !! (patient_id row, aid)
  = q_hours_since_test <$> monitoring_queue d !! (patient_id row, aid).
Proof.
  intros Hd Hrow Hs. destruct s; simpl in Hs |- *.
  - unfold insert_patient. case_bool_decide; [done|]. by intros [= <-].
  - intros [= <-]. unfold delete_patient. simpl.
    assert (filter (λ kv : string * admission_row, patient_id kv.2 ≠ pid)
              (admissions d) !! aid = Some row) as Hkept.
    { apply map_lookup_filter_Some_2; [done|]. simpl. congruence. }
    split; [done|]. f_equal. apply map_lookup_filter_keep.
    intros v _. simpl. split; [congruence|]. by rewrite Hkept.
  - unfold insert_admission.
    destruct (admissions d !! admission_id c); [done|].
    case_bool_decide; [|done]. intros [= <-].
    destruct (write_admission_untouched now c d aid (patient_id row) Hs)
      as [-> ->]. done.
  - unfold update_admission.
    destruct (admissions d !! admission_id c); [|by intros [= <-]].
    case_bool_decide; [|done]. intros [= <-].
    destruct (write_admission_untouched now c d aid (patient_id row) Hs)
      as [-> ->]. done.
  - intros [= <-]. unfold delete_admission. simpl.
    rewrite lookup_delete_ne by done. split; [done|]. f_equal.
    apply map_lookup_filter_keep. intros v _. simpl. congruence.
  - unfold insert_lab_test.
    destruct (lab_tests d !! test_id t); [done|].
    destruct (lab_test_fk_ok _ _) eqn:Hfk; [|done]. intros [= <-].
    destruct (update_admission_last_test_untouched now t
                (with_lab_tests (<[test_id t := t]> (lab_tests d)) d)
                aid (patient_id row)) as [-> ->];
      [by apply with_lab_tests_referential|done|done].
  - unfold update_lab_test.
    destruct (lab_tests d !! test_id t); [|by intros [= <-]].
    destruct (lab_test_fk_ok _ _) eqn:Hfk; [|done]. intros [= <-].
    destruct (update_admission_last_test_untouched now t
                (with_lab_tests (<[test_id t := t]> (lab_tests d)) d)
                aid (patient_id row)) as [-> ->];
      [by apply with_lab_tests_referential|done|done].
  - destruct (process_monitoring_batch _ _ _ _) as [r|] eqn:Hr; [|done].
    simpl. intros [= <-].
    unfold process_monitoring_batch in Hr.
    case_bool_decide; [done|]. injection Hr as <-. simpl.
    split; [done|]. rewrite stamped_lookup. destruct (decide _); [|done].
    by rewrite <-option_fmap_compose.
Qed.

Lemma run_untouched script : ∀ d aid (row : admission_row),
  referential d → admissions d !! aid = Some row →
  Forall (λ ts, ¬ touches (patient_id row) aid ts.2) script →
  admissions (run script d) !! aid = Some row ∧
  q_hours_since_test <$> monitoring_queue (run script d) !! (patient_id row, aid)
  = q_hours_since_test <$> monitoring_queue d !! (patient_id row, aid).
Proof.
  induction script as [|[now s] script IH]; intros d aid row Hd Hrow Hall;
    [done|].
  apply Forall_cons in Hall as [Hs Hall]. simpl in Hs.
  change (run ((now, s) :: script) d)
    with (run script (exec_or_rollback d (now, s))).
  unfold exec_or_rollback. cbn [fst snd].
  destruct (exec now s d) as [d'|] eqn:He; cbn [default from_option id].
  - destruct (exec_untouched now s d d' aid row Hd Hrow Hs He) as [Hrow' Hq].
    destruct (IH d' aid row) as [? Hq']; [by eapply exec_referential|done..|].
    split; [done|]. by rewrite Hq', Hq.
  - by apply IH.
Qed.

(** X26: the generated columns and the queue are written when a statement
    writes the row, and the clock alone changes neither.  Through any
    later statements, run at any times, that do not name the admission (no
    insert, update or delete of it, no test of it, no delete of its
    patient), the stored row of the admission, its [needs_attention] and
    [hours_since_test] included, stays as it is, and so do its place in
    the queue and the hours the queue shows for it. *)
Theorem clock_alone_changes_nothing before after aid (row : admission_row) :
  let d := run before empty_db in
  let d' := run after d in
  admissions d !! aid = Some row →
  Forall (λ ts, ¬ touches (patient_id row) aid ts.2) after →
  admissions d' !! aid = Some row ∧
  (is_Some (monitoring_queue d' !! (patient_id row, aid))
   ↔ is_Some (monitoring_queue d !! (patient_id row, aid))) ∧
  q_hours_since_test <$> monitoring_queue d' !! (patient_id row, aid)
  = q_hours_since_test <$> monitoring_queue d !! (patient_id row, aid).
Proof.
  intros d d' Hrow Hafter. subst d'.
  destruct (run_untouched after d aid row) as [Hrow' Hq];
    [by apply run_referential, empty_db_referential|done..|].
  split; [done|]. split; [|done].
  by rewrite <-!(fmap_is_Some q_hours_since_test), Hq.
Qed.
End frozen_columns.

(** * Properties of the query for patients without tests *)
Section query_order.
Import Py Models DynamoDB GetPatients.

Lemma key_lt_asym a b : key_lt a b = Ok true → key_lt b a = Ok false.
Proof.
  destruct a as [|x|x], b as [|y|y]; simpl; try done.
  - intros [= Hlt%bool_decide_eq_true]. f_equal. apply bool_decide_eq_false. lia.
  - rewrite (String.compare_antisym y x).
    by destruct (String.compare x y).
Qed.

Lemma insert_desc_Ok x : ∀ l l',
  insert_desc x l = Ok l' →
  Sorted not_below l → Sorted not_below l' ∧ l' ≡ₚ x :: l.
Proof.
  induction l as [|y l IH]; intros l'; cbn [insert_desc].
  - intros [= <-] _. split; [by repeat constructor|done].
  - intros H Hsorted. apply bind_Ok in H as (lt & Hlt & H).
    destruct lt.
    + apply bind_Ok in H as (l'' & Hins & [= <-]).
      apply Sorted_inv in Hsorted as [Hl Hhd].
      destruct (IH l'' Hins Hl) as [Hs Hp]. split.
      * constructor; [done|].
        destruct l as [|z l]; cbn [insert_desc] in Hins.
        { injection Hins as <-. constructor. by apply key_lt_asym. }
        apply bind_Ok in Hins as (lt' & _ & Hins). destruct lt'.
        -- apply bind_Ok in Hins as (l3 & _ & [= <-]).
           constructor. by apply HdRel_inv in Hhd.
        -- injection Hins as <-. constructor. by apply key_lt_asym.
      * rewrite Hp. apply perm_swap.
    + injection H as <-. split; [|done]. constructor; [done|]. by constructor.
Qed.

Lemma sort_desc_Ok : ∀ l l',
  sort_desc l = Ok l' → Sorted not_below l' ∧ l' ≡ₚ l.
Proof.
  induction l as [|x l IH]; intros l'; cbn [sort_desc].
  - intros [= <-]. by split; [constructor|].
  - intros H. apply bind_Ok in H as (l0 & Hl0 & H).
    destruct (IH l0 Hl0) as [Hs Hp].
    destruct (insert_desc_Ok x l0 l' H Hs) as [Hs' Hp'].
    split; [done|]. by rewrite Hp', Hp.
Qed.

Variable import_time : string.
Variable lower : string → string.

Lemma filter_ward_Ok ward : ∀ admissions selected,
  filter_ward lower ward admissions = Ok selected →
  ∀ a, a ∈ selected ↔
       a ∈ admissions ∧ ∃ w', a_ward a = PyStr w' ∧ lower w' = lower ward.
Proof.
  induction admissions as [|a0 admissions IH]; intros selected;
    cbn [filter_ward].
  - intros [= <-] a. split; [by intros ?%elem_of_nil|].
    by intros [?%elem_of_nil _].
  - destruct (a_ward a0) as [|w|] eqn:Hw; [done| |done].
    intros H. apply bind_Ok in H as (rest & Hrest & [= <-]).
    intros a. specialize (IH rest Hrest a). rewrite elem_of_cons.
    case_bool_decide as Hlow.
    + rewrite elem_of_cons, IH. split.
      * intros [->|[? ?]]; [|by auto]. split; [by left|]. by exists w.
      * intros [[->|?] ?]; auto.
    + rewrite IH. split; [intros [? ?]; by auto|].
      intros [[->|?] (w' & Hw' & ?)]; [congruence|]. split; [done|].
      by exists w'.
Qed.

(** X27: when [get_patients_without_tests] returns, its entries are the
    admissions of the query that are in the ward asked for and whose
    patient [get_patient_details] finds, an admission without details
    being left out in silence; and they are in descending order of
    [hoursSinceTest], where a missing value and the value [0] both count
    as infinity and so come first. *)
Theorem get_patients_without_tests_sorted s patients_table query ward results :
  get_patients_without_tests import_time lower s patients_table query ward
  = Returned results →
  Sorted not_below results ∧
  ∃ admissions,
    query = Returned admissions ∧
    ∀ r, r ∈ results ↔
         ∃ a d, a ∈ admissions ∧ in_ward lower ward a ∧
                get_patient_details import_time s patients_table
                  (a_patient_id a) = Some d ∧
                r = entry_of a d.
Proof.
  unfold get_patients_without_tests.
  destruct query as [admissions|f]; [|done].
  match goal with
  | |- context [?m ≫= ?k] => destruct (m ≫= k) as [sorted|e] eqn:H; [|done]
  end.
  intros [= <-]. apply bind_Ok in H as (selected & Hsel & Hsort).
  apply sort_desc_Ok in Hsort as [Hs Hp]. split; [done|].
  exists admissions. split; [done|]. intros r. rewrite Hp.
  unfold collect. rewrite list_elem_of_omap.
  assert (∀ a, a ∈ selected ↔ a ∈ admissions ∧ in_ward lower ward a) as Hin.
  { destruct ward as [w|]; cbn [in_ward].
    - destruct (truthy (PyStr w)) eqn:Hw.
      + intros a. rewrite (filter_ward_Ok w admissions selected Hsel a).
        split; [intros [? ?]; by auto|]. intros [? Hward]. split; [done|].
        by apply Hward.
      + injection Hsel as <-. intros a. split; [|by intros [? _]].
        intros ?. split; [done|]. done.
    - injection Hsel as <-. intros a. split; [by auto|]. by intros [? _]. }
  split.
  - intros (a & Ha & Hr). apply Hin in Ha as [Ha Hw].
    destruct (get_patient_details _ _ _ _) as [d|] eqn:Hd; [|done].
    injection Hr as <-. by exists a, d.
  - intros (a & d & Ha & Hw & Hd & ->). exists a. split; [by apply Hin|].
    by rewrite Hd.
Qed.
End query_order.

Section frozen_witness.
Import Migration.

(** Tested at time 0 and written 10 hours later, the admission is not in
    the queue, and is not 200 hours later either. *)
Lemma clock_alone_changes_nothing_witness :
  let row := store_admission (10 * hour) tested_at_0 in
  let d := run tested_arrival empty_db in
  let d' := run other_business d in
  monitoring_queue d' !! ("P123", "A456") = None ∧
  admissions d' !! "A456" = Some row ∧
  (is_Some (monitoring_queue d' !! (patient_id row, "A456"))
   ↔ is_Some (monitoring_queue d !! (patient_id row, "A456"))) ∧
  q_hours_since_test <$> monitoring_queue d' !! (patient_id row, "A456")
  = q_hours_since_test <$> monitoring_queue d !! (patient_id row, "A456").
Proof.
  intros row d d'. split; [vm_compute; reflexivity|].
  apply (clock_alone_changes_nothing tested_arrival other_business "A456" row).
  - vm_compute. reflexivity.
  - repeat constructor; simpl; [tauto|tauto|discriminate].
Defined.
End frozen_witness.

Section query_witness.
Import Py Models DynamoDB GetPatients.

(** The never tested admission comes first, the admission of the unknown
    patient is left out. *)
Lemma get_patients_without_tests_sorted_witness :
  let query := Returned [py_tested_at_0; py_unknown_patient; py_never_tested] in
  let results := [entry_of py_never_tested john_details;
                  entry_of py_tested_at_0 john_details] in
  get_patients_without_tests loaded_at (λ w, w) dependable one_patient query None
  = Returned results ∧
  Sorted not_below results ∧
  ∃ admissions,
    query = Returned admissions ∧
    ∀ r, r ∈ results ↔
         ∃ a d, a ∈ admissions ∧ in_ward (λ w, w) None a ∧
                get_patient_details loaded_at dependable one_patient
                  (a_patient_id a) = Some d ∧
                r = entry_of a d.
Proof.
  intros query results.
  assert (get_patients_without_tests loaded_at (λ w, w) dependable one_patient
            query None = Returned results) as H by (vm_compute; reflexivity).
  split; [exact H|].
  exact (get_patients_without_tests_sorted loaded_at (λ w, w) dependable
           one_patient query None results H).
Defined.
End query_witness.
